(** * Command generation of the Control Freak eDIDIO lights

    A shallow embedding of [custom_components/control_Freak_edidio/light.py]:
    the entity state of [ControlFreakLight], the message-id closure of
    [get_message_id_generator], the handlers [async_turn_on] and
    [async_turn_off] with their per-protocol command generation, the
    colour conversion [rgb_to_xy_16bit], the colour-mode properties,
    [async_update], the two setters and the platform's
    [async_setup_entry].

    Python's [float] is IEEE 754 binary64, which is the kernel's primitive
    [float]: every [/], [*], [+], [-] and comparison of the source is the
    primitive operation on the same operands, and [int(...)] is truncation
    towards zero of the resulting double. Integers are [Z]. *)

From Stdlib Require Import ZArith List Bool String Lia Floats QArith Qround.
Import ListNotations.

Set Warnings "-inexact-float".

Open Scope Z_scope.

(** ** Exceptions and results *)

(** The exception classes the handlers distinguish (the three transport
    errors of [edidio_control_py.exceptions]) and the built-in ones the
    arithmetic of the source can raise. *)
Inductive exn : Type :=
| EDIDIOConnectionError
| EDIDIOCommunicationError
| EDIDIOTimeoutError
| ZeroDivisionError
| OverflowError
| ValueError
| TypeError
| OtherException.

Inductive result (A : Type) : Type :=
| Ok (a : A)
| Raise (e : exn).
Arguments Ok {A} a.
Arguments Raise {A} e.

Definition rbind {A B : Type} (r : result A) (k : A -> result B) : result B :=
  match r with
  | Ok a => k a
  | Raise e => Raise e
  end.

Declare Scope result_scope.
Delimit Scope result_scope with result.
Notation "'try!' x := r 'in' k" := (rbind r (fun x => k))
  (at level 10, x pattern, r at level 100, k at level 200) : result_scope.

(** ** Python numbers *)

Module PyNum.

(** [float(z)] for an [int]: the nearest double, ties to even; Python
    raises [OverflowError] when the integer is beyond the doubles. *)
Definition Z2F (z : Z) : float := SF2Prim (binary_normalize prec emax z 0 false).

Definition float_of_int (z : Z) : result float :=
  let f := Z2F z in
  if is_finite f then Ok f else Raise OverflowError.

(** [int(f)] for a [float]: truncation towards zero; [ValueError] on a
    NaN and [OverflowError] on an infinity. *)
Definition py_int (f : float) : result Z :=
  match Prim2SF f with
  | S754_zero _ => Ok 0
  | S754_finite s m e =>
      let a := match e with
               | Zneg k => Z.shiftr (Zpos m) (Zpos k)
               | _ => Z.shiftl (Zpos m) e
               end in
      Ok (if s then - a else a)
  | S754_infinity _ => Raise OverflowError
  | S754_nan => Raise ValueError
  end.

(** A value that is an [int] or a [float] at run time, as the arguments
    of [rgb_to_xy_16bit] are. *)
Inductive number : Type :=
| Int (z : Z)
| Float (f : float).

Definition to_float (n : number) : result float :=
  match n with
  | Int z => float_of_int z
  | Float f => Ok f
  end.

(** [n > 1]: Python compares an [int] with an [int] exactly. *)
Definition gt_one (n : number) : bool :=
  match n with
  | Int z => 1 <? z
  | Float f => (1 <? f)%float
  end.

(** [a / b] on two [int]s (true division): the double nearest to the
    quotient, which for operands below 2^53 in magnitude is the quotient
    of their doubles; [ZeroDivisionError] on a zero divisor. *)
Definition int_truediv (a b : Z) : result float :=
  if b =? 0 then Raise ZeroDivisionError
  else (try! fa := float_of_int a in
        try! fb := float_of_int b in
        Ok (fa / fb)%float)%result.

(** [z / d] and [z * f] with an [int] on the left and a [float] on the
    right: the integer is converted first. *)
Definition int_div_float (z : Z) (d : float) : result float :=
  (try! fz := float_of_int z in
   if (d =? 0)%float then Raise ZeroDivisionError else Ok (fz / d)%float)%result.

Definition int_mul_float (z : Z) (f : float) : result float :=
  (try! fz := float_of_int z in Ok (fz * f)%float)%result.

Definition float_mul_int (f : float) (z : Z) : result float :=
  (try! fz := float_of_int z in Ok (f * fz)%float)%result.

End PyNum.
Import PyNum.

(** ** Messages of the transport client

    [create_dmx_message] and [create_dali_message] belong to the client
    library [edidio_control_py]; they are pure builders, so a message is
    the record of the keyword arguments it was built from. A DALI message
    carries either a [custom_command] with its [arg] or a [type8] command
    with its [dtr] (empty when the call gives none). *)

Inductive CustomDALICommandType : Type :=
| DALI_ARC_LEVEL.

Inductive Type8CommandType : Type :=
| SET_TEMP_X_COORD
| SET_TEMP_Y_COORD
| SET_TEMP_COLOUR_TEMPERATURE
| ACTIVATE.

Inductive message : Type :=
| dmx_message (message_id zone universe_mask channel repeat : Z)
              (level : list Z) (fade_time_by_10ms : Z)
| dali_custom (message_id line_mask address : Z)
              (custom_command : CustomDALICommandType) (arg : list Z)
| dali_type8 (message_id line_mask address : Z)
             (type8 : Type8CommandType) (dtr : list Z).

(** ** The message-id closure

    [get_message_id_generator] returns a closure over [current_id]; the
    platform hands the same closure to every light. Command generation
    therefore runs in a state monad over that counter, with exceptions. *)

Definition Gen (A : Type) : Type := Z -> result A * Z.

Definition ret {A : Type} (a : A) : Gen A := fun c => (Ok a, c).

Definition bind {A B : Type} (g : Gen A) (k : A -> Gen B) : Gen B :=
  fun c => match g c with
           | (Ok a, c') => k a c'
           | (Raise e, c') => (Raise e, c')
           end.

Definition lift {A : Type} (r : result A) : Gen A := fun c => (r, c).

Declare Scope gen_scope.
Delimit Scope gen_scope with gen.
Notation "x <- g ;; k" := (bind g (fun x => k))
  (at level 61, g at next level, right associativity) : gen_scope.

(** [current_id += 1; return current_id]. *)
Definition increment_and_get_id : Gen Z := fun c => (Ok (c + 1), c + 1).

(** [[f(i) for i in xs]] where [f] draws message ids. *)
Fixpoint for_each {A B : Type} (f : A -> Gen B) (xs : list A) : Gen (list B) :=
  match xs with
  | [] => ret []
  | x :: xs' => (y <- f x ;; ys <- for_each f xs' ;; ret (y :: ys))%gen
  end.

(** ** Constants imported by [light.py] *)

(** Modelled from the spec: [const.py] is not among the sources; the spec
    (external interfaces) fixes the closed set of protocol strings, and the
    constant names are those [light.py] imports. *)
Definition PROTOCOL_DMX_WHITE : string := "dmx_white".
Definition PROTOCOL_DMX_RGB : string := "dmx_rgb".
Definition PROTOCOL_DMX_RGBW : string := "dmx_rgbw".
Definition PROTOCOL_DALI_WHITE : string := "dali_white".
Definition PROTOCOL_DALI_RGB : string := "dali_rgb".
Definition PROTOCOL_DALI_RGBW : string := "dali_rgbw".
Definition PROTOCOL_DALI_DT8_XY : string := "dali_dt8_xy".
Definition PROTOCOL_DALI_DT8_CCT : string := "dali_dt8_cct".

(** Modelled from the spec: the list [PROTOCOLS] of [const.py], the closed
    enumeration the options flow offers. *)
Definition PROTOCOLS : list string :=
  [ PROTOCOL_DMX_WHITE; PROTOCOL_DMX_RGB; PROTOCOL_DMX_RGBW;
    PROTOCOL_DALI_WHITE; PROTOCOL_DALI_RGB; PROTOCOL_DALI_RGBW;
    PROTOCOL_DALI_DT8_XY; PROTOCOL_DALI_DT8_CCT ].

(** [homeassistant.util.color.color_temperature_kelvin_to_mired], a helper
    of the host: [math.floor(1000000 / kelvin)]. The comments of
    [min_mireds] record its values at the two bounds the light uses
    (6500 K gives 153, 2000 K gives 500). *)
Definition color_temperature_kelvin_to_mired (kelvin : Z) : result Z :=
  if kelvin =? 0 then Raise ZeroDivisionError else Ok (1000000 / kelvin).

(** ** The entity state *)

Definition rgb : Type := (Z * Z * Z)%type.
Definition rgbw : Type := (Z * Z * Z * Z)%type.

(** The attributes of [ControlFreakLight] the handlers read or write. The
    client handle, the id closure and the unique id are not state of the
    model: the closure is the counter of [Gen], the client is the [send]
    argument of the handlers. Home Assistant passes colours as tuples of
    three and four integers, and the handlers keep them so. *)
Record light : Type := {
  _address : Z;
  _name : string;
  _protocol : string;
  _line : Z;
  _is_on : bool;
  _brightness : Z;
  _rgb_color : rgb;
  _rgbw_color : rgbw;
  _color_temp : option Z;
  _attr_min_color_temp_kelvin : option Z;
  _attr_max_color_temp_kelvin : option Z;
  _attr_available : bool
}.

(** [ControlFreakLight.__init__]. *)
Definition ControlFreakLight (address : Z) (name protocol : string) (line : Z) : light :=
  let cct := String.eqb protocol PROTOCOL_DALI_DT8_CCT in
  {| _address := address;
     _name := name;
     _protocol := protocol;
     _line := line;
     _is_on := false;
     _brightness := 255;
     _rgb_color := (255, 255, 255);
     _rgbw_color := (255, 255, 255, 255);
     _color_temp := Some 3000;
     _attr_min_color_temp_kelvin := if cct then Some 2000 else None;
     _attr_max_color_temp_kelvin := if cct then Some 6500 else None;
     _attr_available := true |}.

Definition with_is_on (v : bool) (l : light) : light :=
  {| _address := _address l; _name := _name l; _protocol := _protocol l;
     _line := _line l; _is_on := v; _brightness := _brightness l;
     _rgb_color := _rgb_color l; _rgbw_color := _rgbw_color l;
     _color_temp := _color_temp l;
     _attr_min_color_temp_kelvin := _attr_min_color_temp_kelvin l;
     _attr_max_color_temp_kelvin := _attr_max_color_temp_kelvin l;
     _attr_available := _attr_available l |}.

Definition with_brightness (v : Z) (l : light) : light :=
  {| _address := _address l; _name := _name l; _protocol := _protocol l;
     _line := _line l; _is_on := _is_on l; _brightness := v;
     _rgb_color := _rgb_color l; _rgbw_color := _rgbw_color l;
     _color_temp := _color_temp l;
     _attr_min_color_temp_kelvin := _attr_min_color_temp_kelvin l;
     _attr_max_color_temp_kelvin := _attr_max_color_temp_kelvin l;
     _attr_available := _attr_available l |}.

Definition with_rgb_color (v : rgb) (l : light) : light :=
  {| _address := _address l; _name := _name l; _protocol := _protocol l;
     _line := _line l; _is_on := _is_on l; _brightness := _brightness l;
     _rgb_color := v; _rgbw_color := _rgbw_color l;
     _color_temp := _color_temp l;
     _attr_min_color_temp_kelvin := _attr_min_color_temp_kelvin l;
     _attr_max_color_temp_kelvin := _attr_max_color_temp_kelvin l;
     _attr_available := _attr_available l |}.

Definition with_rgbw_color (v : rgbw) (l : light) : light :=
  {| _address := _address l; _name := _name l; _protocol := _protocol l;
     _line := _line l; _is_on := _is_on l; _brightness := _brightness l;
     _rgb_color := _rgb_color l; _rgbw_color := v;
     _color_temp := _color_temp l;
     _attr_min_color_temp_kelvin := _attr_min_color_temp_kelvin l;
     _attr_max_color_temp_kelvin := _attr_max_color_temp_kelvin l;
     _attr_available := _attr_available l |}.

Definition with_color_temp (v : option Z) (l : light) : light :=
  {| _address := _address l; _name := _name l; _protocol := _protocol l;
     _line := _line l; _is_on := _is_on l; _brightness := _brightness l;
     _rgb_color := _rgb_color l; _rgbw_color := _rgbw_color l;
     _color_temp := v;
     _attr_min_color_temp_kelvin := _attr_min_color_temp_kelvin l;
     _attr_max_color_temp_kelvin := _attr_max_color_temp_kelvin l;
     _attr_available := _attr_available l |}.

Definition with_available (v : bool) (l : light) : light :=
  {| _address := _address l; _name := _name l; _protocol := _protocol l;
     _line := _line l; _is_on := _is_on l; _brightness := _brightness l;
     _rgb_color := _rgb_color l; _rgbw_color := _rgbw_color l;
     _color_temp := _color_temp l;
     _attr_min_color_temp_kelvin := _attr_min_color_temp_kelvin l;
     _attr_max_color_temp_kelvin := _attr_max_color_temp_kelvin l;
     _attr_available := v |}.

(** [set_protocol] and [set_address]. *)
Definition set_protocol (protocol : string) (l : light) : light :=
  {| _address := _address l; _name := _name l; _protocol := protocol;
     _line := _line l; _is_on := _is_on l; _brightness := _brightness l;
     _rgb_color := _rgb_color l; _rgbw_color := _rgbw_color l;
     _color_temp := _color_temp l;
     _attr_min_color_temp_kelvin := _attr_min_color_temp_kelvin l;
     _attr_max_color_temp_kelvin := _attr_max_color_temp_kelvin l;
     _attr_available := _attr_available l |}.

Definition set_address (address : Z) (l : light) : light :=
  {| _address := address; _name := _name l; _protocol := _protocol l;
     _line := _line l; _is_on := _is_on l; _brightness := _brightness l;
     _rgb_color := _rgb_color l; _rgbw_color := _rgbw_color l;
     _color_temp := _color_temp l;
     _attr_min_color_temp_kelvin := _attr_min_color_temp_kelvin l;
     _attr_max_color_temp_kelvin := _attr_max_color_temp_kelvin l;
     _attr_available := _attr_available l |}.

(** The properties [min_mireds] and [max_mireds]: [None] unless the
    protocol is DALI_DT8_CCT; the helper raises [TypeError] on a bound
    that was never set ([1000000 / None]). *)
Definition kelvin_bound_to_mired (bound : option Z) : result Z :=
  match bound with
  | Some k => color_temperature_kelvin_to_mired k
  | None => Raise TypeError
  end.

Definition min_mireds (l : light) : result (option Z) :=
  if String.eqb (_protocol l) PROTOCOL_DALI_DT8_CCT
  then (try! m := kelvin_bound_to_mired (_attr_max_color_temp_kelvin l) in Ok (Some m))%result
  else Ok None.

Definition max_mireds (l : light) : result (option Z) :=
  if String.eqb (_protocol l) PROTOCOL_DALI_DT8_CCT
  then (try! m := kelvin_bound_to_mired (_attr_min_color_temp_kelvin l) in Ok (Some m))%result
  else Ok None.

(** The keyword arguments of a turn-on request that the handler reads. *)
Record kwargs : Type := {
  kw_brightness : option Z;
  kw_rgb_color : option rgb;
  kw_rgbw_color : option rgbw;
  kw_color_temp_kelvin : option Z
}.

Definition no_kwargs : kwargs :=
  {| kw_brightness := None; kw_rgb_color := None;
     kw_rgbw_color := None; kw_color_temp_kelvin := None |}.

(** ** What a handler call leaves behind

    The entity after the call, the id counter after it, the sequence that
    was handed to [send_dali_commands_sequence] (if the call got that
    far), whether [async_write_ha_state] ran, and the exception that left
    the handler (none is caught before the [try] of [async_turn_on]). *)
Record outcome : Type := {
  light_after : light;
  counter_after : Z;
  sent : option (list message);
  state_written : bool;
  propagated : option exn
}.

(** The three classes of the first [except] clause of each handler. *)
Definition is_transport_error (e : exn) : bool :=
  match e with
  | EDIDIOConnectionError | EDIDIOCommunicationError | EDIDIOTimeoutError => true
  | _ => false
  end.

(** ** The imports of the client library and of the C library *)

Section Generator.

(** [edidio_control_py.DALI_ARC_LEVEL_MAX], a constant of the client
    library, which is not part of this repository. *)
Variable DALI_ARC_LEVEL_MAX : Z.

(** The C library's [pow], which Python's [**] on doubles calls. It is
    not a primitive of binary64, so it stays a parameter. *)
Variable libm_pow : float -> float -> float.

(** [v ** w] on doubles. CPython's [float_pow] settles the special
    operands before it calls the C library; of those, the only one
    [gamma] can reach with a channel value in the unit interval is the
    base 1.0, whose power is 1.0. *)
Definition float_pow (v w : float) : float :=
  if (v =? 1)%float then 1%float else libm_pow v w.

(** *** [rgb_to_xy_16bit] *)

(** Step 1: [if c > 1: c /= 255.0]. An [int] that the test leaves alone
    meets only doubles in the later steps, where Python converts it on
    its first use; the conversion is made here. *)
Definition normalize (c : number) : result float :=
  if gt_one c
  then (try! f := to_float c in Ok (f / 255.0)%float)%result
  else to_float c.

(** Step 2: the nested [gamma]. *)
Definition gamma (c : float) : float :=
  if (0.045045 <? c)%float
  then float_pow ((c + 0.055) / (1.0 + 0.055))%float 2.4%float
  else (c / 12.92)%float.

(** [max(0, min(1, x))]: [min] keeps its first argument unless the
    second is smaller, [max] likewise unless the second is larger. *)
Definition clamp_unit (x : float) : float :=
  let m := if (x <? 1)%float then x else 1%float in
  if (0 <? m)%float then m else 0%float.

(** Steps 3 to 5 on the gamma-corrected channels. *)
Definition xy_of_linear (r g b : float) : result (Z * Z) :=
  let X := (r * 0.649926 + g * 0.103455 + b * 0.197109)%float in
  let Y := (r * 0.234327 + g * 0.743075 + b * 0.022598)%float in
  let Z' := (r * 0.0 + g * 0.053077 + b * 1.035763)%float in
  let total := (X + Y + Z')%float in
  let x := if negb (total =? 0)%float then (X / total)%float else 0%float in
  let y := if negb (total =? 0)%float then (Y / total)%float else 0%float in
  (try! x_int := py_int (clamp_unit x * 65535)%float in
   try! y_int := py_int (clamp_unit y * 65535)%float in
   Ok (x_int, y_int))%result.

Definition rgb_to_xy_16bit (r g b : number) : result (Z * Z) :=
  (try! r := normalize r in
   try! g := normalize g in
   try! b := normalize b in
   xy_of_linear (gamma r) (gamma g) (gamma b))%result.

(** *** Scaling expressions of [async_turn_on] *)

(** [int(self._brightness / 255.0 * DALI_ARC_LEVEL_MAX)], the ARC level
    of the DALI_WHITE, DALI_DT8_XY and DALI_DT8_CCT branches and of the
    fallback. *)
Definition dali_arc_level (brightness : Z) : result Z :=
  (try! s := int_div_float brightness 255.0 in
   try! v := float_mul_int s DALI_ARC_LEVEL_MAX in
   py_int v)%result.

(** [int(c * scaling_factor)] with [scaling_factor = brightness / 255.0]
    (the DMX branches), which is also [int(c * (brightness / ha_max))]
    (the first step of the DALI colour branches). *)
Definition scaled (c brightness : Z) : result Z :=
  (try! s := int_div_float brightness 255.0 in
   try! v := int_mul_float c s in
   py_int v)%result.

(** [min(int(effective * (dali_max_val / ha_max)), dali_max_val)]. *)
Definition to_dali (effective : Z) : result Z :=
  (try! k := int_div_float DALI_ARC_LEVEL_MAX 255.0 in
   try! v := int_mul_float effective k in
   try! d := py_int v in
   Ok (Z.min d DALI_ARC_LEVEL_MAX))%result.

(** The DALI_DT8_CCT branch: [normalized_mired], the inverted and scaled
    value, and the clamp, for the bounds [max_mireds] and [min_mireds]. *)
Definition cct_value (max_m min_m color_temp : Z) : result Z :=
  (try! normalized_mired := int_truediv (color_temp - max_m) (min_m - max_m) in
   try! v := py_int ((1 - normalized_mired) * 65535)%float in
   Ok (Z.max 0 (Z.min 65535 v)))%result.

(** The same with the bounds read from the properties of the light, in
    the order the expression evaluates them. *)
Definition dali_dt8_cct_value (l : light) (color_temp : Z) : result Z :=
  (try! hi := max_mireds l in
   try! lo := min_mireds l in
   match hi, lo with
   | Some max_m, Some min_m => cct_value max_m min_m color_temp
   | _, _ => Raise TypeError
   end)%result.

(** [v & 0xFF, (v >> 8) & 0xFF]. *)
Definition lsb (v : Z) : Z := Z.land v 255.
Definition msb (v : Z) : Z := Z.land (Z.shiftr v 8) 255.

(** *** Message builders as the handlers call them: the message id is
    drawn first, then the remaining keyword arguments are evaluated. *)

Definition dmx (l : light) (level : list Z) : Gen message :=
  (i <- increment_and_get_id ;;
   ret (dmx_message i 0 2 (_address l) 1 level 25))%gen.

Definition arc_level (l : light) (address : Z) (value : result Z) : Gen message :=
  (i <- increment_and_get_id ;;
   v <- lift value ;;
   ret (dali_custom i (_line l) address DALI_ARC_LEVEL [v]))%gen.

Definition type8_command (l : light) (cmd : Type8CommandType) (dtr : list Z) : Gen message :=
  (i <- increment_and_get_id ;;
   ret (dali_type8 i (_line l) (_address l) cmd dtr))%gen.

(** *** Step 2 of [async_turn_on]: the commands for the updated state

    The branches follow the [if]/[elif] chain in its order. [_rgbw_color]
    is a 4-tuple, so the [len(self._rgbw_color) == 4] test of the
    DALI_RGBW and DALI_DT8_XY branches holds and the white channel is the
    stored one. Values bound to a name before the first message is built
    are computed before any id is drawn; the ARC level of the two DT8
    branches is an argument of the builder call and is computed after its
    id. *)

Definition turn_on_commands (l : light) : Gen (list message) :=
  let p := _protocol l in
  let br := _brightness l in
  if String.eqb p PROTOCOL_DMX_RGB then
    let '(r, g, b) := _rgb_color l in
    (scaled_r <- lift (scaled r br) ;;
     scaled_g <- lift (scaled g br) ;;
     scaled_b <- lift (scaled b br) ;;
     m <- dmx l [scaled_r; scaled_g; scaled_b] ;;
     ret [m])%gen
  else if String.eqb p PROTOCOL_DMX_RGBW then
    let '(r, g, b, w) := _rgbw_color l in
    (scaled_r <- lift (scaled r br) ;;
     scaled_g <- lift (scaled g br) ;;
     scaled_b <- lift (scaled b br) ;;
     scaled_w <- lift (scaled w br) ;;
     m <- dmx l [scaled_r; scaled_g; scaled_b; scaled_w] ;;
     ret [m])%gen
  else if String.eqb p PROTOCOL_DALI_RGB then
    let '(r, g, b) := _rgb_color l in
    (effective_r <- lift (scaled r br) ;;
     effective_g <- lift (scaled g br) ;;
     effective_b <- lift (scaled b br) ;;
     dali_r <- lift (to_dali effective_r) ;;
     dali_g <- lift (to_dali effective_g) ;;
     dali_b <- lift (to_dali effective_b) ;;
     m1 <- arc_level l (_address l) (Ok dali_r) ;;
     m2 <- arc_level l (_address l + 1) (Ok dali_g) ;;
     m3 <- arc_level l (_address l + 2) (Ok dali_b) ;;
     ret [m1; m2; m3])%gen
  else if String.eqb p PROTOCOL_DALI_RGBW then
    let '(r, g, b, w) := _rgbw_color l in
    (effective_r <- lift (scaled r br) ;;
     effective_g <- lift (scaled g br) ;;
     effective_b <- lift (scaled b br) ;;
     effective_w <- lift (scaled w br) ;;
     dali_r <- lift (to_dali effective_r) ;;
     dali_g <- lift (to_dali effective_g) ;;
     dali_b <- lift (to_dali effective_b) ;;
     dali_w <- lift (to_dali effective_w) ;;
     m1 <- arc_level l (_address l) (Ok dali_r) ;;
     m2 <- arc_level l (_address l + 1) (Ok dali_g) ;;
     m3 <- arc_level l (_address l + 2) (Ok dali_b) ;;
     m4 <- arc_level l (_address l + 3) (Ok dali_w) ;;
     ret [m1; m2; m3; m4])%gen
  else if String.eqb p PROTOCOL_DALI_DT8_XY then
    let '(r, g, b, w) := _rgbw_color l in
    (xy <- lift (rgb_to_xy_16bit (Int r) (Int g) (Int b)) ;;
     let '(x16, y16) := xy in
     m1 <- type8_command l SET_TEMP_X_COORD [lsb x16; msb x16] ;;
     m2 <- type8_command l SET_TEMP_Y_COORD [lsb y16; msb y16] ;;
     m3 <- arc_level l (_address l) (dali_arc_level br) ;;
     m4 <- type8_command l ACTIVATE [] ;;
     ret [m1; m2; m3; m4])%gen
  else if String.eqb p PROTOCOL_DALI_DT8_CCT then
    match _color_temp l with
    | Some color_temp =>
        (v <- lift (dali_dt8_cct_value l color_temp) ;;
         m1 <- type8_command l SET_TEMP_COLOUR_TEMPERATURE [lsb v; msb v] ;;
         m2 <- arc_level l (_address l) (dali_arc_level br) ;;
         m3 <- type8_command l ACTIVATE [] ;;
         ret [m1; m2; m3])%gen
    | None => ret []
    end
  else if String.eqb p PROTOCOL_DALI_WHITE then
    (v <- lift (dali_arc_level br) ;;
     m <- arc_level l (_address l) (Ok v) ;;
     ret [m])%gen
  else if String.eqb p PROTOCOL_DMX_WHITE then
    (m <- dmx l [br] ;; ret [m])%gen
  else
    (v <- lift (dali_arc_level br) ;;
     m <- arc_level l (_address l) (Ok v) ;;
     ret [m])%gen.

(** *** The command generation of [async_turn_off] *)

Definition in_protocols (p : string) (ps : list string) : bool :=
  existsb (String.eqb p) ps.

Definition turn_off_commands (l : light) : Gen (list message) :=
  let p := _protocol l in
  if in_protocols p [PROTOCOL_DMX_RGB; PROTOCOL_DMX_RGBW; PROTOCOL_DMX_WHITE] then
    if String.eqb p PROTOCOL_DMX_RGB then
      (m <- dmx l [0; 0; 0] ;; ret [m])%gen
    else if String.eqb p PROTOCOL_DMX_RGBW then
      (m <- dmx l [0; 0; 0; 0] ;; ret [m])%gen
    else if String.eqb p PROTOCOL_DMX_WHITE then
      (m <- dmx l [0] ;; ret [m])%gen
    else ret []
  else if in_protocols p [PROTOCOL_DALI_DT8_XY; PROTOCOL_DALI_DT8_CCT; PROTOCOL_DALI_WHITE] then
    (m <- arc_level l (_address l) (Ok 0) ;; ret [m])%gen
  else if String.eqb p PROTOCOL_DALI_RGB then
    for_each (fun i => arc_level l (_address l + i) (Ok 0)) [0; 1; 2]
  else if String.eqb p PROTOCOL_DALI_RGBW then
    for_each (fun i => arc_level l (_address l + i) (Ok 0)) [0; 1; 2; 3]
  else
    (m <- arc_level l (_address l) (Ok 0) ;; ret [m])%gen.

(** *** The handlers *)

(** [self._client.send_dali_commands_sequence], the suspending call into
    the transport client: it returns or raises. *)
Variable send_dali_commands_sequence : list message -> result unit.

(** Step 1 of [async_turn_on]: the state update from the keyword
    arguments. It runs before the [try]; the kelvin conversion is the
    only part that can raise, after the other fields were written. *)
Definition apply_kwargs (kw : kwargs) (l : light) : light * option exn :=
  let l :=
    match kw_brightness kw with
    | Some v => with_brightness v l
    | None =>
        if negb (_is_on l) && (_brightness l =? 0)
        then with_brightness 255 l
        else l
    end in
  let l :=
    match kw_rgb_color kw with
    | Some v => with_rgb_color v l
    | None => l
    end in
  let l :=
    match kw_rgbw_color kw with
    | Some (r, g, b, w) => with_rgb_color (r, g, b) (with_rgbw_color (r, g, b, w) l)
    | None => l
    end in
  match kw_color_temp_kelvin kw with
  | Some k =>
      match color_temperature_kelvin_to_mired k with
      | Ok m => (with_color_temp (Some m) l, None)
      | Raise e => (l, Some e)
      end
  | None => (l, None)
  end.

(** Both [except] clauses of a handler log and mark the entity
    unavailable; they differ in the log call only. *)
Definition on_exception (e : exn) (l : light) : light :=
  if is_transport_error e
  then with_available false l
  else with_available false l.

(** The [try] block from the generated commands on, its two [except]
    clauses and the state change after it. [async_turn_off] repeats this
    part of [async_turn_on] word for word, but for the commands and for
    what a successful send changes. An empty command list logs a warning
    and returns. *)
Definition run_commands (commands : Gen (list message)) (l : light) (c : Z)
           (on_success : light -> light) : outcome :=
  match commands c with
  | (Raise e, c') =>
      {| light_after := on_exception e l; counter_after := c';
         sent := None; state_written := false; propagated := None |}
  | (Ok [], c') =>
      {| light_after := l; counter_after := c';
         sent := None; state_written := false; propagated := None |}
  | (Ok commands_to_send, c') =>
      match send_dali_commands_sequence commands_to_send with
      | Raise e =>
          {| light_after := on_exception e l; counter_after := c';
             sent := Some commands_to_send; state_written := false;
             propagated := None |}
      | Ok _ =>
          {| light_after := on_success l; counter_after := c';
             sent := Some commands_to_send; state_written := true;
             propagated := None |}
      end
  end.

Definition async_turn_on (kw : kwargs) (l : light) (c : Z) : outcome :=
  match apply_kwargs kw l with
  | (l1, Some e) =>
      {| light_after := l1; counter_after := c;
         sent := None; state_written := false; propagated := Some e |}
  | (l1, None) =>
      run_commands (turn_on_commands l1) l1 c (with_is_on true)
  end.

Definition async_turn_off (l : light) (c : Z) : outcome :=
  run_commands (turn_off_commands l) l c
               (fun l => with_brightness 0 (with_is_on false l)).

End Generator.

(** ** Values the statements below are phrased with *)

(** The channel values of the data model: integers from 0 to 255. *)
Definition is_byte (z : Z) : Prop := 0 <= z <= 255.

Fixpoint range (lo : Z) (n : nat) : list Z :=
  match n with
  | O => []
  | S k => lo :: range (lo + 1) k
  end.

Definition bytes : list Z := range 0 256.

Definition is_ok (r : result Z) (v : Z) : bool :=
  match r with
  | Ok a => a =? v
  | Raise _ => false
  end.

(** Two results that are the same double, bit for bit. *)
Definition same_float (r1 r2 : result float) : bool :=
  match r1, r2 with
  | Ok a, Ok b => PrimFloat.Leibniz.eqb a b
  | _, _ => false
  end.

(** Truncation towards zero and rounding to the nearest integer (ties to
    even, as Python's [round]) of an exact quotient: the two readings of
    "converted to an integer" that the statements compare. *)
Definition Qtrunc (q : Q) : Z := Z.quot (Qnum q) (Zpos (Qden q)).

Definition Qround_half_even (q : Q) : Z :=
  let f := Qfloor q in
  match Qcompare (q - inject_Z f) (1 # 2) with
  | Lt => f
  | Gt => f + 1
  | Eq => if Z.even f then f else f + 1
  end.

(** [brightness / 255 * MAX] and [channel * (brightness / 255) * (MAX / 255)]
    as exact rationals. *)
Definition level_fraction (MAX brightness : Z) : Q :=
  (inject_Z brightness / inject_Z 255 * inject_Z MAX)%Q.

Definition channel_fraction (MAX channel brightness : Z) : Q :=
  (inject_Z channel * (inject_Z brightness / inject_Z 255)
   * (inject_Z MAX / inject_Z 255))%Q.

(** The pairs (channel, brightness) of bytes at which the double product
    [channel * (brightness / 255.0)] falls just below the integer that
    [channel * brightness / 255] is exactly, so that [int] yields one less. *)
Definition short_by_one : list (Z * Z) :=
  [ (51, 155); (75, 187); (85, 147); (85, 171); (102, 155); (150, 187);
    (153, 155); (153, 195); (165, 187); (170, 147); (170, 171); (204, 155) ].

Definition is_short (c b : Z) : bool :=
  existsb (fun p => (fst p =? c) && (snd p =? b)) short_by_one.

(** The integer [int(channel * (brightness / 255.0))] on bytes. *)
Definition scaled_value (c b : Z) : Z :=
  c * b / 255 - (if is_short c b then 1 else 0).

(** A spec_float that is a number: neither an infinity nor a NaN. *)
Definition SF_finite (x : spec_float) : Prop :=
  match x with
  | S754_zero _ | S754_finite _ _ _ => True
  | _ => False
  end.

(** Environments for closed instances: a transport that delivers, one that
    times out, and a C library that is never reached (no protocol but
    DALI_DT8_XY calls [float_pow], and [float_pow] answers base 1.0
    itself). *)
Definition send_delivers : list message -> result unit := fun _ => Ok tt.
Definition send_times_out : list message -> result unit :=
  fun _ => Raise EDIDIOTimeoutError.
Definition libm_unreached : float -> float -> float := fun _ _ => nan.

Definition kwargs_brightness (b : Z) : kwargs :=
  {| kw_brightness := Some b; kw_rgb_color := None;
     kw_rgbw_color := None; kw_color_temp_kelvin := None |}.

Definition kwargs_rgb (b : Z) (c : rgb) : kwargs :=
  {| kw_brightness := Some b; kw_rgb_color := Some c;
     kw_rgbw_color := None; kw_color_temp_kelvin := None |}.

Definition kwargs_kelvin (k : Z) : kwargs :=
  {| kw_brightness := None; kw_rgb_color := None;
     kw_rgbw_color := None; kw_color_temp_kelvin := Some k |}.

(** ** The remaining members of [ControlFreakLight] *)

(** [homeassistant.components.light.ColorMode], restricted to the members
    [light.py] names. *)
Module ColorMode.
Inductive t : Type :=
| RGB
| RGBW
| COLOR_TEMP
| BRIGHTNESS.
End ColorMode.

(** The property [supported_color_modes] returns a set with one member;
    the list holds the members of that set. *)
Definition supported_color_modes (l : light) : list ColorMode.t :=
  let p := _protocol l in
  if in_protocols p [PROTOCOL_DALI_RGB; PROTOCOL_DMX_RGB] then [ColorMode.RGB]
  else if in_protocols p [PROTOCOL_DALI_RGBW; PROTOCOL_DMX_RGBW; PROTOCOL_DALI_DT8_XY]
  then [ColorMode.RGBW]
  else if String.eqb p PROTOCOL_DALI_DT8_CCT then [ColorMode.COLOR_TEMP]
  else [ColorMode.BRIGHTNESS].

Definition color_mode (l : light) : ColorMode.t :=
  let p := _protocol l in
  if in_protocols p [PROTOCOL_DALI_RGB; PROTOCOL_DMX_RGB] then ColorMode.RGB
  else if in_protocols p [PROTOCOL_DALI_RGBW; PROTOCOL_DMX_RGBW; PROTOCOL_DALI_DT8_XY]
  then ColorMode.RGBW
  else if String.eqb p PROTOCOL_DALI_DT8_CCT then ColorMode.COLOR_TEMP
  else ColorMode.BRIGHTNESS.

(** The properties [rgb_color] and [rgbw_color]: the first returns the
    stored triple whatever the protocol is, the second hides the stored
    4-tuple outside the three RGBW protocols. *)
Definition rgb_color (l : light) : rgb := _rgb_color l.

Definition rgbw_color (l : light) : option rgbw :=
  if in_protocols (_protocol l)
       [PROTOCOL_DALI_RGBW; PROTOCOL_DMX_RGBW; PROTOCOL_DALI_DT8_XY]
  then Some (_rgbw_color l)
  else None.

(** [async_update]: [self._attr_available = self._client.connected]; the
    read of the client's property returns or raises, and both [except]
    clauses set the flag to [False]. *)
Definition async_update (connected : result bool) (l : light) : light :=
  match connected with
  | Ok b => with_available b l
  | Raise e => on_exception e l
  end.

(** ** Calls of the two handlers on the shared id closure *)

Definition message_id_of (m : message) : Z :=
  match m with
  | dmx_message i _ _ _ _ _ _ => i
  | dali_custom i _ _ _ _ => i
  | dali_type8 i _ _ _ _ => i
  end.

(** A call of one of the methods of [ControlFreakLight] that change the
    entity: the two handlers with the transport they meet, [async_update]
    with what reading [self._client.connected] gives, and the two
    setters. *)
Inductive call : Type :=
| call_turn_on (send : list message -> result unit) (kw : kwargs)
| call_turn_off (send : list message -> result unit)
| call_update (connected : result bool)
| call_set_protocol (protocol : string)
| call_set_address (address : Z).

(** What a method other than a handler leaves behind: it draws no id,
    sends nothing and does not write the state. *)
Definition silent (l : light) (c : Z) : outcome :=
  {| light_after := l; counter_after := c; sent := None;
     state_written := false; propagated := None |}.

Definition run_call (MAX : Z) (pow : float -> float -> float)
           (k : call) (l : light) (c : Z) : outcome :=
  match k with
  | call_turn_on send kw => async_turn_on MAX pow send kw l c
  | call_turn_off send => async_turn_off send l c
  | call_update connected => silent (async_update connected l) c
  | call_set_protocol protocol => silent (set_protocol protocol l) c
  | call_set_address address => silent (set_address address l) c
  end.

(** The id counter after a series of calls on the lights of the platform,
    each call with the state of the light it is made on. *)
Definition counter_after_calls (MAX : Z) (pow : float -> float -> float)
           (calls : list (call * light)) (c : Z) : Z :=
  fold_left (fun c kl => counter_after (run_call MAX pow (fst kl) (snd kl) c)) calls c.

(** The history of one light: each call finds the entity and the counter
    the previous one left. *)
Fixpoint run_calls (MAX : Z) (pow : float -> float -> float)
         (calls : list call) (l : light) (c : Z) : list outcome :=
  match calls with
  | [] => []
  | k :: calls' =>
      let o := run_call MAX pow k l c in
      o :: run_calls MAX pow calls' (light_after o) (counter_after o)
  end.

(** ** Further values the statements are phrased with *)

(** A message that switches channels of the light [l] off: a DMX message
    on the light's channel with all levels 0, or an ARC_LEVEL 0 on the
    light's line at one of the up to four addresses from the light's. *)
Definition zero_message_for (l : light) (m : message) : Prop :=
  match m with
  | dmx_message _ zone universe_mask channel repeat level fade =>
      zone = 0 /\ universe_mask = 2 /\ channel = _address l /\ repeat = 1
      /\ fade = 25 /\ Forall (fun v => v = 0) level
  | dali_custom _ line_mask address DALI_ARC_LEVEL arg =>
      line_mask = _line l /\ _address l <= address <= _address l + 3 /\ arg = [0]
  | dali_type8 _ _ _ _ _ => False
  end.

(** The same message with every level replaced by 0, and a message with
    its id moved [n] draws later. *)
Definition zeroed (m : message) : message :=
  match m with
  | dmx_message i zone universe_mask channel repeat level fade =>
      dmx_message i zone universe_mask channel repeat (List.map (fun _ => 0) level) fade
  | dali_custom i line_mask address cmd arg =>
      dali_custom i line_mask address cmd (List.map (fun _ => 0) arg)
  | dali_type8 i line_mask address cmd dtr => dali_type8 i line_mask address cmd dtr
  end.

Definition later (n : nat) (m : message) : message :=
  match m with
  | dmx_message i zone universe_mask channel repeat level fade =>
      dmx_message (i + Z.of_nat n) zone universe_mask channel repeat level fade
  | dali_custom i line_mask address cmd arg =>
      dali_custom (i + Z.of_nat n) line_mask address cmd arg
  | dali_type8 i line_mask address cmd dtr =>
      dali_type8 (i + Z.of_nat n) line_mask address cmd dtr
  end.

(** The value ranges of the wire: DMX levels and DTR bytes from 0 to 255,
    ARC levels from 0 to the DALI maximum. *)
Definition in_range (MAX : Z) (m : message) : Prop :=
  match m with
  | dmx_message _ _ _ _ _ level _ => Forall is_byte level
  | dali_custom _ _ _ _ arg => Forall (fun v => 0 <= v <= MAX) arg
  | dali_type8 _ _ _ _ dtr => Forall is_byte dtr
  end.

(** The value ranges of the entity state and of the keyword arguments as
    Home Assistant passes them: brightness and colour channels are bytes. *)
Definition byte_rgb (c : rgb) : Prop :=
  let '(r, g, b) := c in is_byte r /\ is_byte g /\ is_byte b.

Definition byte_rgbw (c : rgbw) : Prop :=
  let '(r, g, b, w) := c in is_byte r /\ is_byte g /\ is_byte b /\ is_byte w.

Definition byte_state (l : light) : Prop :=
  is_byte (_brightness l) /\ byte_rgb (_rgb_color l) /\ byte_rgbw (_rgbw_color l).

Definition byte_option {A : Type} (P : A -> Prop) (o : option A) : Prop :=
  match o with
  | Some a => P a
  | None => True
  end.

Definition byte_kwargs (kw : kwargs) : Prop :=
  byte_option is_byte (kw_brightness kw)
  /\ byte_option byte_rgb (kw_rgb_color kw)
  /\ byte_option byte_rgbw (kw_rgbw_color kw).

Definition byte_call (k : call) : Prop :=
  match k with
  | call_turn_on _ kw => byte_kwargs kw
  | _ => True
  end.

(** Keyword arguments with one key removed or replaced. *)
Definition without_kelvin (kw : kwargs) : kwargs :=
  {| kw_brightness := kw_brightness kw; kw_rgb_color := kw_rgb_color kw;
     kw_rgbw_color := kw_rgbw_color kw; kw_color_temp_kelvin := None |}.

Definition without_rgb (kw : kwargs) : kwargs :=
  {| kw_brightness := kw_brightness kw; kw_rgb_color := None;
     kw_rgbw_color := kw_rgbw_color kw; kw_color_temp_kelvin := kw_color_temp_kelvin kw |}.

Definition rgbw_as_rgb (kw : kwargs) (r g b : Z) : kwargs :=
  {| kw_brightness := kw_brightness kw; kw_rgb_color := Some (r, g, b);
     kw_rgbw_color := None; kw_color_temp_kelvin := kw_color_temp_kelvin kw |}.

Definition kwargs_rgbw (c : rgbw) : kwargs :=
  {| kw_brightness := None; kw_rgb_color := None;
     kw_rgbw_color := Some c; kw_color_temp_kelvin := None |}.

(** A transport that loses the connection. *)
Definition send_disconnected : list message -> result unit :=
  fun _ => Raise EDIDIOConnectionError.

(** ** The platform setup of [light.py] *)

(** One entry of the [CONF_LIGHTS] list in the options of the config
    entry: a dict in which each of the five keys may be missing. A field
    is what [light_data.get(key)] returns. *)
Record light_data : Type := {
  CONF_LIGHT_ID : option string;
  CONF_LIGHT_NAME : option string;
  CONF_LIGHT_ADDRESS : option Z;
  CONF_LIGHT_PROTOCOL : option string;
  CONF_LIGHT_LINE : option Z
}.

(** What [__init__] gives an entity besides the state of [light]: the
    unique id and the stable id it was built from. *)
Record entity : Type := {
  entity_state : light;
  _attr_unique_id : string;
  _stable_id_value : string
}.

(** What [async_setup_entry] leaves behind: the list it handed to
    [async_add_entities] (none when the call was skipped), the counter of
    the id closure it created, and how many UUIDs were drawn. *)
Record platform : Type := {
  async_add_entities : option (list entity);
  current_id : Z;
  uuids_drawn : nat
}.

Section Platform.

(** [DOMAIN] of [const.py], which is not among the sources, and the
    values [str(uuid.uuid4())] returns, in the order of the calls. *)
Variable DOMAIN : string.
Variable uuid4 : nat -> string.

(** [f"{DOMAIN}_{stable_id}"]. *)
Definition unique_id_of (stable_id : string) : string :=
  (DOMAIN ++ "_" ++ stable_id)%string.

(** The identity part of [ControlFreakLight.__init__]: [if stable_id:]
    holds for a string that is not empty; otherwise a UUID is drawn. *)
Definition new_entity (address : Z) (name protocol : string) (line : Z)
           (stable_id : option string) (n : nat) : entity * nat :=
  let state := ControlFreakLight address name protocol line in
  match stable_id with
  | Some (String a s) =>
      ({| entity_state := state;
          _attr_unique_id := unique_id_of (String a s);
          _stable_id_value := String a s |}, n)
  | _ =>
      let new_uuid := uuid4 n in
      ({| entity_state := state;
          _attr_unique_id := unique_id_of new_uuid;
          _stable_id_value := new_uuid |}, S n)
  end.

(** The loop of [async_setup_entry]: an entry without an id, an address,
    a name or a protocol is skipped (the tests are made in this order,
    each logs and continues); the line defaults to 1. *)
Fixpoint entities_to_add (lights_config : list light_data) (n : nat)
  : list entity * nat :=
  match lights_config with
  | [] => ([], n)
  | d :: rest =>
      match CONF_LIGHT_ID d, CONF_LIGHT_ADDRESS d, CONF_LIGHT_NAME d,
            CONF_LIGHT_PROTOCOL d with
      | Some stable_id, Some address, Some name, Some protocol =>
          let line := match CONF_LIGHT_LINE d with Some v => v | None => 1 end in
          let '(e, n1) := new_entity address name protocol line (Some stable_id) n in
          let '(es, n2) := entities_to_add rest n1 in
          (e :: es, n2)
      | _, _, _, _ => entities_to_add rest n
      end
  end.

(** [async_setup_entry] of the light platform: a fresh id closure, the
    loop, and [async_add_entities] only for a list that is not empty. *)
Definition async_setup_entry (lights_config : list light_data) (n : nat) : platform :=
  let '(es, n') := entities_to_add lights_config n in
  {| async_add_entities := match es with [] => None | _ => Some es end;
     current_id := 0;
     uuids_drawn := n' |}.

End Platform.

(** An entry with the four keys the platform requires, and the entities a
    platform holds. *)
Definition complete (d : light_data) : bool :=
  match CONF_LIGHT_ID d, CONF_LIGHT_ADDRESS d, CONF_LIGHT_NAME d,
        CONF_LIGHT_PROTOCOL d with
  | Some _, Some _, Some _, Some _ => true
  | _, _, _, _ => false
  end.

Definition stored_id (d : light_data) : string :=
  match CONF_LIGHT_ID d with
  | Some s => s
  | None => EmptyString
  end.

Definition entities (p : platform) : list entity :=
  match async_add_entities p with
  | Some es => es
  | None => []
  end.

(** The entity state [__init__] builds from a complete entry. *)
Definition configured_light (d : light_data) : light :=
  ControlFreakLight
    (match CONF_LIGHT_ADDRESS d with Some v => v | None => 0 end)
    (match CONF_LIGHT_NAME d with Some v => v | None => EmptyString end)
    (match CONF_LIGHT_PROTOCOL d with Some v => v | None => EmptyString end)
    (match CONF_LIGHT_LINE d with Some v => v | None => 1 end).

(** * Properties *)

(** ** Enumeration over the bytes *)

Lemma range_In : forall n lo z, lo <= z < lo + Z.of_nat n -> In z (range lo n).
Proof.
  induction n as [|n IH]; intros lo z Hz.
  - simpl in Hz. lia.
  - simpl. destruct (Z.eq_dec lo z) as [->|Hne]; [now left|right].
    apply IH. lia.
Qed.

Lemma forallb_range (P : Z -> bool) (lo : Z) (n : nat) :
  forallb P (range lo n) = true ->
  forall z, lo <= z < lo + Z.of_nat n -> P z = true.
Proof.
  intros H z Hz. rewrite forallb_forall in H. apply H, range_In, Hz.
Qed.

Lemma forall_bytes (P : Z -> bool) :
  forallb P bytes = true -> forall z, is_byte z -> P z = true.
Proof.
  intros H z Hz. apply (forallb_range P 0 256 H).
  unfold is_byte in Hz. simpl. lia.
Qed.

Lemma forall_bytes2 (P : Z -> Z -> bool) :
  forallb (fun x => forallb (P x) bytes) bytes = true ->
  forall x y, is_byte x -> is_byte y -> P x y = true.
Proof.
  intros H x y Hx Hy.
  apply (forall_bytes (P x)); [|exact Hy].
  apply (forall_bytes (fun x => forallb (P x) bytes) H x Hx).
Qed.

Lemma is_ok_true (r : result Z) (v : Z) : is_ok r v = true -> r = Ok v.
Proof.
  destruct r as [a|e]; simpl; [|discriminate].
  intros H. apply Z.eqb_eq in H. now subst.
Qed.

(** ** The scaling expressions on bytes, in exact integer arithmetic *)

Lemma float_of_int_byte (z : Z) : is_byte z -> float_of_int z = Ok (Z2F z).
Proof.
  intros Hz. unfold float_of_int.
  assert (H : is_finite (Z2F z) = true).
  { apply (forall_bytes (fun z => is_finite (Z2F z))); [vm_compute; reflexivity | exact Hz]. }
  now rewrite H.
Qed.

(** With the DALI maximum 254, [int(b / 255.0 * 254)] is the floor of the
    exact quotient for every byte [b]. *)
Lemma dali_arc_level_254 (b : Z) :
  is_byte b -> dali_arc_level 254 b = Ok (b * 254 / 255).
Proof.
  intros Hb. apply is_ok_true.
  apply (forall_bytes (fun b => is_ok (dali_arc_level 254 b) (b * 254 / 255)));
    [vm_compute; reflexivity | exact Hb].
Qed.

(** [int(c * (b / 255.0))] on bytes: the floor of the exact quotient but
    for the twelve pairs of [short_by_one]. *)
Lemma scaled_bytes (c b : Z) :
  is_byte c -> is_byte b -> scaled c b = Ok (scaled_value c b).
Proof.
  intros Hc Hb. apply is_ok_true.
  apply (forall_bytes2 (fun c b => is_ok (scaled c b) (scaled_value c b)));
    [vm_compute; reflexivity | assumption | assumption].
Qed.

Lemma short_divisible (c b : Z) : is_short c b = true -> (c * b) mod 255 = 0.
Proof.
  unfold is_short, short_by_one. cbn [existsb fst snd].
  repeat rewrite orb_true_iff. repeat rewrite andb_true_iff.
  repeat rewrite Z.eqb_eq.
  intros H.
  repeat (destruct H as [[<- <-]|H]; [reflexivity|]).
  discriminate.
Qed.

Lemma scaled_value_bounds (c b : Z) :
  is_byte c -> is_byte b ->
  0 <= scaled_value c b <= c * b / 255 /\ scaled_value c b <= 255.
Proof.
  intros Hc Hb. unfold is_byte in *. unfold scaled_value.
  assert (Hq : c * b / 255 <= 255).
  { apply Z.div_le_upper_bound; nia. }
  destruct (is_short c b) eqn:Hs.
  - pose proof (short_divisible c b Hs) as Hm.
    assert (Hpos : 0 < c * b / 255).
    { unfold is_short, short_by_one in Hs. cbn [existsb fst snd] in Hs.
      repeat rewrite orb_true_iff in Hs. repeat rewrite andb_true_iff in Hs.
      repeat rewrite Z.eqb_eq in Hs.
      repeat (destruct Hs as [[<- <-]|Hs]; [reflexivity|]).
      discriminate. }
    lia.
  - assert (0 <= c * b / 255) by (apply Z.div_pos; nia). lia.
Qed.

Lemma scaled_value_byte (c b : Z) :
  is_byte c -> is_byte b -> is_byte (scaled_value c b).
Proof.
  intros Hc Hb. pose proof (scaled_value_bounds c b Hc Hb). unfold is_byte. lia.
Qed.

Lemma scaled_value_exact (c b : Z) :
  (c * b) mod 255 <> 0 -> scaled_value c b = c * b / 255.
Proof.
  intros Hm. unfold scaled_value.
  destruct (is_short c b) eqn:Hs; [|lia].
  apply short_divisible in Hs. contradiction.
Qed.

Lemma scaled_value_full (c : Z) : is_byte c -> scaled_value c 255 = c.
Proof.
  intros Hc.
  assert (Hs : is_short c 255 = false).
  { unfold is_short, short_by_one. cbn [existsb fst snd].
    change (155 =? 255) with false. change (187 =? 255) with false.
    change (147 =? 255) with false. change (171 =? 255) with false.
    change (195 =? 255) with false.
    repeat rewrite andb_false_r. reflexivity. }
  unfold scaled_value. rewrite Hs, Z.div_mul by lia. lia.
Qed.

Lemma scaled_value_zero (c : Z) : scaled_value c 0 = 0.
Proof.
  assert (Hs : is_short c 0 = false).
  { unfold is_short, short_by_one. cbn [existsb fst snd].
    change (155 =? 0) with false. change (187 =? 0) with false.
    change (147 =? 0) with false. change (171 =? 0) with false.
    change (195 =? 0) with false.
    repeat rewrite andb_false_r. reflexivity. }
  unfold scaled_value. rewrite Hs, Z.mul_0_r. reflexivity.
Qed.

(** [min(int(e * (254 / 255.0)), 254)] on bytes. *)
Lemma to_dali_254 (e : Z) : is_byte e -> to_dali 254 e = Ok (e * 254 / 255).
Proof.
  intros He. apply is_ok_true.
  apply (forall_bytes (fun e => is_ok (to_dali 254 e) (e * 254 / 255)));
    [vm_compute; reflexivity | exact He].
Qed.

(** ** The 16-bit scaling of [rgb_to_xy_16bit] never leaves the doubles

    Whatever the power function returns, [max(0, min(1, x))] is 0, 1 or a
    double strictly between them, and its product with 65535 is a finite
    double; so the two [int(...)] of step 5 return. *)

Lemma py_int_finite (f : float) :
  SF_finite (Prim2SF f) -> exists z, py_int f = Ok z.
Proof.
  unfold py_int. destruct (Prim2SF f); simpl; intros H; try contradiction; eauto.
Qed.

Lemma digits2_pos_size (p : positive) : digits2_pos p = Pos.size p.
Proof. induction p; simpl; congruence. Qed.

Lemma Zdigits2_le (m k : Z) : 0 <= k -> 0 <= m < 2 ^ k -> Zdigits2 m <= k.
Proof.
  intros Hk [Hm Hlt]. destruct m as [|p|p]; simpl; [assumption| |lia].
  rewrite digits2_pos_size.
  pose proof (Pos.size_le p) as Hs.
  assert (H2 : 2 ^ Zpos (Pos.size p) <= 2 * Zpos p).
  { change 2 with (Zpos 2) at 1. rewrite <- Pos2Z.inj_pow.
    change (2 * Zpos p) with (Zpos p~0). apply Pos2Z.pos_le_pos. exact Hs. }
  assert (H3 : 2 ^ Zpos (Pos.size p) < 2 ^ (k + 1)).
  { rewrite Z.pow_add_r by lia. lia. }
  apply Z.pow_lt_mono_r_iff in H3; lia.
Qed.

Lemma shr_1_bounds (r : shr_record) :
  0 <= shr_m r -> 0 <= shr_m (shr_1 r) <= shr_m r.
Proof.
  destruct r as [m rb sb]. simpl. intros Hm.
  destruct m as [|[p|p|]|p]; simpl; lia.
Qed.

Lemma iter_shr_1_bounds (p : positive) :
  forall r, 0 <= shr_m r -> 0 <= shr_m (SpecFloat.iter_pos shr_1 p r) <= shr_m r.
Proof.
  induction p as [p IH|p IH|]; intros r Hr; simpl.
  - pose proof (shr_1_bounds r Hr) as H1.
    pose proof (IH (shr_1 r) (proj1 H1)) as H2.
    pose proof (IH _ (proj1 H2)) as H3. lia.
  - pose proof (IH r Hr) as H2.
    pose proof (IH _ (proj1 H2)) as H3. lia.
  - apply shr_1_bounds, Hr.
Qed.

Lemma shr_fexp_bounds (m e k : Z) (l : location) :
  0 <= k -> 0 <= m < 2 ^ k ->
  0 <= shr_m (fst (shr_fexp prec emax m e l)) <= m /\
  snd (shr_fexp prec emax m e l) <= Z.max e (Z.max (k + e - 53) (-1074)).
Proof.
  intros Hk Hm. unfold shr_fexp, shr.
  pose proof (Zdigits2_le m k Hk Hm) as Hd.
  assert (Hrec : shr_m (shr_record_of_loc m l) = m).
  { destruct l as [|[]]; reflexivity. }
  assert (Hf : fexp prec emax (Zdigits2 m + e) <= Z.max (k + e - 53) (-1074)).
  { unfold fexp, emin, prec, emax. lia. }
  destruct (fexp prec emax (Zdigits2 m + e) - e) as [|p|p] eqn:En; simpl.
  - rewrite Hrec. lia.
  - pose proof (iter_shr_1_bounds p (shr_record_of_loc m l)) as Hi.
    rewrite Hrec in Hi. split; [apply Hi; lia|]. lia.
  - rewrite Hrec. lia.
Qed.

Lemma round_nearest_even_bounds (m : Z) (l : location) :
  0 <= m -> 0 <= round_nearest_even m l <= m + 1.
Proof.
  intros Hm. unfold round_nearest_even.
  destruct l as [|[]]; try destruct (Z.even m); lia.
Qed.

(** A product of two 53-bit mantissas with an exponent of at most -89
    rounds to a finite double. *)
Lemma binary_round_aux_finite (s : bool) (m e : Z) :
  0 <= m < 2 ^ 106 -> e <= -89 ->
  SF_finite (binary_round_aux prec emax s m e loc_Exact).
Proof.
  intros Hm He. unfold binary_round_aux.
  pose proof (shr_fexp_bounds m e 106 loc_Exact ltac:(lia) Hm) as [Hm1 He1].
  destruct (shr_fexp prec emax m e loc_Exact) as [mrs' e'] eqn:E1.
  cbn [fst snd] in Hm1, He1.
  pose proof (round_nearest_even_bounds (shr_m mrs') (loc_of_shr_record mrs')
                                        (proj1 Hm1)) as Hr.
  set (m1 := round_nearest_even (shr_m mrs') (loc_of_shr_record mrs')) in *.
  assert (Hm1' : 0 <= m1 < 2 ^ 107).
  { change (2 ^ 107) with (2 * 2 ^ 106). lia. }
  pose proof (shr_fexp_bounds m1 e' 107 loc_Exact ltac:(lia) Hm1') as [Hm2 He2].
  destruct (shr_fexp prec emax m1 e' loc_Exact) as [mrs'' e''] eqn:E2.
  cbn [fst snd] in Hm2, He2.
  destruct (shr_m mrs'') as [|p|p] eqn:Ep; [exact I| |exfalso; lia].
  assert (Hle : (e'' <=? emax - prec) = true).
  { apply Z.leb_le. unfold emax, prec. lia. }
  rewrite Hle. exact I.
Qed.

(** A double strictly between 0 and 1 is positive, has a mantissa of at
    most 53 bits and an exponent of at most -52. *)
Lemma unit_interval_SF (x : float) :
  (0 <? x)%float = true -> (x <? 1)%float = true ->
  exists m e, Prim2SF x = S754_finite false m e /\ Zpos m < 2 ^ 53 /\ e <= -52.
Proof.
  intros H0 H1. rewrite ltb_spec in H0, H1.
  pose proof (Prim2SF_valid x) as Hv.
  change (Prim2SF 0) with (S754_zero false) in H0.
  change (Prim2SF 1) with (S754_finite false 4503599627370496 (-52)) in H1.
  destruct (Prim2SF x) as [s|s| |s m e]; try discriminate.
  - destruct s; discriminate.
  - destruct s; [discriminate|].
    exists m, e. split; [reflexivity|].
    unfold SFltb, SFcompare in H1.
    simpl in Hv. unfold bounded, canonical_mantissa in Hv.
    apply andb_prop in Hv. destruct Hv as [Hc _].
    apply Z.eqb_eq in Hc. unfold fexp, emin, prec, emax in Hc.
    rewrite digits2_pos_size in Hc.
    pose proof (Pos.size_gt m) as Hs.
    assert (Hs' : Zpos m < 2 ^ Zpos (Pos.size m)).
    { change 2 with (Zpos 2). rewrite <- Pos2Z.inj_pow.
      apply Pos2Z.pos_lt_pos. exact Hs. }
    assert (Hd : Zpos (Pos.size m) <= 53) by lia.
    split.
    + apply Z.lt_le_trans with (1 := Hs'). apply Z.pow_le_mono_r; lia.
    + destruct (e ?= -52) eqn:Ec; try discriminate.
      * apply Z.compare_eq in Ec. lia.
      * rewrite Z.compare_lt_iff in Ec. lia.
Qed.

Lemma clamp_unit_scaled_finite (x : float) :
  SF_finite (Prim2SF (clamp_unit x * 65535)%float).
Proof.
  unfold clamp_unit.
  destruct (x <? 1)%float eqn:H1.
  - destruct (0 <? x)%float eqn:H0.
    + destruct (unit_interval_SF x H0 H1) as (m & e & Hx & Hm & He).
      rewrite mul_spec, Hx.
      change (Prim2SF 65535) with (S754_finite false 9007061815787520 (-37)).
      unfold SF64mul, SFmul.
      apply binary_round_aux_finite.
      * rewrite Pos2Z.inj_mul. split; [lia|].
        change (2 ^ 106) with (2 ^ 53 * 2 ^ 53).
        apply Z.mul_lt_mono_nonneg; lia.
      * lia.
    + vm_compute. exact I.
  - vm_compute. exact I.
Qed.

Lemma xy_of_linear_ok (r g b : float) :
  exists x y, xy_of_linear r g b = Ok (x, y).
Proof.
  unfold xy_of_linear.
  match goal with |- context [py_int (clamp_unit ?a * 65535)%float] =>
    destruct (py_int_finite _ (clamp_unit_scaled_finite a)) as [x Hx]; rewrite Hx end.
  cbn [rbind].
  match goal with |- context [py_int (clamp_unit ?a * 65535)%float] =>
    destruct (py_int_finite _ (clamp_unit_scaled_finite a)) as [y Hy]; rewrite Hy end.
  cbn [rbind]. eauto.
Qed.

(** ** Step 1 of [rgb_to_xy_16bit] on bytes *)

Lemma same_float_true (r1 r2 : result float) :
  same_float r1 r2 = true -> r1 = r2 /\ exists f, r2 = Ok f.
Proof.
  destruct r1 as [a|e1], r2 as [b|e2]; simpl; try discriminate.
  intros H. apply Leibniz.eqb_spec in H. subst. eauto.
Qed.

Lemma normalize_byte (c : Z) : is_byte c -> exists f, normalize (Int c) = Ok f.
Proof.
  intros Hc. unfold normalize, to_float. rewrite (float_of_int_byte c Hc).
  destruct (gt_one (Int c)); cbn [rbind]; eauto.
Qed.

(** Python's [c / 255] on a byte, fed back to step 1, is left as it is;
    step 1 on the byte itself computes the same double, unless the byte
    is 1, which the test [c > 1] leaves unscaled. *)
Lemma normalize_renormalized (c : Z) (f : float) :
  is_byte c -> c <> 1 -> int_truediv c 255 = Ok f ->
  normalize (Float f) = normalize (Int c).
Proof.
  intros Hc H1 Hf.
  assert (H : (c =? 1)
              || match int_truediv c 255 with
                 | Ok f => same_float (normalize (Float f)) (normalize (Int c))
                 | Raise _ => false
                 end = true).
  { apply (forall_bytes
             (fun c => (c =? 1)
                       || match int_truediv c 255 with
                          | Ok f => same_float (normalize (Float f)) (normalize (Int c))
                          | Raise _ => false
                          end));
      [vm_compute; reflexivity | exact Hc]. }
  apply orb_true_iff in H. destruct H as [H|H].
  - apply Z.eqb_eq in H. contradiction.
  - rewrite Hf in H. apply same_float_true in H. apply H.
Qed.

(** ** The state update keeps the configuration of the light *)

Lemma apply_kwargs_frame kw l l1 e :
  apply_kwargs kw l = (l1, e) ->
  _protocol l1 = _protocol l /\ _address l1 = _address l /\ _line l1 = _line l /\
  _is_on l1 = _is_on l /\ _attr_available l1 = _attr_available l /\
  _attr_min_color_temp_kelvin l1 = _attr_min_color_temp_kelvin l /\
  _attr_max_color_temp_kelvin l1 = _attr_max_color_temp_kelvin l.
Proof.
  unfold apply_kwargs.
  destruct (kw_brightness kw) as [v|];
    [|destruct (negb (_is_on l) && (_brightness l =? 0))];
    (destruct (kw_rgb_color kw) as [c3|]);
    (destruct (kw_rgbw_color kw) as [[[[r g] b] w]|]);
    (destruct (kw_color_temp_kelvin kw) as [k|];
     [destruct (color_temperature_kelvin_to_mired k)|]);
    intros H; inversion H; subst; simpl; repeat split; reflexivity.
Qed.

(** ** What the handlers hand to the transport *)

Lemma run_commands_sent send g l c f cmds c' :
  g c = (Ok cmds, c') -> cmds <> [] ->
  sent (run_commands send g l c f) = Some cmds /\
  counter_after (run_commands send g l c f) = c'.
Proof.
  intros Hg Hne. unfold run_commands. rewrite Hg.
  destruct cmds as [|m ms]; [congruence|].
  destruct (send (m :: ms)); simpl; auto.
Qed.

Lemma run_commands_sent_inv send g l c f cmds :
  sent (run_commands send g l c f) = Some cmds ->
  exists c', g c = (Ok cmds, c') /\ cmds <> [].
Proof.
  unfold run_commands.
  destruct (g c) as [[[|m ms]|e] c']; simpl; try discriminate.
  destruct (send (m :: ms)); simpl; intros H; inversion H; subst;
    exists c'; split; congruence.
Qed.

Lemma async_turn_on_sent MAX pow send kw l l1 c cmds c' :
  apply_kwargs kw l = (l1, None) ->
  turn_on_commands MAX pow l1 c = (Ok cmds, c') -> cmds <> [] ->
  sent (async_turn_on MAX pow send kw l c) = Some cmds.
Proof.
  intros Hk Hg Hne. unfold async_turn_on. rewrite Hk.
  apply (run_commands_sent send _ l1 c (with_is_on true) cmds c' Hg Hne).
Qed.

Lemma async_turn_off_sent send l c cmds c' :
  turn_off_commands l c = (Ok cmds, c') -> cmds <> [] ->
  sent (async_turn_off send l c) = Some cmds.
Proof.
  intros Hg Hne. unfold async_turn_off.
  apply (run_commands_sent send _ l c _ cmds c' Hg Hne).
Qed.

(** ** Dispatch on the protocol string *)

Ltac run_gen :=
  cbv [bind lift ret arc_level dmx type8_command increment_and_get_id for_each].

Lemma turn_on_commands_dmx_rgb MAX pow l r g b :
  _protocol l = PROTOCOL_DMX_RGB -> _rgb_color l = (r, g, b) ->
  turn_on_commands MAX pow l =
  (scaled_r <- lift (scaled r (_brightness l)) ;;
   scaled_g <- lift (scaled g (_brightness l)) ;;
   scaled_b <- lift (scaled b (_brightness l)) ;;
   m <- dmx l [scaled_r; scaled_g; scaled_b] ;;
   ret [m])%gen.
Proof. unfold turn_on_commands. intros -> ->. reflexivity. Qed.

Lemma turn_on_commands_dali_rgb MAX pow l r g b :
  _protocol l = PROTOCOL_DALI_RGB -> _rgb_color l = (r, g, b) ->
  turn_on_commands MAX pow l =
  (effective_r <- lift (scaled r (_brightness l)) ;;
   effective_g <- lift (scaled g (_brightness l)) ;;
   effective_b <- lift (scaled b (_brightness l)) ;;
   dali_r <- lift (to_dali MAX effective_r) ;;
   dali_g <- lift (to_dali MAX effective_g) ;;
   dali_b <- lift (to_dali MAX effective_b) ;;
   m1 <- arc_level l (_address l) (Ok dali_r) ;;
   m2 <- arc_level l (_address l + 1) (Ok dali_g) ;;
   m3 <- arc_level l (_address l + 2) (Ok dali_b) ;;
   ret [m1; m2; m3])%gen.
Proof. unfold turn_on_commands. intros -> ->. reflexivity. Qed.

Lemma turn_on_commands_dali_dt8_xy MAX pow l r g b w :
  _protocol l = PROTOCOL_DALI_DT8_XY -> _rgbw_color l = (r, g, b, w) ->
  turn_on_commands MAX pow l =
  (xy <- lift (rgb_to_xy_16bit pow (Int r) (Int g) (Int b)) ;;
   let '(x16, y16) := xy in
   m1 <- type8_command l SET_TEMP_X_COORD [lsb x16; msb x16] ;;
   m2 <- type8_command l SET_TEMP_Y_COORD [lsb y16; msb y16] ;;
   m3 <- arc_level l (_address l) (dali_arc_level MAX (_brightness l)) ;;
   m4 <- type8_command l ACTIVATE [] ;;
   ret [m1; m2; m3; m4])%gen.
Proof. unfold turn_on_commands. intros -> ->. reflexivity. Qed.

Lemma turn_on_commands_dali_dt8_cct MAX pow l color_temp :
  _protocol l = PROTOCOL_DALI_DT8_CCT -> _color_temp l = Some color_temp ->
  turn_on_commands MAX pow l =
  (v <- lift (dali_dt8_cct_value l color_temp) ;;
   m1 <- type8_command l SET_TEMP_COLOUR_TEMPERATURE [lsb v; msb v] ;;
   m2 <- arc_level l (_address l) (dali_arc_level MAX (_brightness l)) ;;
   m3 <- type8_command l ACTIVATE [] ;;
   ret [m1; m2; m3])%gen.
Proof. unfold turn_on_commands. intros -> ->. reflexivity. Qed.

Lemma turn_on_commands_dali_white MAX pow l :
  _protocol l = PROTOCOL_DALI_WHITE ->
  turn_on_commands MAX pow l =
  (v <- lift (dali_arc_level MAX (_brightness l)) ;;
   m <- arc_level l (_address l) (Ok v) ;;
   ret [m])%gen.
Proof. unfold turn_on_commands. intros ->. reflexivity. Qed.

Lemma unknown_protocol_eqb (p q : string) :
  ~ In p PROTOCOLS -> In q PROTOCOLS -> String.eqb p q = false.
Proof.
  intros Hn Hq. apply String.eqb_neq. intros ->. contradiction.
Qed.

Ltac known_protocol := unfold PROTOCOLS; simpl; tauto.

Lemma turn_on_commands_unknown MAX pow l :
  ~ In (_protocol l) PROTOCOLS ->
  turn_on_commands MAX pow l =
  (v <- lift (dali_arc_level MAX (_brightness l)) ;;
   m <- arc_level l (_address l) (Ok v) ;;
   ret [m])%gen.
Proof.
  intros Hn. unfold turn_on_commands.
  rewrite (unknown_protocol_eqb _ PROTOCOL_DMX_RGB Hn) by known_protocol.
  rewrite (unknown_protocol_eqb _ PROTOCOL_DMX_RGBW Hn) by known_protocol.
  rewrite (unknown_protocol_eqb _ PROTOCOL_DALI_RGB Hn) by known_protocol.
  rewrite (unknown_protocol_eqb _ PROTOCOL_DALI_RGBW Hn) by known_protocol.
  rewrite (unknown_protocol_eqb _ PROTOCOL_DALI_DT8_XY Hn) by known_protocol.
  rewrite (unknown_protocol_eqb _ PROTOCOL_DALI_DT8_CCT Hn) by known_protocol.
  rewrite (unknown_protocol_eqb _ PROTOCOL_DALI_WHITE Hn) by known_protocol.
  rewrite (unknown_protocol_eqb _ PROTOCOL_DMX_WHITE Hn) by known_protocol.
  reflexivity.
Qed.

Lemma turn_off_commands_single_arc_level l :
  _protocol l = PROTOCOL_DALI_DT8_XY \/ _protocol l = PROTOCOL_DALI_DT8_CCT \/
  _protocol l = PROTOCOL_DALI_WHITE \/ ~ In (_protocol l) PROTOCOLS ->
  turn_off_commands l = (m <- arc_level l (_address l) (Ok 0) ;; ret [m])%gen.
Proof.
  unfold turn_off_commands.
  intros [-> | [-> | [-> | Hn]]]; try reflexivity.
  unfold in_protocols. cbn [existsb].
  rewrite (unknown_protocol_eqb _ PROTOCOL_DMX_RGB Hn) by known_protocol.
  rewrite (unknown_protocol_eqb _ PROTOCOL_DMX_RGBW Hn) by known_protocol.
  rewrite (unknown_protocol_eqb _ PROTOCOL_DALI_RGB Hn) by known_protocol.
  rewrite (unknown_protocol_eqb _ PROTOCOL_DALI_RGBW Hn) by known_protocol.
  rewrite (unknown_protocol_eqb _ PROTOCOL_DALI_DT8_XY Hn) by known_protocol.
  rewrite (unknown_protocol_eqb _ PROTOCOL_DALI_DT8_CCT Hn) by known_protocol.
  rewrite (unknown_protocol_eqb _ PROTOCOL_DALI_WHITE Hn) by known_protocol.
  rewrite (unknown_protocol_eqb _ PROTOCOL_DMX_WHITE Hn) by known_protocol.
  reflexivity.
Qed.

Lemma turn_off_commands_dali_rgbw l :
  _protocol l = PROTOCOL_DALI_RGBW ->
  turn_off_commands l =
  for_each (fun i => arc_level l (_address l + i) (Ok 0)) [0; 1; 2; 3].
Proof. unfold turn_off_commands. intros ->. reflexivity. Qed.

(** The ARC level the white branch, the fallback and the DT8 branches
    compute, and the single message of the first two. *)
Lemma single_arc_level_sent MAX pow send kw l l1 c :
  MAX = 254 ->
  _protocol l = PROTOCOL_DALI_WHITE \/ ~ In (_protocol l) PROTOCOLS ->
  apply_kwargs kw l = (l1, None) ->
  is_byte (_brightness l1) ->
  sent (async_turn_on MAX pow send kw l c)
  = Some [dali_custom (c + 1) (_line l) (_address l) DALI_ARC_LEVEL
            [_brightness l1 * MAX / 255]].
Proof.
  intros -> Hp Hk Hb.
  destruct (apply_kwargs_frame kw l l1 None Hk) as (Hp1 & Ha1 & Hl1 & _).
  apply (async_turn_on_sent 254 pow send kw l l1 c _ (c + 1) Hk); [|discriminate].
  assert (Hg : turn_on_commands 254 pow l1 =
               (v <- lift (dali_arc_level 254 (_brightness l1)) ;;
                m <- arc_level l1 (_address l1) (Ok v) ;;
                ret [m])%gen).
  { destruct Hp as [Hp|Hp].
    - apply turn_on_commands_dali_white. congruence.
    - apply turn_on_commands_unknown. now rewrite Hp1. }
  rewrite Hg. run_gen.
  rewrite (dali_arc_level_254 _ Hb), Ha1, Hl1. reflexivity.
Qed.

Lemma single_arc_level_off_sent send l c :
  _protocol l = PROTOCOL_DALI_DT8_XY \/ _protocol l = PROTOCOL_DALI_DT8_CCT \/
  _protocol l = PROTOCOL_DALI_WHITE \/ ~ In (_protocol l) PROTOCOLS ->
  sent (async_turn_off send l c)
  = Some [dali_custom (c + 1) (_line l) (_address l) DALI_ARC_LEVEL [0]].
Proof.
  intros Hp.
  apply (async_turn_off_sent send l c _ (c + 1)); [|discriminate].
  rewrite (turn_off_commands_single_arc_level l Hp). reflexivity.
Qed.

(** ** DALI_WHITE: one ARC_LEVEL, truncated *)

(** C2, as the code has it: for every brightness b from 0 to 255 in force
    after the state update, a light with protocol DALI_WHITE hands the
    transport exactly one ARC_LEVEL message at its address, whose value is
    the truncation (the floor, not the rounding) of b / 255 * MAX, with
    MAX the DALI maximum 254; the value is 0 at b = 0 and MAX at b = 255. *)
Theorem dali_white_on_truncates :
  forall MAX pow send kw l l1 c,
    MAX = 254 ->
    _protocol l = PROTOCOL_DALI_WHITE ->
    apply_kwargs kw l = (l1, None) ->
    is_byte (_brightness l1) ->
    sent (async_turn_on MAX pow send kw l c)
    = Some [dali_custom (c + 1) (_line l) (_address l) DALI_ARC_LEVEL
              [Qtrunc (level_fraction MAX (_brightness l1))]]
    /\ Qtrunc (level_fraction MAX (_brightness l1)) = _brightness l1 * MAX / 255
    /\ (_brightness l1 = 0 ->
        sent (async_turn_on MAX pow send kw l c)
        = Some [dali_custom (c + 1) (_line l) (_address l) DALI_ARC_LEVEL [0]])
    /\ (_brightness l1 = 255 ->
        sent (async_turn_on MAX pow send kw l c)
        = Some [dali_custom (c + 1) (_line l) (_address l) DALI_ARC_LEVEL [MAX]]).
Proof.
  intros MAX pow send kw l l1 c HM Hp Hk Hb.
  pose proof (single_arc_level_sent MAX pow send kw l l1 c HM (or_introl Hp) Hk Hb)
    as Hsent.
  assert (Hq : Qtrunc (level_fraction MAX (_brightness l1)) = _brightness l1 * MAX / 255).
  { subst MAX. unfold Qtrunc, level_fraction. cbn.
    rewrite Z.mul_1_r. unfold is_byte in Hb.
    rewrite Z.quot_div_nonneg by lia. reflexivity. }
  rewrite Hq. split; [exact Hsent|]. split; [reflexivity|].
  split; intros Hv; rewrite Hsent, Hv; subst MAX; reflexivity.
Qed.

Lemma dali_white_on_truncates_witness :
  sent (async_turn_on 254 libm_unreached send_delivers (kwargs_brightness 255)
                      (ControlFreakLight 7 "hall" PROTOCOL_DALI_WHITE 1) 0)
  = Some [dali_custom 1 1 7 DALI_ARC_LEVEL [254]].
Proof.
  refine (proj2 (proj2 (proj2
    (dali_white_on_truncates 254 libm_unreached send_delivers (kwargs_brightness 255)
       (ControlFreakLight 7 "hall" PROTOCOL_DALI_WHITE 1)
       (with_brightness 255 (ControlFreakLight 7 "hall" PROTOCOL_DALI_WHITE 1)) 0
       eq_refl eq_refl eq_refl _))) eq_refl).
  unfold is_byte. simpl. lia.
Defined.

(** C2, as stated, fails: at brightness 1 the ARC_LEVEL value sent is 0,
    whereas 1 / 255 * 254 rounds to 1. *)
Lemma dali_white_on_does_not_round :
  sent (async_turn_on 254 libm_unreached send_delivers (kwargs_brightness 1)
                      (ControlFreakLight 7 "hall" PROTOCOL_DALI_WHITE 1) 0)
  = Some [dali_custom 1 1 7 DALI_ARC_LEVEL [0]]
  /\ Qround_half_even (level_fraction 254 1) = 1.
Proof. split; vm_compute; reflexivity. Qed.

(** ** Unknown protocol: the DALI_WHITE fallback *)

(** C6: for every light whose protocol string is outside the fixed
    enumeration, turning on and turning off fall back to the DALI_WHITE
    behaviour: one ARC_LEVEL message at the light's address, with value
    [int(brightness / 255 * DALI_ARC_LEVEL_MAX)] for on (for a byte of
    brightness and the DALI maximum 254 this is brightness * 254 / 255)
    and 0 for off; both generators coincide with those of the same light
    set to DALI_WHITE. *)
Theorem unknown_protocol_falls_back_to_dali_white :
  forall MAX pow send kw l l1 c,
    ~ In (_protocol l) PROTOCOLS ->
    MAX = 254 ->
    apply_kwargs kw l = (l1, None) ->
    is_byte (_brightness l1) ->
    sent (async_turn_on MAX pow send kw l c)
    = Some [dali_custom (c + 1) (_line l) (_address l) DALI_ARC_LEVEL
              [_brightness l1 * MAX / 255]]
    /\ dali_arc_level MAX (_brightness l1) = Ok (_brightness l1 * MAX / 255)
    /\ turn_on_commands MAX pow l1
       = turn_on_commands MAX pow (set_protocol PROTOCOL_DALI_WHITE l1)
    /\ sent (async_turn_off send l c)
       = Some [dali_custom (c + 1) (_line l) (_address l) DALI_ARC_LEVEL [0]]
    /\ turn_off_commands l = turn_off_commands (set_protocol PROTOCOL_DALI_WHITE l).
Proof.
  intros MAX pow send kw l l1 c Hn HM Hk Hb.
  destruct (apply_kwargs_frame kw l l1 None Hk) as (Hp1 & _).
  split; [apply (single_arc_level_sent MAX pow send kw l l1 c HM (or_intror Hn) Hk Hb)|].
  split; [subst MAX; apply dali_arc_level_254, Hb|].
  split.
  { rewrite turn_on_commands_unknown by (now rewrite Hp1).
    rewrite (turn_on_commands_dali_white MAX pow (set_protocol PROTOCOL_DALI_WHITE l1))
      by reflexivity.
    reflexivity. }
  split; [apply single_arc_level_off_sent; tauto|].
  rewrite (turn_off_commands_single_arc_level l) by tauto.
  rewrite (turn_off_commands_single_arc_level (set_protocol PROTOCOL_DALI_WHITE l))
    by (right; right; left; reflexivity).
  reflexivity.
Qed.

Lemma unknown_protocol_not_enumerated : ~ In "dali_tunable"%string PROTOCOLS.
Proof.
  unfold PROTOCOLS. simpl. intros H.
  repeat (destruct H as [H|H]; [discriminate H|]). exact H.
Qed.

Lemma unknown_protocol_falls_back_witness :
  sent (async_turn_on 254 libm_unreached send_delivers (kwargs_brightness 128)
                      (ControlFreakLight 3 "porch" "dali_tunable" 2) 10)
  = Some [dali_custom 11 2 3 DALI_ARC_LEVEL [127]]
  /\ sent (async_turn_off send_delivers (ControlFreakLight 3 "porch" "dali_tunable" 2) 10)
     = Some [dali_custom 11 2 3 DALI_ARC_LEVEL [0]].
Proof.
  assert (Hb : is_byte 128) by (unfold is_byte; lia).
  pose proof (unknown_protocol_falls_back_to_dali_white
                254 libm_unreached send_delivers (kwargs_brightness 128)
                (ControlFreakLight 3 "porch" "dali_tunable" 2)
                (with_brightness 128 (ControlFreakLight 3 "porch" "dali_tunable" 2)) 10
                unknown_protocol_not_enumerated eq_refl eq_refl Hb)
    as (Hon & _ & _ & Hoff & _).
  split; [exact Hon | exact Hoff].
Defined.

(** ** DALI_RGBW: four zero levels on turn-off *)

(** C8: for every light with protocol DALI_RGBW, whatever its brightness
    and colours, turning off hands the transport exactly four ARC_LEVEL
    messages with value 0, at address, address + 1, address + 2 and
    address + 3. *)
Theorem dali_rgbw_off_four_zero_levels :
  forall send l c,
    _protocol l = PROTOCOL_DALI_RGBW ->
    sent (async_turn_off send l c)
    = Some [dali_custom (c + 1) (_line l) (_address l) DALI_ARC_LEVEL [0];
            dali_custom (c + 2) (_line l) (_address l + 1) DALI_ARC_LEVEL [0];
            dali_custom (c + 3) (_line l) (_address l + 2) DALI_ARC_LEVEL [0];
            dali_custom (c + 4) (_line l) (_address l + 3) DALI_ARC_LEVEL [0]].
Proof.
  intros send l c Hp.
  apply (async_turn_off_sent send l c _ (c + 4)); [|discriminate].
  rewrite (turn_off_commands_dali_rgbw l Hp). run_gen.
  rewrite Z.add_0_r.
  replace (c + 1 + 1) with (c + 2) by lia.
  replace (c + 2 + 1) with (c + 3) by lia.
  replace (c + 3 + 1) with (c + 4) by lia.
  reflexivity.
Qed.

Lemma dali_rgbw_off_four_zero_levels_witness :
  sent (async_turn_off send_delivers
          (with_rgbw_color (12, 200, 7, 90)
             (with_brightness 33 (ControlFreakLight 20 "stage" PROTOCOL_DALI_RGBW 1))) 0)
  = Some [dali_custom 1 1 20 DALI_ARC_LEVEL [0];
          dali_custom 2 1 21 DALI_ARC_LEVEL [0];
          dali_custom 3 1 22 DALI_ARC_LEVEL [0];
          dali_custom 4 1 23 DALI_ARC_LEVEL [0]].
Proof.
  exact (dali_rgbw_off_four_zero_levels send_delivers
           (with_rgbw_color (12, 200, 7, 90)
              (with_brightness 33 (ControlFreakLight 20 "stage" PROTOCOL_DALI_RGBW 1)))
           0 eq_refl).
Defined.

(** ** DMX_RGB: brightness scales the channels, truncating *)

Lemma dmx_rgb_sent MAX pow send kw l l1 c r g b :
  _protocol l = PROTOCOL_DMX_RGB ->
  apply_kwargs kw l = (l1, None) ->
  _rgb_color l1 = (r, g, b) ->
  is_byte r -> is_byte g -> is_byte b -> is_byte (_brightness l1) ->
  sent (async_turn_on MAX pow send kw l c)
  = Some [dmx_message (c + 1) 0 2 (_address l) 1
            [scaled_value r (_brightness l1); scaled_value g (_brightness l1);
             scaled_value b (_brightness l1)] 25].
Proof.
  intros Hp Hk Hc Hr Hg Hb Hbr.
  destruct (apply_kwargs_frame kw l l1 None Hk) as (Hp1 & Ha1 & _).
  apply (async_turn_on_sent MAX pow send kw l l1 c _ (c + 1) Hk); [|discriminate].
  rewrite (turn_on_commands_dmx_rgb MAX pow l1 r g b) by congruence.
  run_gen.
  rewrite (scaled_bytes r _ Hr Hbr), (scaled_bytes g _ Hg Hbr),
    (scaled_bytes b _ Hb Hbr), Ha1.
  reflexivity.
Qed.

(** [int(c * (b / 255.0))] spelled out on doubles. *)
Lemma scaled_is_truncated_product (c b : Z) :
  is_byte c -> is_byte b ->
  py_int (Z2F c * (Z2F b / 255))%float = Ok (scaled_value c b).
Proof.
  intros Hc Hb. rewrite <- (scaled_bytes c b Hc Hb).
  unfold scaled, int_div_float, int_mul_float.
  rewrite (float_of_int_byte b Hb), (float_of_int_byte c Hc).
  reflexivity.
Qed.

(** C7: for a light with protocol DMX_RGB and bytes for the colour and the
    brightness, the one DMX message carries, for each channel, the
    truncation [int] of the double product channel * (brightness / 255.0):
    it never exceeds the exact quotient channel * brightness / 255, is its
    floor whenever that quotient is not an integer, and is never rounded
    up. With brightness 255 the levels are the stored RGB triple, with
    brightness 0 they are [0, 0, 0]. *)
Theorem dmx_rgb_on_truncates :
  forall MAX pow send kw l l1 c r g b,
    _protocol l = PROTOCOL_DMX_RGB ->
    apply_kwargs kw l = (l1, None) ->
    _rgb_color l1 = (r, g, b) ->
    is_byte r -> is_byte g -> is_byte b -> is_byte (_brightness l1) ->
    (exists level_r level_g level_b,
        py_int (Z2F r * (Z2F (_brightness l1) / 255))%float = Ok level_r
        /\ py_int (Z2F g * (Z2F (_brightness l1) / 255))%float = Ok level_g
        /\ py_int (Z2F b * (Z2F (_brightness l1) / 255))%float = Ok level_b
        /\ sent (async_turn_on MAX pow send kw l c)
           = Some [dmx_message (c + 1) 0 2 (_address l) 1
                     [level_r; level_g; level_b] 25]
        /\ level_r <= r * _brightness l1 / 255
        /\ level_g <= g * _brightness l1 / 255
        /\ level_b <= b * _brightness l1 / 255
        /\ ((r * _brightness l1) mod 255 <> 0 -> level_r = r * _brightness l1 / 255)
        /\ ((g * _brightness l1) mod 255 <> 0 -> level_g = g * _brightness l1 / 255)
        /\ ((b * _brightness l1) mod 255 <> 0 -> level_b = b * _brightness l1 / 255))
    /\ (_brightness l1 = 255 ->
        sent (async_turn_on MAX pow send kw l c)
        = Some [dmx_message (c + 1) 0 2 (_address l) 1 [r; g; b] 25])
    /\ (_brightness l1 = 0 ->
        sent (async_turn_on MAX pow send kw l c)
        = Some [dmx_message (c + 1) 0 2 (_address l) 1 [0; 0; 0] 25]).
Proof.
  intros MAX pow send kw l l1 c r g b Hp Hk Hc Hr Hg Hb Hbr.
  pose proof (dmx_rgb_sent MAX pow send kw l l1 c r g b Hp Hk Hc Hr Hg Hb Hbr) as Hsent.
  split.
  { exists (scaled_value r (_brightness l1)), (scaled_value g (_brightness l1)),
      (scaled_value b (_brightness l1)).
    repeat split;
      try (apply scaled_is_truncated_product; assumption);
      try exact Hsent;
      try (apply scaled_value_bounds; assumption);
      try (apply scaled_value_exact; assumption). }
  split; intros Hv; rewrite Hsent, Hv.
  - rewrite !scaled_value_full by assumption. reflexivity.
  - rewrite !scaled_value_zero. reflexivity.
Qed.

Lemma dmx_rgb_on_truncates_witness :
  sent (async_turn_on 254 libm_unreached send_delivers (kwargs_rgb 255 (10, 128, 255))
                      (ControlFreakLight 5 "wash" PROTOCOL_DMX_RGB 1) 0)
  = Some [dmx_message 1 0 2 5 1 [10; 128; 255] 25].
Proof.
  assert (Hr : is_byte 10) by (unfold is_byte; lia).
  assert (Hg : is_byte 128) by (unfold is_byte; lia).
  assert (Hb : is_byte 255) by (unfold is_byte; lia).
  exact (proj1 (proj2
    (dmx_rgb_on_truncates 254 libm_unreached send_delivers (kwargs_rgb 255 (10, 128, 255))
       (ControlFreakLight 5 "wash" PROTOCOL_DMX_RGB 1)
       (with_rgb_color (10, 128, 255)
          (with_brightness 255 (ControlFreakLight 5 "wash" PROTOCOL_DMX_RGB 1)))
       0 10 128 255 eq_refl eq_refl eq_refl Hr Hg Hb Hb)) eq_refl).
Defined.

(** Truncation is visible: channel 1 at brightness 128 gives level 0,
    although 1 * 128 / 255 rounds to 1; and at channel 51, brightness 155
    the double product lies below the exact quotient 31, so the level
    is 30. *)
Lemma dmx_rgb_truncation_examples :
  sent (async_turn_on 254 libm_unreached send_delivers (kwargs_rgb 128 (1, 0, 0))
                      (ControlFreakLight 5 "wash" PROTOCOL_DMX_RGB 1) 0)
  = Some [dmx_message 1 0 2 5 1 [0; 0; 0] 25]
  /\ Qround_half_even (inject_Z 1 * (inject_Z 128 / inject_Z 255)) = 1
  /\ sent (async_turn_on 254 libm_unreached send_delivers (kwargs_rgb 155 (51, 0, 0))
                         (ControlFreakLight 5 "wash" PROTOCOL_DMX_RGB 1) 0)
     = Some [dmx_message 1 0 2 5 1 [30; 0; 0] 25]
  /\ 51 * 155 / 255 = 31.
Proof. repeat split; vm_compute; reflexivity. Qed.

(** ** DALI_RGB: three ARC_LEVEL messages, truncated twice *)

(** C3, as the code has it: a light with protocol dali_rgb, address 10,
    line 1, turned on with rgb = (255, 0, 0) and brightness 128 hands the
    transport exactly three ARC_LEVEL messages at addresses 10, 11, 12
    with values [round(128 / 255 * MAX), 0, 0] (127 for the DALI maximum
    254). In general, for bytes, the three messages go to address,
    address + 1, address + 2, and each value is truncated twice:
    [int(int(channel * (brightness / 255.0)) * (MAX / 255.0))], the floor
    of effective * MAX / 255 for the truncated effective channel, which is
    at most channel * brightness / 255. *)
Theorem dali_rgb_on_truncates_twice :
  forall MAX pow send kw l l1 c r g b,
    MAX = 254 ->
    _protocol l = PROTOCOL_DALI_RGB ->
    apply_kwargs kw l = (l1, None) ->
    _rgb_color l1 = (r, g, b) ->
    is_byte r -> is_byte g -> is_byte b -> is_byte (_brightness l1) ->
    (exists effective_r effective_g effective_b,
        py_int (Z2F r * (Z2F (_brightness l1) / 255))%float = Ok effective_r
        /\ py_int (Z2F g * (Z2F (_brightness l1) / 255))%float = Ok effective_g
        /\ py_int (Z2F b * (Z2F (_brightness l1) / 255))%float = Ok effective_b
        /\ effective_r <= r * _brightness l1 / 255
        /\ effective_g <= g * _brightness l1 / 255
        /\ effective_b <= b * _brightness l1 / 255
        /\ sent (async_turn_on MAX pow send kw l c)
           = Some [dali_custom (c + 1) (_line l) (_address l) DALI_ARC_LEVEL
                     [effective_r * MAX / 255];
                   dali_custom (c + 2) (_line l) (_address l + 1) DALI_ARC_LEVEL
                     [effective_g * MAX / 255];
                   dali_custom (c + 3) (_line l) (_address l + 2) DALI_ARC_LEVEL
                     [effective_b * MAX / 255]])
    /\ (forall name,
           sent (async_turn_on MAX pow send (kwargs_rgb 128 (255, 0, 0))
                               (ControlFreakLight 10 name PROTOCOL_DALI_RGB 1) c)
           = Some [dali_custom (c + 1) 1 10 DALI_ARC_LEVEL
                     [Qround_half_even (level_fraction MAX 128)];
                   dali_custom (c + 2) 1 11 DALI_ARC_LEVEL [0];
                   dali_custom (c + 3) 1 12 DALI_ARC_LEVEL [0]]).
Proof.
  intros MAX pow send kw l l1 c r g b -> Hp Hk Hc Hr Hg Hb Hbr.
  assert (Hgen : forall kw l l1 r g b,
             _protocol l = PROTOCOL_DALI_RGB ->
             apply_kwargs kw l = (l1, None) ->
             _rgb_color l1 = (r, g, b) ->
             is_byte r -> is_byte g -> is_byte b -> is_byte (_brightness l1) ->
             sent (async_turn_on 254 pow send kw l c)
             = Some [dali_custom (c + 1) (_line l) (_address l) DALI_ARC_LEVEL
                       [scaled_value r (_brightness l1) * 254 / 255];
                     dali_custom (c + 2) (_line l) (_address l + 1) DALI_ARC_LEVEL
                       [scaled_value g (_brightness l1) * 254 / 255];
                     dali_custom (c + 3) (_line l) (_address l + 2) DALI_ARC_LEVEL
                       [scaled_value b (_brightness l1) * 254 / 255]]).
  { clear. intros kw l l1 r g b Hp Hk Hc Hr Hg Hb Hbr.
    destruct (apply_kwargs_frame kw l l1 None Hk) as (Hp1 & Ha1 & Hl1 & _).
    apply (async_turn_on_sent 254 pow send kw l l1 c _ (c + 3) Hk); [|discriminate].
    rewrite (turn_on_commands_dali_rgb 254 pow l1 r g b) by congruence.
    run_gen.
    rewrite (scaled_bytes r _ Hr Hbr), (scaled_bytes g _ Hg Hbr),
      (scaled_bytes b _ Hb Hbr).
    rewrite (to_dali_254 _ (scaled_value_byte r _ Hr Hbr)),
      (to_dali_254 _ (scaled_value_byte g _ Hg Hbr)),
      (to_dali_254 _ (scaled_value_byte b _ Hb Hbr)).
    rewrite Ha1, Hl1.
    replace (c + 1 + 1) with (c + 2) by lia.
    replace (c + 2 + 1) with (c + 3) by lia.
    reflexivity. }
  split.
  - exists (scaled_value r (_brightness l1)), (scaled_value g (_brightness l1)),
      (scaled_value b (_brightness l1)).
    repeat split;
      try (apply scaled_is_truncated_product; assumption);
      try (apply scaled_value_bounds; assumption).
    apply (Hgen kw l l1 r g b); assumption.
  - intros name.
    rewrite (Hgen (kwargs_rgb 128 (255, 0, 0))
                  (ControlFreakLight 10 name PROTOCOL_DALI_RGB 1)
                  (with_rgb_color (255, 0, 0)
                     (with_brightness 128 (ControlFreakLight 10 name PROTOCOL_DALI_RGB 1)))
                  255 0 0 eq_refl eq_refl eq_refl);
      try (unfold is_byte; simpl; lia).
    reflexivity.
Qed.

Lemma dali_rgb_on_truncates_twice_witness :
  sent (async_turn_on 254 libm_unreached send_delivers (kwargs_rgb 128 (255, 0, 0))
                      (ControlFreakLight 10 "spot" PROTOCOL_DALI_RGB 1) 0)
  = Some [dali_custom 1 1 10 DALI_ARC_LEVEL [127];
          dali_custom 2 1 11 DALI_ARC_LEVEL [0];
          dali_custom 3 1 12 DALI_ARC_LEVEL [0]].
Proof.
  assert (H255 : is_byte 255) by (unfold is_byte; lia).
  assert (H0 : is_byte 0) by (unfold is_byte; lia).
  assert (H128 : is_byte 128) by (unfold is_byte; lia).
  exact (proj2
    (dali_rgb_on_truncates_twice 254 libm_unreached send_delivers
       (kwargs_rgb 128 (255, 0, 0))
       (ControlFreakLight 10 "spot" PROTOCOL_DALI_RGB 1)
       (with_rgb_color (255, 0, 0)
          (with_brightness 128 (ControlFreakLight 10 "spot" PROTOCOL_DALI_RGB 1)))
       0 255 0 0 eq_refl eq_refl eq_refl eq_refl H255 H0 H0 H128) "spot"%string).
Defined.

(** C3, as stated, fails in its general part: with rgb = (255, 0, 0) and
    brightness 1 the red ARC_LEVEL value sent is 0, whereas
    255 * (1 / 255) * (254 / 255) rounds to 1. *)
Lemma dali_rgb_on_does_not_round :
  sent (async_turn_on 254 libm_unreached send_delivers (kwargs_rgb 1 (255, 0, 0))
                      (ControlFreakLight 10 "spot" PROTOCOL_DALI_RGB 1) 0)
  = Some [dali_custom 1 1 10 DALI_ARC_LEVEL [0];
          dali_custom 2 1 11 DALI_ARC_LEVEL [0];
          dali_custom 3 1 12 DALI_ARC_LEVEL [0]]
  /\ Qround_half_even (channel_fraction 254 255 1) = 1.
Proof. split; vm_compute; reflexivity. Qed.

(** ** DALI_DT8_CCT: the colour-temperature value *)

(** C1: the code computes the reverse of the mapping the claim states and
    its own comments announce ("max_mireds -> 0 (warmest)", "min_mireds ->
    65535 (coolest)"). A request of 2000 K stores 500 mired, which is
    [max_mireds]; [normalized_mired] is 0 there, so
    [int((1 - normalized_mired) * 65535)] is 65535 and the DTR bytes sent
    are 255, 255, where the claim says 0. A request of 6500 K stores 153
    mired, which is [min_mireds], and the value sent is 0, where the claim
    says 65535. *)
Theorem dali_dt8_cct_boundaries_are_reversed :
  _color_temp
    (light_after (async_turn_on 254 libm_unreached send_delivers (kwargs_kelvin 2000)
                                (ControlFreakLight 4 "desk" PROTOCOL_DALI_DT8_CCT 1) 0))
  = Some 500
  /\ max_mireds (ControlFreakLight 4 "desk" PROTOCOL_DALI_DT8_CCT 1) = Ok (Some 500)
  /\ dali_dt8_cct_value (ControlFreakLight 4 "desk" PROTOCOL_DALI_DT8_CCT 1) 500 = Ok 65535
  /\ sent (async_turn_on 254 libm_unreached send_delivers (kwargs_kelvin 2000)
                         (ControlFreakLight 4 "desk" PROTOCOL_DALI_DT8_CCT 1) 0)
     = Some [dali_type8 1 1 4 SET_TEMP_COLOUR_TEMPERATURE [255; 255];
             dali_custom 2 1 4 DALI_ARC_LEVEL [254];
             dali_type8 3 1 4 ACTIVATE []]
  /\ _color_temp
       (light_after (async_turn_on 254 libm_unreached send_delivers (kwargs_kelvin 6500)
                                   (ControlFreakLight 4 "desk" PROTOCOL_DALI_DT8_CCT 1) 0))
     = Some 153
  /\ min_mireds (ControlFreakLight 4 "desk" PROTOCOL_DALI_DT8_CCT 1) = Ok (Some 153)
  /\ dali_dt8_cct_value (ControlFreakLight 4 "desk" PROTOCOL_DALI_DT8_CCT 1) 153 = Ok 0
  /\ sent (async_turn_on 254 libm_unreached send_delivers (kwargs_kelvin 6500)
                         (ControlFreakLight 4 "desk" PROTOCOL_DALI_DT8_CCT 1) 0)
     = Some [dali_type8 1 1 4 SET_TEMP_COLOUR_TEMPERATURE [0; 0];
             dali_custom 2 1 4 DALI_ARC_LEVEL [254];
             dali_type8 3 1 4 ACTIVATE []].
Proof. repeat split; vm_compute; reflexivity. Qed.

(** ** [rgb_to_xy_16bit]: which inputs may be fed normalized *)

Lemma rgb_to_xy_16bit_bytes pow (r g b : Z) :
  is_byte r -> is_byte g -> is_byte b ->
  exists x y, rgb_to_xy_16bit pow (Int r) (Int g) (Int b) = Ok (x, y).
Proof.
  intros Hr Hg Hb. unfold rgb_to_xy_16bit.
  destruct (normalize_byte r Hr) as [fr ->].
  destruct (normalize_byte g Hg) as [fg ->].
  destruct (normalize_byte b Hb) as [fb ->].
  cbn [rbind]. apply xy_of_linear_ok.
Qed.

(** C4, as the code has it: for every RGB triple of bytes none of which
    is 1, feeding the normalized values (r / 255, g / 255, b / 255) gives
    the same 16-bit (x, y) pair as feeding (r, g, b), whatever the C
    library's power function is; and the conversion returns a pair. *)
Theorem rgb_to_xy_16bit_renormalized :
  forall pow r g b fr fg fb,
    is_byte r -> is_byte g -> is_byte b ->
    r <> 1 -> g <> 1 -> b <> 1 ->
    int_truediv r 255 = Ok fr ->
    int_truediv g 255 = Ok fg ->
    int_truediv b 255 = Ok fb ->
    rgb_to_xy_16bit pow (Float fr) (Float fg) (Float fb)
    = rgb_to_xy_16bit pow (Int r) (Int g) (Int b)
    /\ exists x y, rgb_to_xy_16bit pow (Int r) (Int g) (Int b) = Ok (x, y).
Proof.
  intros pow r g b fr fg fb Hr Hg Hb Hr1 Hg1 Hb1 Hfr Hfg Hfb.
  split; [|apply rgb_to_xy_16bit_bytes; assumption].
  unfold rgb_to_xy_16bit.
  rewrite (normalize_renormalized r fr Hr Hr1 Hfr).
  rewrite (normalize_renormalized g fg Hg Hg1 Hfg).
  rewrite (normalize_renormalized b fb Hb Hb1 Hfb).
  reflexivity.
Qed.

Lemma rgb_to_xy_16bit_renormalized_witness :
  rgb_to_xy_16bit libm_unreached (Float (Z2F 255 / Z2F 255)) (Float (Z2F 0 / Z2F 255))
                  (Float (Z2F 5 / Z2F 255))
  = rgb_to_xy_16bit libm_unreached (Int 255) (Int 0) (Int 5).
Proof.
  assert (H255 : is_byte 255) by (unfold is_byte; lia).
  assert (H0 : is_byte 0) by (unfold is_byte; lia).
  assert (H5 : is_byte 5) by (unfold is_byte; lia).
  assert (N255 : 255 <> 1) by lia.
  assert (N0 : 0 <> 1) by lia.
  assert (N5 : 5 <> 1) by lia.
  exact (proj1
    (rgb_to_xy_16bit_renormalized libm_unreached 255 0 5
       (Z2F 255 / Z2F 255) (Z2F 0 / Z2F 255) (Z2F 5 / Z2F 255)
       H255 H0 H5 N255 N0 N5 eq_refl eq_refl eq_refl)).
Defined.

(** A channel equal to 1 is read as full intensity, its normalized value
    1 / 255 as nearly none: (1, 255, 0) and (1 / 255, 255 / 255, 0 / 255)
    give different pairs, whatever the C library's power function is
    (both evaluations take powers of base 1.0 only). *)
Lemma rgb_to_xy_16bit_unit_channel pow :
  rgb_to_xy_16bit pow (Int 1) (Int 255) (Int 0) = Ok (27677, 35907)
  /\ int_truediv 1 255 = Ok (Z2F 1 / Z2F 255)%float
  /\ int_truediv 255 255 = Ok (Z2F 255 / Z2F 255)%float
  /\ int_truediv 0 255 = Ok (Z2F 0 / Z2F 255)%float
  /\ rgb_to_xy_16bit pow (Float (Z2F 1 / Z2F 255)) (Float (Z2F 255 / Z2F 255))
                     (Float (Z2F 0 / Z2F 255))
     = Ok (7548, 54120).
Proof. repeat split; vm_compute; reflexivity. Qed.

(** C4, as stated, fails at the triple (1, 255, 0): the normalized values
    give (7548, 54120), the 0 to 255 values give (27677, 35907). *)
Lemma rgb_to_xy_16bit_not_renormalized_at_one :
  rgb_to_xy_16bit libm_unreached (Float (Z2F 1 / Z2F 255)) (Float (Z2F 255 / Z2F 255))
                  (Float (Z2F 0 / Z2F 255))
  <> rgb_to_xy_16bit libm_unreached (Int 1) (Int 255) (Int 0).
Proof.
  destruct (rgb_to_xy_16bit_unit_channel libm_unreached) as (H1 & _ & _ & _ & H2).
  rewrite H1, H2. discriminate.
Qed.

(** ** DALI_DT8_XY: four messages on, one off *)

Lemma split_bytes (v : Z) :
  lsb v + 256 * msb v = v mod 65536 /\ is_byte (lsb v) /\ is_byte (msb v).
Proof.
  unfold lsb, msb, is_byte.
  change 255 with (Z.ones 8).
  rewrite !Z.land_ones by lia. rewrite Z.shiftr_div_pow2 by lia.
  change (2 ^ 8) with 256.
  pose proof (Z.mod_pos_bound v 256 ltac:(lia)).
  pose proof (Z.mod_pos_bound (v / 256) 256 ltac:(lia)).
  change (Z.ones 8) with 255.
  split; [|lia].
  change 65536 with (256 * 256).
  rewrite Z.rem_mul_r by lia. reflexivity.
Qed.

(** C9: for a light with protocol DALI_DT8_XY (bytes for the colour and
    the brightness, the DALI maximum 254), turning on hands the transport
    exactly four messages in this order: SET_TEMP_X_COORD with the low and
    high byte of x, SET_TEMP_Y_COORD with the low and high byte of y,
    ARC_LEVEL with the brightness scaled to the DALI maximum, then
    ACTIVATE; turning off hands it a single ARC_LEVEL 0. *)
Theorem dali_dt8_xy_on_four_off_one :
  forall MAX pow send kw l l1 c r g b w,
    MAX = 254 ->
    _protocol l = PROTOCOL_DALI_DT8_XY ->
    apply_kwargs kw l = (l1, None) ->
    _rgbw_color l1 = (r, g, b, w) ->
    is_byte r -> is_byte g -> is_byte b -> is_byte (_brightness l1) ->
    (exists x16 y16,
        rgb_to_xy_16bit pow (Int r) (Int g) (Int b) = Ok (x16, y16)
        /\ sent (async_turn_on MAX pow send kw l c)
           = Some [dali_type8 (c + 1) (_line l) (_address l) SET_TEMP_X_COORD
                     [lsb x16; msb x16];
                   dali_type8 (c + 2) (_line l) (_address l) SET_TEMP_Y_COORD
                     [lsb y16; msb y16];
                   dali_custom (c + 3) (_line l) (_address l) DALI_ARC_LEVEL
                     [_brightness l1 * MAX / 255];
                   dali_type8 (c + 4) (_line l) (_address l) ACTIVATE []]
        /\ lsb x16 + 256 * msb x16 = x16 mod 65536
        /\ lsb y16 + 256 * msb y16 = y16 mod 65536)
    /\ sent (async_turn_off send l c)
       = Some [dali_custom (c + 1) (_line l) (_address l) DALI_ARC_LEVEL [0]].
Proof.
  intros MAX pow send kw l l1 c r g b w -> Hp Hk Hc Hr Hg Hb Hbr.
  destruct (apply_kwargs_frame kw l l1 None Hk) as (Hp1 & Ha1 & Hl1 & _).
  split; [|apply single_arc_level_off_sent; tauto].
  destruct (rgb_to_xy_16bit_bytes pow r g b Hr Hg Hb) as (x16 & y16 & Hxy).
  exists x16, y16. split; [exact Hxy|]. split; [|split; apply split_bytes].
  apply (async_turn_on_sent 254 pow send kw l l1 c _ (c + 4) Hk); [|discriminate].
  rewrite (turn_on_commands_dali_dt8_xy 254 pow l1 r g b w) by congruence.
  run_gen. rewrite Hxy, (dali_arc_level_254 _ Hbr), Ha1, Hl1.
  replace (c + 1 + 1) with (c + 2) by lia.
  replace (c + 2 + 1) with (c + 3) by lia.
  replace (c + 3 + 1) with (c + 4) by lia.
  reflexivity.
Qed.

Lemma dali_dt8_xy_on_four_off_one_witness :
  sent (async_turn_on 254 libm_unreached send_delivers no_kwargs
                      (ControlFreakLight 9 "cove" PROTOCOL_DALI_DT8_XY 1) 0)
  = Some [dali_type8 1 1 9 SET_TEMP_X_COORD [lsb 20494; msb 20494];
          dali_type8 2 1 9 SET_TEMP_Y_COORD [lsb 21562; msb 21562];
          dali_custom 3 1 9 DALI_ARC_LEVEL [254];
          dali_type8 4 1 9 ACTIVATE []]
  /\ sent (async_turn_off send_delivers
             (ControlFreakLight 9 "cove" PROTOCOL_DALI_DT8_XY 1) 0)
     = Some [dali_custom 1 1 9 DALI_ARC_LEVEL [0]].
Proof.
  assert (Hb : is_byte 255) by (unfold is_byte; lia).
  destruct (dali_dt8_xy_on_four_off_one 254 libm_unreached send_delivers no_kwargs
              (ControlFreakLight 9 "cove" PROTOCOL_DALI_DT8_XY 1)
              (ControlFreakLight 9 "cove" PROTOCOL_DALI_DT8_XY 1)
              0 255 255 255 255 eq_refl eq_refl eq_refl eq_refl Hb Hb Hb Hb)
    as ((x16 & y16 & Hxy & Hon & _) & Hoff).
  assert (Hwhite : rgb_to_xy_16bit libm_unreached (Int 255) (Int 255) (Int 255)
                   = Ok (20494, 21562)) by (vm_compute; reflexivity).
  rewrite Hwhite in Hxy. inversion Hxy; subst x16 y16.
  split; [exact Hon | exact Hoff].
Defined.

(** The initial white (255, 255, 255) converts to x = 20494, y = 21562
    whatever the C library's power function is: only powers of base 1.0
    are taken. *)
Lemma rgb_to_xy_16bit_white pow :
  rgb_to_xy_16bit pow (Int 255) (Int 255) (Int 255) = Ok (20494, 21562).
Proof. vm_compute. reflexivity. Qed.

(** ** Transport errors and the 'on' flag *)

(** C5: if the transport send raises a connection, communication or
    timeout error during async_turn_on, the light is marked unavailable
    and the operation stops there: the 'on' flag is left as it was, the
    state is not written to the host, and the entity is the one the state
    update produced (brightness and colour already updated) but for its
    availability. The 'on' flag changes only after a send that
    returned. *)
Theorem async_turn_on_transport_error_aborts :
  forall MAX pow send kw l c,
    (forall cmds e,
        sent (async_turn_on MAX pow send kw l c) = Some cmds ->
        send cmds = Raise e ->
        is_transport_error e = true ->
        _attr_available (light_after (async_turn_on MAX pow send kw l c)) = false
        /\ _is_on (light_after (async_turn_on MAX pow send kw l c)) = _is_on l
        /\ state_written (async_turn_on MAX pow send kw l c) = false
        /\ propagated (async_turn_on MAX pow send kw l c) = None
        /\ light_after (async_turn_on MAX pow send kw l c)
           = with_available false (fst (apply_kwargs kw l)))
    /\ (_is_on (light_after (async_turn_on MAX pow send kw l c)) <> _is_on l ->
        _is_on (light_after (async_turn_on MAX pow send kw l c)) = true
        /\ exists cmds,
            sent (async_turn_on MAX pow send kw l c) = Some cmds
            /\ send cmds = Ok tt).
Proof.
  intros MAX pow send kw l c.
  unfold async_turn_on.
  destruct (apply_kwargs kw l) as [l1 [e0|]] eqn:Hk;
    destruct (apply_kwargs_frame kw l l1 _ Hk) as (_ & _ & _ & Hon & _).
  - split; [intros cmds e H; discriminate H|].
    cbn [light_after]. intros H. congruence.
  - unfold run_commands.
    destruct (turn_on_commands MAX pow l1 c) as [[[|m ms]|e1] c'].
    + split; [intros cmds e H; discriminate H|].
      cbn [light_after]. intros H. congruence.
    + destruct (send (m :: ms)) as [[]|e2] eqn:Hs.
      * split.
        { intros cmds e H Hs'. cbn [sent] in H. inversion H; subst. congruence. }
        { intros _. cbn [light_after sent]. split; [reflexivity|].
          exists (m :: ms). split; [reflexivity | exact Hs]. }
      * split.
        { intros cmds e H Hs' He. cbn [sent] in H. inversion H; subst.
          cbn [light_after state_written propagated fst].
          unfold on_exception. destruct (is_transport_error e2); simpl; auto. }
        { cbn [light_after]. unfold on_exception.
          destruct (is_transport_error e2); simpl; intros H; congruence. }
    + split; [intros cmds e H; discriminate H|].
      cbn [light_after]. unfold on_exception.
      destruct (is_transport_error e1); simpl; intros H; congruence.
Qed.

Lemma async_turn_on_transport_error_aborts_witness :
  _attr_available
    (light_after (async_turn_on 254 libm_unreached send_times_out (kwargs_brightness 40)
                                (ControlFreakLight 7 "hall" PROTOCOL_DALI_WHITE 1) 0))
  = false
  /\ _is_on
       (light_after (async_turn_on 254 libm_unreached send_times_out (kwargs_brightness 40)
                                   (ControlFreakLight 7 "hall" PROTOCOL_DALI_WHITE 1) 0))
     = false
  /\ _brightness
       (light_after (async_turn_on 254 libm_unreached send_times_out (kwargs_brightness 40)
                                   (ControlFreakLight 7 "hall" PROTOCOL_DALI_WHITE 1) 0))
     = 40.
Proof.
  destruct (proj1 (async_turn_on_transport_error_aborts
                     254 libm_unreached send_times_out (kwargs_brightness 40)
                     (ControlFreakLight 7 "hall" PROTOCOL_DALI_WHITE 1) 0)
                  [dali_custom 1 1 7 DALI_ARC_LEVEL [39]] EDIDIOTimeoutError
                  eq_refl eq_refl eq_refl)
    as (Ha & Hon & _ & _ & Hl).
  split; [exact Ha|]. split; [exact Hon|]. rewrite Hl. reflexivity.
Defined.

(** ** Turning off, then on without a brightness *)

Lemma apply_kwargs_default_brightness kw l :
  kw_brightness kw = None -> _is_on l = false ->
  _brightness (fst (apply_kwargs kw l))
  = if _brightness l =? 0 then 255 else _brightness l.
Proof.
  intros Hkw Hoff. unfold apply_kwargs. rewrite Hkw, Hoff. cbn [negb andb].
  destruct (_brightness l =? 0);
    (destruct (kw_rgb_color kw) as [c3|]);
    (destruct (kw_rgbw_color kw) as [[[[r g] b] w]|]);
    (destruct (kw_color_temp_kelvin kw) as [k|];
     [destruct (color_temperature_kelvin_to_mired k)|]);
    reflexivity.
Qed.

Lemma async_turn_on_sent_inv MAX pow send kw l c cmds :
  sent (async_turn_on MAX pow send kw l c) = Some cmds ->
  exists c', turn_on_commands MAX pow (fst (apply_kwargs kw l)) c = (Ok cmds, c').
Proof.
  unfold async_turn_on.
  destruct (apply_kwargs kw l) as [l1 [e|]]; cbn [fst]; [discriminate|].
  intros H. apply run_commands_sent_inv in H. destruct H as (c' & H & _). eauto.
Qed.

(** C10: a successful async_turn_off leaves the stored brightness at 0 and
    the 'on' flag cleared; an async_turn_on without a 'brightness'
    argument that follows resets the stored brightness to 255 before it
    generates commands, so the commands it hands to the transport are
    those of the state with brightness 255, and the stored brightness
    stays 255 whatever the send does. More generally, a turn-on without
    brightness of a light that is off never generates from brightness
    0. *)
Theorem turn_off_then_on_restores_full_brightness :
  forall MAX pow send_off send_on kw l c cmds_off,
    sent (async_turn_off send_off l c) = Some cmds_off ->
    send_off cmds_off = Ok tt ->
    kw_brightness kw = None ->
    _brightness (light_after (async_turn_off send_off l c)) = 0
    /\ _is_on (light_after (async_turn_off send_off l c)) = false
    /\ _brightness (fst (apply_kwargs kw (light_after (async_turn_off send_off l c)))) = 255
    /\ (forall cmds,
           sent (async_turn_on MAX pow send_on kw
                               (light_after (async_turn_off send_off l c))
                               (counter_after (async_turn_off send_off l c)))
           = Some cmds ->
           exists c',
             turn_on_commands MAX pow
               (fst (apply_kwargs kw (light_after (async_turn_off send_off l c))))
               (counter_after (async_turn_off send_off l c))
             = (Ok cmds, c'))
    /\ _brightness
         (light_after (async_turn_on MAX pow send_on kw
                                     (light_after (async_turn_off send_off l c))
                                     (counter_after (async_turn_off send_off l c))))
       = 255
    /\ (forall l0, _is_on l0 = false ->
                   _brightness (fst (apply_kwargs kw l0)) = 0 -> False).
Proof.
  intros MAX pow send_off send_on kw l c cmds_off Hsent Hsend Hkw.
  assert (Hafter : light_after (async_turn_off send_off l c)
                   = with_brightness 0 (with_is_on false l)).
  { unfold async_turn_off, run_commands in *.
    destruct (turn_off_commands l c) as [[[|m ms]|e] c']; try discriminate Hsent.
    destruct (send_off (m :: ms)) as [u|e] eqn:Hs; [reflexivity|].
    cbn [sent] in Hsent. inversion Hsent; subst. congruence. }
  set (off := async_turn_off send_off l c) in *.
  assert (H255 : _brightness (fst (apply_kwargs kw (light_after off))) = 255).
  { rewrite apply_kwargs_default_brightness; rewrite ?Hafter; auto. }
  rewrite Hafter at 1 2. cbn [_brightness _is_on with_brightness with_is_on].
  split; [reflexivity|]. split; [reflexivity|]. split; [exact H255|].
  split; [intros cmds; apply async_turn_on_sent_inv|].
  split.
  - unfold async_turn_on.
    destruct (apply_kwargs kw (light_after off)) as [l1 [e|]] eqn:Hk;
      cbn [fst] in H255; [exact H255|].
    unfold run_commands.
    destruct (turn_on_commands MAX pow l1 (counter_after off)) as [[[|m ms]|e] c'];
      [exact H255| |].
    + destruct (send_on (m :: ms)) as [u|e]; cbn [light_after].
      * exact H255.
      * unfold on_exception. destruct (is_transport_error e); exact H255.
    + cbn [light_after]. unfold on_exception.
      destruct (is_transport_error e); exact H255.
  - intros l0 Hoff H0.
    rewrite (apply_kwargs_default_brightness kw l0 Hkw Hoff) in H0.
    destruct (_brightness l0 =? 0) eqn:E; [discriminate|].
    apply Z.eqb_neq in E. contradiction.
Qed.

Lemma turn_off_then_on_restores_full_brightness_witness :
  _brightness
    (light_after (async_turn_off send_delivers
                    (with_is_on true
                       (with_brightness 90 (ControlFreakLight 7 "hall" PROTOCOL_DALI_WHITE 1)))
                    0)) = 0
  /\ sent (async_turn_on 254 libm_unreached send_delivers no_kwargs
             (light_after (async_turn_off send_delivers
                (with_is_on true
                   (with_brightness 90 (ControlFreakLight 7 "hall" PROTOCOL_DALI_WHITE 1)))
                0))
             (counter_after (async_turn_off send_delivers
                (with_is_on true
                   (with_brightness 90 (ControlFreakLight 7 "hall" PROTOCOL_DALI_WHITE 1)))
                0)))
     = Some [dali_custom 2 1 7 DALI_ARC_LEVEL [254]].
Proof.
  destruct (turn_off_then_on_restores_full_brightness
              254 libm_unreached send_delivers send_delivers no_kwargs
              (with_is_on true
                 (with_brightness 90 (ControlFreakLight 7 "hall" PROTOCOL_DALI_WHITE 1)))
              0 [dali_custom 1 1 7 DALI_ARC_LEVEL [0]] eq_refl eq_refl eq_refl)
    as (H0 & _).
  split; [exact H0 | reflexivity].
Defined.

(** * Further properties of the handlers *)

(** ** Message ids *)

Ltac split_gen H :=
  repeat match type of H with
         | context [match ?x with _ => _ end] =>
             lazymatch x with
             | context [match _ with _ => _ end] => fail
             | _ => destruct x eqn:?
             end
         end.

Ltac run_gen_in H :=
  cbv [bind lift ret arc_level dmx type8_command increment_and_get_id for_each] in H.

Lemma range_In_iff : forall n lo z, In z (range lo n) <-> lo <= z < lo + Z.of_nat n.
Proof.
  induction n as [|n IH]; intros lo z; simpl range.
  - simpl. lia.
  - cbn [In]. rewrite IH. lia.
Qed.

Lemma turn_on_commands_ids MAX pow l c cmds c' :
  turn_on_commands MAX pow l c = (Ok cmds, c') ->
  List.map message_id_of cmds = range (c + 1) (List.length cmds)
  /\ c' = c + Z.of_nat (List.length cmds).
Proof.
  unfold turn_on_commands. intros H. run_gen_in H.
  split_gen H; inversion H; subst; cbn [List.map message_id_of List.length range];
    (split; [reflexivity | cbn [Z.of_nat Pos.of_succ_nat Pos.succ]; lia]).
Qed.

Lemma turn_on_commands_counter MAX pow l c r c' :
  turn_on_commands MAX pow l c = (r, c') -> c <= c'.
Proof.
  unfold turn_on_commands. intros H. run_gen_in H.
  split_gen H; inversion H; subst; lia.
Qed.

Lemma turn_off_commands_ids l c r c' :
  turn_off_commands l c = (r, c') ->
  exists cmds, r = Ok cmds /\ cmds <> []
  /\ List.map message_id_of cmds = range (c + 1) (List.length cmds)
  /\ c' = c + Z.of_nat (List.length cmds).
Proof.
  unfold turn_off_commands, in_protocols. cbn [existsb]. intros H. run_gen_in H.
  split_gen H; try discriminate; inversion H; subst;
    eexists; (split; [reflexivity|]); (split; [discriminate|]);
    cbn [List.map message_id_of List.length range];
    (split; [reflexivity | cbn [Z.of_nat Pos.of_succ_nat Pos.succ]; lia]).
Qed.

Lemma run_commands_counter send g l c f :
  counter_after (run_commands send g l c f) = snd (g c).
Proof.
  unfold run_commands. destruct (g c) as [[[|m ms]|e] c']; try reflexivity.
  destruct (send (m :: ms)); reflexivity.
Qed.

Lemma run_call_ids MAX pow k l c :
  c <= counter_after (run_call MAX pow k l c)
  /\ forall cmds, sent (run_call MAX pow k l c) = Some cmds ->
       List.map message_id_of cmds = range (c + 1) (List.length cmds)
       /\ counter_after (run_call MAX pow k l c) = c + Z.of_nat (List.length cmds).
Proof.
  destruct k as [send kw|send|connected|p|a]; cbn [run_call silent counter_after sent];
    try (split; [lia|discriminate]).
  - unfold async_turn_on.
    destruct (apply_kwargs kw l) as [l1 [e|]].
    + cbn [counter_after sent]. split; [lia|discriminate].
    + rewrite run_commands_counter.
      destruct (turn_on_commands MAX pow l1 c) as [r c'] eqn:Hg. cbn [snd].
      split; [apply (turn_on_commands_counter MAX pow l1 c r c' Hg)|].
      intros cmds Hs. apply run_commands_sent_inv in Hs.
      destruct Hs as (c'' & Hs & _). rewrite Hg in Hs. inversion Hs; subst.
      apply (turn_on_commands_ids MAX pow l1 c cmds c'' Hg).
  - unfold async_turn_off. rewrite run_commands_counter.
    destruct (turn_off_commands l c) as [r c'] eqn:Hg. cbn [snd].
    destruct (turn_off_commands_ids l c r c' Hg) as (cmds0 & -> & Hne & Hids & Hc).
    split; [lia|].
    intros cmds Hs. apply run_commands_sent_inv in Hs.
    destruct Hs as (c'' & Hs & _). rewrite Hg in Hs. inversion Hs; subst.
    split; [exact Hids | reflexivity].
Qed.

Lemma counter_after_calls_mono MAX pow calls :
  forall c, c <= counter_after_calls MAX pow calls c.
Proof.
  unfold counter_after_calls.
  induction calls as [|[k l] calls IH]; intros c; cbn [fold_left fst snd]; [lia|].
  pose proof (proj1 (run_call_ids MAX pow k l c)).
  specialize (IH (counter_after (run_call MAX pow k l c))). lia.
Qed.

(** X1: whatever a call of [async_turn_on] or [async_turn_off] hands to the
    transport carries consecutive message ids: the first is one more than
    the closure's counter before the call, each next one is one more than
    its predecessor, and the counter ends on the last id. This holds for
    every protocol, every state and every DALI maximum, and whether the
    send then succeeds or fails. *)
Theorem sent_message_ids_are_consecutive :
  forall MAX pow k l c cmds,
    sent (run_call MAX pow k l c) = Some cmds ->
    List.map message_id_of cmds = range (c + 1) (List.length cmds)
    /\ counter_after (run_call MAX pow k l c) = c + Z.of_nat (List.length cmds).
Proof.
  intros MAX pow k l c cmds Hs.
  apply (proj2 (run_call_ids MAX pow k l c) cmds Hs).
Qed.

Lemma sent_message_ids_are_consecutive_witness :
  List.map message_id_of
    [dali_custom 11 1 20 DALI_ARC_LEVEL [0]; dali_custom 12 1 21 DALI_ARC_LEVEL [0];
     dali_custom 13 1 22 DALI_ARC_LEVEL [0]; dali_custom 14 1 23 DALI_ARC_LEVEL [0]]
  = [11; 12; 13; 14]
  /\ counter_after
       (run_call 254 libm_unreached (call_turn_off send_times_out)
          (ControlFreakLight 20 "stage" PROTOCOL_DALI_RGBW 1) 10)
     = 14.
Proof.
  exact (sent_message_ids_are_consecutive 254 libm_unreached (call_turn_off send_times_out)
           (ControlFreakLight 20 "stage" PROTOCOL_DALI_RGBW 1) 10
           [dali_custom 11 1 20 DALI_ARC_LEVEL [0]; dali_custom 12 1 21 DALI_ARC_LEVEL [0];
            dali_custom 13 1 22 DALI_ARC_LEVEL [0]; dali_custom 14 1 23 DALI_ARC_LEVEL [0]]
           eq_refl).
Defined.

(** X2: no message id is handed to the transport twice: of two calls on the
    same closure (on the same light or on different lights, with any
    number of other calls in between, failed ones included), every id of
    the later call is greater than every id of the earlier one, and all
    are greater than the counter the first call found. *)
Theorem message_ids_are_never_reused :
  forall MAX pow k1 l1 between k2 l2 c cmds1 cmds2 m1 m2,
    sent (run_call MAX pow k1 l1 c) = Some cmds1 ->
    sent (run_call MAX pow k2 l2
            (counter_after_calls MAX pow between
               (counter_after (run_call MAX pow k1 l1 c)))) = Some cmds2 ->
    In m1 cmds1 -> In m2 cmds2 ->
    c < message_id_of m1 /\ message_id_of m1 < message_id_of m2.
Proof.
  intros MAX pow k1 l1 between k2 l2 c cmds1 cmds2 m1 m2 H1 H2 I1 I2.
  destruct (proj2 (run_call_ids MAX pow k1 l1 c) cmds1 H1) as [Hid1 Hc1].
  set (c1 := counter_after (run_call MAX pow k1 l1 c)) in *.
  pose proof (counter_after_calls_mono MAX pow between c1) as Hm.
  set (c2 := counter_after_calls MAX pow between c1) in *.
  destruct (proj2 (run_call_ids MAX pow k2 l2 c2) cmds2 H2) as [Hid2 _].
  apply (in_map message_id_of) in I1. apply (in_map message_id_of) in I2.
  rewrite Hid1 in I1. rewrite Hid2 in I2.
  apply range_In_iff in I1. apply range_In_iff in I2. lia.
Qed.

Lemma message_ids_are_never_reused_witness :
  0 < message_id_of (dali_custom 3 1 12 DALI_ARC_LEVEL [0])
  /\ message_id_of (dali_custom 3 1 12 DALI_ARC_LEVEL [0])
     < message_id_of (dmx_message 5 0 2 40 1 [255] 25).
Proof.
  exact (message_ids_are_never_reused 254 libm_unreached
           (call_turn_off send_delivers) (ControlFreakLight 10 "spot" PROTOCOL_DALI_RGB 1)
           [(call_turn_off send_times_out, ControlFreakLight 7 "hall" PROTOCOL_DALI_WHITE 1)]
           (call_turn_on send_delivers no_kwargs)
           (ControlFreakLight 40 "bar" PROTOCOL_DMX_WHITE 1)
           0
           [dali_custom 1 1 10 DALI_ARC_LEVEL [0]; dali_custom 2 1 11 DALI_ARC_LEVEL [0];
            dali_custom 3 1 12 DALI_ARC_LEVEL [0]]
           [dmx_message 5 0 2 40 1 [255] 25]
           (dali_custom 3 1 12 DALI_ARC_LEVEL [0]) (dmx_message 5 0 2 40 1 [255] 25)
           eq_refl eq_refl
           (or_intror (or_intror (or_introl eq_refl))) (or_introl eq_refl)).
Defined.

(** ** Turning off *)

(** X3: [async_turn_off] always hands the transport a non-empty sequence, for
    every protocol string (known or not) and every state, and every
    message of it switches a channel of this light off: a DMX message on
    the light's channel with all levels 0, or an ARC_LEVEL 0 on the
    light's line at an address from the light's own up to three above
    it. It never sends a DT8 command. *)
Theorem async_turn_off_always_sends_zeros :
  forall send l c,
    exists cmds,
      sent (async_turn_off send l c) = Some cmds
      /\ cmds <> []
      /\ Forall (zero_message_for l) cmds.
Proof.
  intros send l c.
  destruct (turn_off_commands l c) as [r c'] eqn:Hg.
  assert (H : exists cmds, r = Ok cmds /\ cmds <> [] /\ Forall (zero_message_for l) cmds).
  { revert Hg. unfold turn_off_commands, in_protocols. cbn [existsb]. intros H.
    run_gen_in H.
    split_gen H; try discriminate; inversion H; subst;
      eexists; (split; [reflexivity|]); (split; [discriminate|]);
      repeat constructor; lia. }
  destruct H as (cmds & -> & Hne & Hz).
  exists cmds. split; [|split; assumption].
  apply (async_turn_off_sent send l c cmds c' Hg Hne).
Qed.

(** X4: what [async_turn_off] leaves behind depends on the send alone. If the
    send raises (any exception), the entity is the one before the call
    but for its availability, which is off: the 'on' flag and the
    brightness are untouched and the state is not written to the host. If
    the send returns, the 'on' flag is off, the brightness is 0, nothing
    else changed and the state is written. *)
Theorem async_turn_off_outcomes :
  forall send l c cmds,
    sent (async_turn_off send l c) = Some cmds ->
    (forall e, send cmds = Raise e ->
               light_after (async_turn_off send l c) = with_available false l
               /\ state_written (async_turn_off send l c) = false)
    /\ (send cmds = Ok tt ->
        light_after (async_turn_off send l c) = with_brightness 0 (with_is_on false l)
        /\ state_written (async_turn_off send l c) = true).
Proof.
  intros send l c cmds. unfold async_turn_off, run_commands.
  destruct (turn_off_commands l c) as [[[|m ms]|e0] c']; cbn [sent]; try discriminate.
  destruct (send (m :: ms)) as [[]|e1] eqn:Hs; cbn [sent light_after state_written];
    intros H; inversion H; subst; split.
  - intros e He. congruence.
  - intros _. split; reflexivity.
  - intros e He. split; [|reflexivity].
    unfold on_exception. destruct (is_transport_error e1); reflexivity.
  - intros He. congruence.
Qed.

Lemma async_turn_off_outcomes_witness :
  light_after (async_turn_off send_disconnected
                 (with_is_on true (ControlFreakLight 7 "hall" PROTOCOL_DALI_WHITE 1)) 0)
  = with_available false (with_is_on true (ControlFreakLight 7 "hall" PROTOCOL_DALI_WHITE 1))
  /\ state_written (async_turn_off send_disconnected
                      (with_is_on true (ControlFreakLight 7 "hall" PROTOCOL_DALI_WHITE 1)) 0)
     = false.
Proof.
  exact (proj1 (async_turn_off_outcomes send_disconnected
                  (with_is_on true (ControlFreakLight 7 "hall" PROTOCOL_DALI_WHITE 1)) 0
                  [dali_custom 1 1 7 DALI_ARC_LEVEL [0]] eq_refl)
               EDIDIOConnectionError eq_refl).
Defined.

(** ** Availability *)

(** X5: only [async_update] with a connected client marks a light available
    again: if a light that is unavailable before a call of any of its
    methods is available after it, the call was [async_update] and the
    client reported a connection. In particular neither handler restores
    the availability, also when its send succeeded and the state was
    written. *)
Theorem only_async_update_restores_availability :
  forall MAX pow k l c,
    _attr_available l = false ->
    _attr_available (light_after (run_call MAX pow k l c)) = true ->
    k = call_update (Ok true).
Proof.
  intros MAX pow [send kw|send|[[|]|e]|p|a] l c Ha; cbn [run_call silent light_after].
  - unfold async_turn_on.
    destruct (apply_kwargs kw l) as [l1 [e|]] eqn:Hk;
      destruct (apply_kwargs_frame kw l l1 _ Hk) as (_ & _ & _ & _ & Hav & _);
      [cbn [light_after]; congruence|].
    unfold run_commands.
    destruct (turn_on_commands MAX pow l1 c) as [[[|m ms]|e] c'];
      [cbn [light_after]; congruence| |].
    + destruct (send (m :: ms)) as [u|e]; cbn [light_after].
      * simpl. congruence.
      * unfold on_exception. destruct (is_transport_error e); discriminate.
    + cbn [light_after]. unfold on_exception. destruct (is_transport_error e); discriminate.
  - unfold async_turn_off, run_commands.
    destruct (turn_off_commands l c) as [[[|m ms]|e] c'];
      [cbn [light_after]; congruence| |].
    + destruct (send (m :: ms)) as [u|e]; cbn [light_after].
      * simpl. congruence.
      * unfold on_exception. destruct (is_transport_error e); discriminate.
    + cbn [light_after]. unfold on_exception. destruct (is_transport_error e); discriminate.
  - reflexivity.
  - discriminate.
  - cbn [async_update]. unfold on_exception. destruct (is_transport_error e); discriminate.
  - simpl. congruence.
  - simpl. congruence.
Qed.

Lemma only_async_update_restores_availability_witness :
  call_update (Ok true) = call_update (Ok true)
  /\ state_written
       (run_call 254 libm_unreached (call_turn_on send_delivers no_kwargs)
          (with_available false (ControlFreakLight 40 "bar" PROTOCOL_DMX_WHITE 1)) 0)
     = true
  /\ _attr_available
       (light_after
          (run_call 254 libm_unreached (call_turn_on send_delivers no_kwargs)
             (with_available false (ControlFreakLight 40 "bar" PROTOCOL_DMX_WHITE 1)) 0))
     = false.
Proof.
  split; [|split; reflexivity].
  exact (only_async_update_restores_availability 254 libm_unreached
           (call_update (Ok true))
           (with_available false (ControlFreakLight 40 "bar" PROTOCOL_DMX_WHITE 1))
           0 eq_refl eq_refl).
Defined.

Lemma with_available_same l : with_available (_attr_available l) l = l.
Proof. destruct l. reflexivity. Qed.

(** X6: after a send that failed in [async_turn_on], [async_update] sets the
    availability to what the client reports ([False] if reading it
    raises) and changes nothing else; if the light was available before
    the failed call and the client reports a connection again, the entity
    is exactly the one the state update of the failed call produced: the
    requested brightness and colour are kept, the 'on' flag is the old
    one. *)
Theorem async_update_restores_after_failed_send :
  forall MAX pow send kw l c cmds e connected,
    sent (async_turn_on MAX pow send kw l c) = Some cmds ->
    send cmds = Raise e ->
    async_update connected (light_after (async_turn_on MAX pow send kw l c))
    = with_available (match connected with Ok b => b | Raise _ => false end)
                     (fst (apply_kwargs kw l))
    /\ (_attr_available l = true -> connected = Ok true ->
        async_update connected (light_after (async_turn_on MAX pow send kw l c))
        = fst (apply_kwargs kw l)).
Proof.
  intros MAX pow send kw l c cmds e connected Hs He.
  assert (Hl : light_after (async_turn_on MAX pow send kw l c)
               = with_available false (fst (apply_kwargs kw l))).
  { revert Hs. unfold async_turn_on.
    destruct (apply_kwargs kw l) as [l1 [e0|]]; cbn [sent fst]; [discriminate|].
    unfold run_commands.
    destruct (turn_on_commands MAX pow l1 c) as [[[|m ms]|e1] c']; cbn [sent];
      try discriminate.
    destruct (send (m :: ms)) as [u|e2] eqn:Hsend; cbn [sent light_after];
      intros H; inversion H; subst; [congruence|].
    unfold on_exception. destruct (is_transport_error e2); reflexivity. }
  rewrite Hl. split.
  - unfold async_update. destruct connected as [b|e0]; [reflexivity|].
    unfold on_exception. destruct (is_transport_error e0); reflexivity.
  - intros Ha ->. cbn [async_update].
    change (with_available true (with_available false (fst (apply_kwargs kw l))))
      with (with_available true (fst (apply_kwargs kw l))).
    destruct (apply_kwargs kw l) as [l1 e1] eqn:Hk. cbn [fst].
    destruct (apply_kwargs_frame kw l l1 _ Hk) as (_ & _ & _ & _ & Hav & _).
    rewrite <- Ha, <- Hav. apply with_available_same.
Qed.

Lemma async_update_restores_after_failed_send_witness :
  async_update (Ok true)
    (light_after (async_turn_on 254 libm_unreached send_times_out (kwargs_brightness 40)
                                (ControlFreakLight 7 "hall" PROTOCOL_DALI_WHITE 1) 0))
  = with_brightness 40 (ControlFreakLight 7 "hall" PROTOCOL_DALI_WHITE 1).
Proof.
  exact (proj2 (async_update_restores_after_failed_send
                  254 libm_unreached send_times_out (kwargs_brightness 40)
                  (ControlFreakLight 7 "hall" PROTOCOL_DALI_WHITE 1) 0
                  [dali_custom 1 1 7 DALI_ARC_LEVEL [39]] EDIDIOTimeoutError (Ok true)
                  eq_refl eq_refl)
               eq_refl eq_refl).
Defined.

(** ** Exceptions of the state update and of the command generation *)

(** X7: a colour temperature of 0 K makes the kelvin conversion divide by
    zero before the [try] of [async_turn_on]: the exception leaves the
    handler, nothing is sent, no message id is drawn and the state is not
    written; the brightness and colour of the same request are already
    stored, while the 'on' flag, the availability and the colour
    temperature are the old ones. *)
Theorem zero_kelvin_leaves_the_handler :
  forall MAX pow send kw l c,
    kw_color_temp_kelvin kw = Some 0 ->
    propagated (async_turn_on MAX pow send kw l c) = Some ZeroDivisionError
    /\ sent (async_turn_on MAX pow send kw l c) = None
    /\ counter_after (async_turn_on MAX pow send kw l c) = c
    /\ state_written (async_turn_on MAX pow send kw l c) = false
    /\ light_after (async_turn_on MAX pow send kw l c)
       = fst (apply_kwargs (without_kelvin kw) l)
    /\ _is_on (light_after (async_turn_on MAX pow send kw l c)) = _is_on l
    /\ _attr_available (light_after (async_turn_on MAX pow send kw l c))
       = _attr_available l
    /\ _color_temp (light_after (async_turn_on MAX pow send kw l c)) = _color_temp l.
Proof.
  intros MAX pow send kw l c Hk.
  assert (H : apply_kwargs kw l
              = (fst (apply_kwargs (without_kelvin kw) l), Some ZeroDivisionError)).
  { unfold apply_kwargs, without_kelvin. cbn [kw_brightness kw_rgb_color kw_rgbw_color
                                               kw_color_temp_kelvin].
    rewrite Hk. cbn [color_temperature_kelvin_to_mired Z.eqb fst]. reflexivity. }
  unfold async_turn_on. rewrite H. cbn [propagated sent counter_after state_written light_after].
  repeat split.
  - destruct (apply_kwargs (without_kelvin kw) l) as [l1 e1] eqn:E.
    apply (apply_kwargs_frame _ _ _ _ E).
  - destruct (apply_kwargs (without_kelvin kw) l) as [l1 e1] eqn:E.
    apply (apply_kwargs_frame _ _ _ _ E).
  - unfold apply_kwargs, without_kelvin.
    cbn [kw_brightness kw_rgb_color kw_rgbw_color kw_color_temp_kelvin fst].
    destruct (kw_brightness kw) as [v|];
      [|destruct (negb (_is_on l) && (_brightness l =? 0))];
      (destruct (kw_rgb_color kw) as [c3|]);
      (destruct (kw_rgbw_color kw) as [[[[r g] b] w]|]); reflexivity.
Qed.

Lemma zero_kelvin_leaves_the_handler_witness :
  propagated (async_turn_on 254 libm_unreached send_delivers
                {| kw_brightness := Some 40; kw_rgb_color := None;
                   kw_rgbw_color := None; kw_color_temp_kelvin := Some 0 |}
                (ControlFreakLight 4 "desk" PROTOCOL_DALI_DT8_CCT 1) 0)
  = Some ZeroDivisionError
  /\ light_after (async_turn_on 254 libm_unreached send_delivers
                    {| kw_brightness := Some 40; kw_rgb_color := None;
                       kw_rgbw_color := None; kw_color_temp_kelvin := Some 0 |}
                    (ControlFreakLight 4 "desk" PROTOCOL_DALI_DT8_CCT 1) 0)
     = with_brightness 40 (ControlFreakLight 4 "desk" PROTOCOL_DALI_DT8_CCT 1).
Proof.
  destruct (zero_kelvin_leaves_the_handler 254 libm_unreached send_delivers
              {| kw_brightness := Some 40; kw_rgb_color := None;
                 kw_rgbw_color := None; kw_color_temp_kelvin := Some 0 |}
              (ControlFreakLight 4 "desk" PROTOCOL_DALI_DT8_CCT 1) 0 eq_refl)
    as (Hp & _ & _ & _ & Hl & _).
  split; [exact Hp | exact Hl].
Defined.

(** X8: a light that became DALI_DT8_CCT through [set_protocol] has no kelvin
    bounds ([__init__] sets them only for a light constructed with that
    protocol), so turning it on cannot compute its mired bounds: the
    [TypeError] is caught inside the handler, nothing is sent, no message
    id is drawn, and the light is marked unavailable. *)
Theorem cct_without_bounds_cannot_turn_on :
  forall MAX pow send kw l l1 c mired,
    _protocol l = PROTOCOL_DALI_DT8_CCT ->
    _attr_min_color_temp_kelvin l = None ->
    apply_kwargs kw l = (l1, None) ->
    _color_temp l1 = Some mired ->
    sent (async_turn_on MAX pow send kw l c) = None
    /\ light_after (async_turn_on MAX pow send kw l c) = with_available false l1
    /\ counter_after (async_turn_on MAX pow send kw l c) = c
    /\ state_written (async_turn_on MAX pow send kw l c) = false
    /\ propagated (async_turn_on MAX pow send kw l c) = None.
Proof.
  intros MAX pow send kw l l1 c mired Hp Hmin Hk Hct.
  destruct (apply_kwargs_frame kw l l1 None Hk) as (Hp1 & _ & _ & _ & _ & Hmin1 & _).
  assert (Hg : turn_on_commands MAX pow l1 c = (Raise TypeError, c)).
  { rewrite (turn_on_commands_dali_dt8_cct MAX pow l1 mired) by congruence.
    unfold dali_dt8_cct_value, max_mireds. rewrite Hp1, Hp, Hmin1, Hmin. reflexivity. }
  unfold async_turn_on. rewrite Hk. unfold run_commands. rewrite Hg.
  cbn. repeat split; reflexivity.
Qed.

Lemma cct_without_bounds_cannot_turn_on_witness :
  sent (async_turn_on 254 libm_unreached send_delivers no_kwargs
          (set_protocol PROTOCOL_DALI_DT8_CCT
             (ControlFreakLight 4 "desk" PROTOCOL_DALI_WHITE 1)) 0) = None
  /\ _attr_available
       (light_after (async_turn_on 254 libm_unreached send_delivers no_kwargs
          (set_protocol PROTOCOL_DALI_DT8_CCT
             (ControlFreakLight 4 "desk" PROTOCOL_DALI_WHITE 1)) 0)) = false.
Proof.
  destruct (cct_without_bounds_cannot_turn_on 254 libm_unreached send_delivers no_kwargs
              (set_protocol PROTOCOL_DALI_DT8_CCT
                 (ControlFreakLight 4 "desk" PROTOCOL_DALI_WHITE 1))
              (set_protocol PROTOCOL_DALI_DT8_CCT
                 (ControlFreakLight 4 "desk" PROTOCOL_DALI_WHITE 1))
              0 3000 eq_refl eq_refl eq_refl eq_refl) as (Hs & Hl & _).
  split; [exact Hs|]. rewrite Hl. reflexivity.
Defined.

(** ** Which colour argument drives which protocol *)

Lemma turn_on_commands_ignore_rgb MAX pow v l :
  In (_protocol l) [PROTOCOL_DMX_RGBW; PROTOCOL_DALI_RGBW; PROTOCOL_DALI_DT8_XY;
                    PROTOCOL_DALI_DT8_CCT; PROTOCOL_DALI_WHITE; PROTOCOL_DMX_WHITE] ->
  turn_on_commands MAX pow (with_rgb_color v l) = turn_on_commands MAX pow l.
Proof.
  intros Hp. unfold turn_on_commands, dali_dt8_cct_value, max_mireds, min_mireds,
    arc_level, dmx, type8_command.
  cbn [with_rgb_color _protocol _brightness _rgb_color _rgbw_color _color_temp _address
       _line _attr_min_color_temp_kelvin _attr_max_color_temp_kelvin].
  cbn [In] in Hp.
  destruct Hp as [<-|[<-|[<-|[<-|[<-|[<-|[]]]]]]]; reflexivity.
Qed.

Lemma sent_depends_on_commands send g1 g2 l1 l2 c f1 f2 :
  g1 c = g2 c ->
  sent (run_commands send g1 l1 c f1) = sent (run_commands send g2 l2 c f2).
Proof.
  intros H. unfold run_commands. rewrite H.
  destruct (g2 c) as [[[|m ms]|e] c']; try reflexivity.
  destruct (send (m :: ms)); reflexivity.
Qed.

(** X9: an [rgb_color] argument has no effect on what is sent to a light of
    the protocols DMX_RGBW, DALI_RGBW, DALI_DT8_XY, DALI_DT8_CCT,
    DALI_WHITE or DMX_WHITE: without an [rgbw_color] argument in the same
    request, the sequence handed to the transport is the one the request
    without its [rgb_color] produces. The RGBW protocols in particular
    send the stored 4-tuple, which an RGB triple alone does not update. *)
Theorem rgb_color_is_ignored_outside_the_rgb_protocols :
  forall MAX pow send kw l c,
    In (_protocol l) [PROTOCOL_DMX_RGBW; PROTOCOL_DALI_RGBW; PROTOCOL_DALI_DT8_XY;
                      PROTOCOL_DALI_DT8_CCT; PROTOCOL_DALI_WHITE; PROTOCOL_DMX_WHITE] ->
    kw_rgbw_color kw = None ->
    sent (async_turn_on MAX pow send kw l c)
    = sent (async_turn_on MAX pow send (without_rgb kw) l c).
Proof.
  intros MAX pow send kw l c Hp Hw.
  unfold async_turn_on.
  destruct (kw_rgb_color kw) as [v|] eqn:Hv.
  2:{ assert (He : without_rgb kw = kw).
      { destruct kw. unfold without_rgb. cbn in *. congruence. }
      rewrite He. reflexivity. }
  assert (H : apply_kwargs kw l
              = (with_rgb_color v (fst (apply_kwargs (without_rgb kw) l)),
                 snd (apply_kwargs (without_rgb kw) l))).
  { unfold apply_kwargs, without_rgb.
    cbn [kw_brightness kw_rgb_color kw_rgbw_color kw_color_temp_kelvin].
    rewrite Hv, Hw.
    destruct (kw_brightness kw) as [b|];
      [|destruct (negb (_is_on l) && (_brightness l =? 0))];
      (destruct (kw_color_temp_kelvin kw) as [k|];
       [destruct (color_temperature_kelvin_to_mired k)|]); reflexivity. }
  rewrite H.
  destruct (apply_kwargs (without_rgb kw) l) as [l1 [e|]] eqn:Hk; cbn [fst snd];
    [reflexivity|].
  destruct (apply_kwargs_frame _ _ _ _ Hk) as (Hp1 & _).
  apply sent_depends_on_commands.
  rewrite turn_on_commands_ignore_rgb by (rewrite Hp1; exact Hp). reflexivity.
Qed.

Lemma rgb_color_is_ignored_outside_the_rgb_protocols_witness :
  sent (async_turn_on 254 libm_unreached send_delivers (kwargs_rgb 255 (10, 20, 30))
                      (ControlFreakLight 5 "wash" PROTOCOL_DMX_RGBW 1) 0)
  = Some [dmx_message 1 0 2 5 1 [255; 255; 255; 255] 25].
Proof.
  exact (eq_trans
           (rgb_color_is_ignored_outside_the_rgb_protocols
              254 libm_unreached send_delivers (kwargs_rgb 255 (10, 20, 30))
              (ControlFreakLight 5 "wash" PROTOCOL_DMX_RGBW 1) 0
              (or_introl eq_refl) eq_refl)
           eq_refl).
Defined.

Lemma turn_on_commands_ignore_rgbw MAX pow v l :
  In (_protocol l) [PROTOCOL_DMX_RGB; PROTOCOL_DALI_RGB] ->
  turn_on_commands MAX pow (with_rgbw_color v l) = turn_on_commands MAX pow l.
Proof.
  intros Hp. unfold turn_on_commands, arc_level, dmx.
  cbn [with_rgbw_color _protocol _brightness _rgb_color _rgbw_color _color_temp _address
       _line].
  cbn [In] in Hp.
  destruct Hp as [<-|[<-|[]]]; reflexivity.
Qed.

(** X10: an [rgbw_color] argument drives a DMX_RGB or DALI_RGB light through
    its first three components: what is sent is what the same request
    with [rgb_color = (r, g, b)] in place of [rgbw_color = (r, g, b, w)]
    sends, whatever [rgb_color] the request carried itself; the white
    component is stored but not sent. *)
Theorem rgbw_color_drives_the_rgb_protocols :
  forall MAX pow send kw l c r g b w,
    In (_protocol l) [PROTOCOL_DMX_RGB; PROTOCOL_DALI_RGB] ->
    kw_rgbw_color kw = Some (r, g, b, w) ->
    sent (async_turn_on MAX pow send kw l c)
    = sent (async_turn_on MAX pow send (rgbw_as_rgb kw r g b) l c)
    /\ (forall l1 e, apply_kwargs kw l = (l1, e) ->
                     _rgb_color l1 = (r, g, b) /\ _rgbw_color l1 = (r, g, b, w)).
Proof.
  intros MAX pow send kw l c r g b w Hp Hw.
  assert (H : exists l0,
             apply_kwargs (rgbw_as_rgb kw r g b) l
             = (l0, snd (apply_kwargs kw l))
             /\ fst (apply_kwargs kw l) = with_rgb_color (r, g, b)
                                            (with_rgbw_color (r, g, b, w) l0)
             /\ _rgb_color (fst (apply_kwargs kw l)) = (r, g, b)
             /\ _rgbw_color (fst (apply_kwargs kw l)) = (r, g, b, w)
             /\ _rgb_color l0 = (r, g, b)).
  { unfold apply_kwargs, rgbw_as_rgb.
    cbn [kw_brightness kw_rgb_color kw_rgbw_color kw_color_temp_kelvin].
    rewrite Hw.
    destruct (kw_brightness kw) as [v|];
      [|destruct (negb (_is_on l) && (_brightness l =? 0))];
      (destruct (kw_rgb_color kw) as [c3|]);
      (destruct (kw_color_temp_kelvin kw) as [k|];
       [destruct (color_temperature_kelvin_to_mired k)|]);
      eexists; repeat split; reflexivity. }
  destruct H as (l0 & H0 & H1 & H2 & H3 & H4).
  split.
  - unfold async_turn_on. rewrite H0.
    destruct (apply_kwargs kw l) as [l1 [e|]] eqn:Hk; cbn [fst snd] in *; [reflexivity|].
    destruct (apply_kwargs_frame _ _ _ _ H0) as (Hp0 & _).
    apply sent_depends_on_commands. subst l1.
    assert (Hrgb : with_rgb_color (r, g, b) (with_rgbw_color (r, g, b, w) l0)
                   = with_rgbw_color (r, g, b, w) l0).
    { destruct l0. cbn in *. subst. reflexivity. }
    rewrite Hrgb.
    rewrite turn_on_commands_ignore_rgbw by (rewrite Hp0; exact Hp). reflexivity.
  - intros l1 e Hk. rewrite Hk in H2, H3. cbn [fst] in *. split; assumption.
Qed.

Lemma rgbw_color_drives_the_rgb_protocols_witness :
  sent (async_turn_on 254 libm_unreached send_delivers (kwargs_rgbw (10, 20, 30, 40))
                      (ControlFreakLight 5 "wash" PROTOCOL_DMX_RGB 1) 0)
  = Some [dmx_message 1 0 2 5 1 [10; 20; 30] 25].
Proof.
  exact (eq_trans
           (proj1 (rgbw_color_drives_the_rgb_protocols
                     254 libm_unreached send_delivers (kwargs_rgbw (10, 20, 30, 40))
                     (ControlFreakLight 5 "wash" PROTOCOL_DMX_RGB 1) 0 10 20 30 40
                     (or_introl eq_refl) eq_refl))
           eq_refl).
Defined.

(** ** The branches DALI_RGBW, DMX_RGBW and DMX_WHITE of turning on *)

Lemma turn_on_commands_dali_rgbw MAX pow l r g b w :
  _protocol l = PROTOCOL_DALI_RGBW -> _rgbw_color l = (r, g, b, w) ->
  turn_on_commands MAX pow l =
  (effective_r <- lift (scaled r (_brightness l)) ;;
   effective_g <- lift (scaled g (_brightness l)) ;;
   effective_b <- lift (scaled b (_brightness l)) ;;
   effective_w <- lift (scaled w (_brightness l)) ;;
   dali_r <- lift (to_dali MAX effective_r) ;;
   dali_g <- lift (to_dali MAX effective_g) ;;
   dali_b <- lift (to_dali MAX effective_b) ;;
   dali_w <- lift (to_dali MAX effective_w) ;;
   m1 <- arc_level l (_address l) (Ok dali_r) ;;
   m2 <- arc_level l (_address l + 1) (Ok dali_g) ;;
   m3 <- arc_level l (_address l + 2) (Ok dali_b) ;;
   m4 <- arc_level l (_address l + 3) (Ok dali_w) ;;
   ret [m1; m2; m3; m4])%gen.
Proof. unfold turn_on_commands. intros -> ->. reflexivity. Qed.

Lemma turn_on_commands_dmx_rgbw MAX pow l r g b w :
  _protocol l = PROTOCOL_DMX_RGBW -> _rgbw_color l = (r, g, b, w) ->
  turn_on_commands MAX pow l =
  (scaled_r <- lift (scaled r (_brightness l)) ;;
   scaled_g <- lift (scaled g (_brightness l)) ;;
   scaled_b <- lift (scaled b (_brightness l)) ;;
   scaled_w <- lift (scaled w (_brightness l)) ;;
   m <- dmx l [scaled_r; scaled_g; scaled_b; scaled_w] ;;
   ret [m])%gen.
Proof. unfold turn_on_commands. intros -> ->. reflexivity. Qed.

Lemma turn_on_commands_dmx_white MAX pow l :
  _protocol l = PROTOCOL_DMX_WHITE ->
  turn_on_commands MAX pow l = (m <- dmx l [_brightness l] ;; ret [m])%gen.
Proof. unfold turn_on_commands. intros ->. reflexivity. Qed.

Lemma dali_rgbw_sent MAX pow send kw l l1 c r g b w :
  MAX = 254 ->
  _protocol l = PROTOCOL_DALI_RGBW ->
  apply_kwargs kw l = (l1, None) ->
  _rgbw_color l1 = (r, g, b, w) ->
  is_byte r -> is_byte g -> is_byte b -> is_byte w -> is_byte (_brightness l1) ->
  sent (async_turn_on MAX pow send kw l c)
  = Some [dali_custom (c + 1) (_line l) (_address l) DALI_ARC_LEVEL
            [scaled_value r (_brightness l1) * MAX / 255];
          dali_custom (c + 2) (_line l) (_address l + 1) DALI_ARC_LEVEL
            [scaled_value g (_brightness l1) * MAX / 255];
          dali_custom (c + 3) (_line l) (_address l + 2) DALI_ARC_LEVEL
            [scaled_value b (_brightness l1) * MAX / 255];
          dali_custom (c + 4) (_line l) (_address l + 3) DALI_ARC_LEVEL
            [scaled_value w (_brightness l1) * MAX / 255]].
Proof.
  intros -> Hp Hk Hc Hr Hg Hb Hw Hbr.
  destruct (apply_kwargs_frame kw l l1 None Hk) as (Hp1 & Ha1 & Hl1 & _).
  apply (async_turn_on_sent 254 pow send kw l l1 c _ (c + 4) Hk); [|discriminate].
  rewrite (turn_on_commands_dali_rgbw 254 pow l1 r g b w) by congruence.
  run_gen.
  rewrite (scaled_bytes r _ Hr Hbr), (scaled_bytes g _ Hg Hbr),
    (scaled_bytes b _ Hb Hbr), (scaled_bytes w _ Hw Hbr).
  rewrite (to_dali_254 _ (scaled_value_byte r _ Hr Hbr)),
    (to_dali_254 _ (scaled_value_byte g _ Hg Hbr)),
    (to_dali_254 _ (scaled_value_byte b _ Hb Hbr)),
    (to_dali_254 _ (scaled_value_byte w _ Hw Hbr)).
  rewrite Ha1, Hl1.
  replace (c + 1 + 1) with (c + 2) by lia.
  replace (c + 2 + 1) with (c + 3) by lia.
  replace (c + 3 + 1) with (c + 4) by lia.
  reflexivity.
Qed.

Lemma dmx_rgbw_sent MAX pow send kw l l1 c r g b w :
  _protocol l = PROTOCOL_DMX_RGBW ->
  apply_kwargs kw l = (l1, None) ->
  _rgbw_color l1 = (r, g, b, w) ->
  is_byte r -> is_byte g -> is_byte b -> is_byte w -> is_byte (_brightness l1) ->
  sent (async_turn_on MAX pow send kw l c)
  = Some [dmx_message (c + 1) 0 2 (_address l) 1
            [scaled_value r (_brightness l1); scaled_value g (_brightness l1);
             scaled_value b (_brightness l1); scaled_value w (_brightness l1)] 25].
Proof.
  intros Hp Hk Hc Hr Hg Hb Hw Hbr.
  destruct (apply_kwargs_frame kw l l1 None Hk) as (Hp1 & Ha1 & Hl1 & _).
  apply (async_turn_on_sent MAX pow send kw l l1 c _ (c + 1) Hk); [|discriminate].
  rewrite (turn_on_commands_dmx_rgbw MAX pow l1 r g b w) by congruence.
  run_gen.
  rewrite (scaled_bytes r _ Hr Hbr), (scaled_bytes g _ Hg Hbr),
    (scaled_bytes b _ Hb Hbr), (scaled_bytes w _ Hw Hbr), Ha1.
  reflexivity.
Qed.

Lemma dmx_white_sent MAX pow send kw l l1 c :
  _protocol l = PROTOCOL_DMX_WHITE ->
  apply_kwargs kw l = (l1, None) ->
  sent (async_turn_on MAX pow send kw l c)
  = Some [dmx_message (c + 1) 0 2 (_address l) 1 [_brightness l1] 25].
Proof.
  intros Hp Hk.
  destruct (apply_kwargs_frame kw l l1 None Hk) as (Hp1 & Ha1 & Hl1 & _).
  apply (async_turn_on_sent MAX pow send kw l l1 c _ (c + 1) Hk); [|discriminate].
  rewrite (turn_on_commands_dmx_white MAX pow l1) by congruence.
  run_gen. rewrite Ha1. reflexivity.
Qed.

(** X11: for a light with protocol DALI_RGBW (bytes for the four channels and
    the brightness, the DALI maximum 254), turning on hands the transport
    exactly four ARC_LEVEL messages, at the light's address and the three
    above it, in the order red, green, blue, white. Each value is
    truncated twice: the channel is scaled by the brightness and cut to
    an integer, then scaled to the DALI range and cut again. Each value
    is at most the one the exact product gives and at most 254; at
    brightness 255 it is the channel scaled to the DALI range, at
    brightness 0 it is 0. *)
Theorem dali_rgbw_on_four_levels :
  forall MAX pow send kw l l1 c r g b w,
    MAX = 254 ->
    _protocol l = PROTOCOL_DALI_RGBW ->
    apply_kwargs kw l = (l1, None) ->
    _rgbw_color l1 = (r, g, b, w) ->
    is_byte r -> is_byte g -> is_byte b -> is_byte w -> is_byte (_brightness l1) ->
    (exists effective_r effective_g effective_b effective_w,
        py_int (Z2F r * (Z2F (_brightness l1) / 255))%float = Ok effective_r
        /\ py_int (Z2F g * (Z2F (_brightness l1) / 255))%float = Ok effective_g
        /\ py_int (Z2F b * (Z2F (_brightness l1) / 255))%float = Ok effective_b
        /\ py_int (Z2F w * (Z2F (_brightness l1) / 255))%float = Ok effective_w
        /\ sent (async_turn_on MAX pow send kw l c)
           = Some [dali_custom (c + 1) (_line l) (_address l) DALI_ARC_LEVEL
                     [effective_r * MAX / 255];
                   dali_custom (c + 2) (_line l) (_address l + 1) DALI_ARC_LEVEL
                     [effective_g * MAX / 255];
                   dali_custom (c + 3) (_line l) (_address l + 2) DALI_ARC_LEVEL
                     [effective_b * MAX / 255];
                   dali_custom (c + 4) (_line l) (_address l + 3) DALI_ARC_LEVEL
                     [effective_w * MAX / 255]]
        /\ 0 <= effective_r <= r * _brightness l1 / 255
        /\ 0 <= effective_g <= g * _brightness l1 / 255
        /\ 0 <= effective_b <= b * _brightness l1 / 255
        /\ 0 <= effective_w <= w * _brightness l1 / 255)
    /\ (_brightness l1 = 255 ->
        sent (async_turn_on MAX pow send kw l c)
        = Some [dali_custom (c + 1) (_line l) (_address l) DALI_ARC_LEVEL [r * MAX / 255];
                dali_custom (c + 2) (_line l) (_address l + 1) DALI_ARC_LEVEL
                  [g * MAX / 255];
                dali_custom (c + 3) (_line l) (_address l + 2) DALI_ARC_LEVEL
                  [b * MAX / 255];
                dali_custom (c + 4) (_line l) (_address l + 3) DALI_ARC_LEVEL
                  [w * MAX / 255]])
    /\ (_brightness l1 = 0 ->
        sent (async_turn_on MAX pow send kw l c)
        = Some [dali_custom (c + 1) (_line l) (_address l) DALI_ARC_LEVEL [0];
                dali_custom (c + 2) (_line l) (_address l + 1) DALI_ARC_LEVEL [0];
                dali_custom (c + 3) (_line l) (_address l + 2) DALI_ARC_LEVEL [0];
                dali_custom (c + 4) (_line l) (_address l + 3) DALI_ARC_LEVEL [0]]).
Proof.
  intros MAX pow send kw l l1 c r g b w HM Hp Hk Hc Hr Hg Hb Hw Hbr.
  pose proof (dali_rgbw_sent MAX pow send kw l l1 c r g b w HM Hp Hk Hc Hr Hg Hb Hw Hbr)
    as Hs.
  split; [|split].
  - exists (scaled_value r (_brightness l1)), (scaled_value g (_brightness l1)),
      (scaled_value b (_brightness l1)), (scaled_value w (_brightness l1)).
    rewrite !scaled_is_truncated_product by assumption.
    pose proof (scaled_value_bounds r _ Hr Hbr).
    pose proof (scaled_value_bounds g _ Hg Hbr).
    pose proof (scaled_value_bounds b _ Hb Hbr).
    pose proof (scaled_value_bounds w _ Hw Hbr).
    repeat split; try reflexivity; try exact Hs; lia.
  - intros H255. rewrite Hs, H255, !scaled_value_full by assumption. reflexivity.
  - intros H0. rewrite Hs, H0, !scaled_value_zero. subst MAX. reflexivity.
Qed.

Lemma dali_rgbw_on_four_levels_witness :
  sent (async_turn_on 254 libm_unreached send_delivers (kwargs_rgbw (255, 128, 0, 12))
                      (ControlFreakLight 20 "stage" PROTOCOL_DALI_RGBW 2) 0)
  = Some [dali_custom 1 2 20 DALI_ARC_LEVEL [254];
          dali_custom 2 2 21 DALI_ARC_LEVEL [127];
          dali_custom 3 2 22 DALI_ARC_LEVEL [0];
          dali_custom 4 2 23 DALI_ARC_LEVEL [11]].
Proof.
  assert (H255 : is_byte 255) by (unfold is_byte; lia).
  assert (H128 : is_byte 128) by (unfold is_byte; lia).
  assert (H0 : is_byte 0) by (unfold is_byte; lia).
  assert (H12 : is_byte 12) by (unfold is_byte; lia).
  exact (proj1 (proj2
    (dali_rgbw_on_four_levels 254 libm_unreached send_delivers
       (kwargs_rgbw (255, 128, 0, 12))
       (ControlFreakLight 20 "stage" PROTOCOL_DALI_RGBW 2)
       (with_rgb_color (255, 128, 0)
          (with_rgbw_color (255, 128, 0, 12)
             (ControlFreakLight 20 "stage" PROTOCOL_DALI_RGBW 2)))
       0 255 128 0 12 eq_refl eq_refl eq_refl eq_refl H255 H128 H0 H12 H255))
    eq_refl).
Defined.

(** X12: for a light with protocol DMX_RGBW (bytes for the four channels and
    the brightness), turning on hands the transport exactly one DMX
    message on the light's channel with four levels, red, green, blue and
    white, each the channel times brightness / 255 cut to an integer:
    never more than the exact product gives, the channel itself at
    brightness 255 and 0 at brightness 0. *)
Theorem dmx_rgbw_on_truncates :
  forall MAX pow send kw l l1 c r g b w,
    _protocol l = PROTOCOL_DMX_RGBW ->
    apply_kwargs kw l = (l1, None) ->
    _rgbw_color l1 = (r, g, b, w) ->
    is_byte r -> is_byte g -> is_byte b -> is_byte w -> is_byte (_brightness l1) ->
    (exists level_r level_g level_b level_w,
        py_int (Z2F r * (Z2F (_brightness l1) / 255))%float = Ok level_r
        /\ py_int (Z2F g * (Z2F (_brightness l1) / 255))%float = Ok level_g
        /\ py_int (Z2F b * (Z2F (_brightness l1) / 255))%float = Ok level_b
        /\ py_int (Z2F w * (Z2F (_brightness l1) / 255))%float = Ok level_w
        /\ sent (async_turn_on MAX pow send kw l c)
           = Some [dmx_message (c + 1) 0 2 (_address l) 1
                     [level_r; level_g; level_b; level_w] 25]
        /\ 0 <= level_r <= r * _brightness l1 / 255
        /\ 0 <= level_g <= g * _brightness l1 / 255
        /\ 0 <= level_b <= b * _brightness l1 / 255
        /\ 0 <= level_w <= w * _brightness l1 / 255)
    /\ (_brightness l1 = 255 ->
        sent (async_turn_on MAX pow send kw l c)
        = Some [dmx_message (c + 1) 0 2 (_address l) 1 [r; g; b; w] 25])
    /\ (_brightness l1 = 0 ->
        sent (async_turn_on MAX pow send kw l c)
        = Some [dmx_message (c + 1) 0 2 (_address l) 1 [0; 0; 0; 0] 25]).
Proof.
  intros MAX pow send kw l l1 c r g b w Hp Hk Hc Hr Hg Hb Hw Hbr.
  pose proof (dmx_rgbw_sent MAX pow send kw l l1 c r g b w Hp Hk Hc Hr Hg Hb Hw Hbr) as Hs.
  split; [|split].
  - exists (scaled_value r (_brightness l1)), (scaled_value g (_brightness l1)),
      (scaled_value b (_brightness l1)), (scaled_value w (_brightness l1)).
    rewrite !scaled_is_truncated_product by assumption.
    pose proof (scaled_value_bounds r _ Hr Hbr).
    pose proof (scaled_value_bounds g _ Hg Hbr).
    pose proof (scaled_value_bounds b _ Hb Hbr).
    pose proof (scaled_value_bounds w _ Hw Hbr).
    repeat split; try reflexivity; try exact Hs; lia.
  - intros H255. rewrite Hs, H255, !scaled_value_full by assumption. reflexivity.
  - intros H0. rewrite Hs, H0, !scaled_value_zero. reflexivity.
Qed.

Lemma dmx_rgbw_on_truncates_witness :
  sent (async_turn_on 254 libm_unreached send_delivers (kwargs_rgbw (255, 128, 0, 12))
                      (ControlFreakLight 5 "wash" PROTOCOL_DMX_RGBW 1) 0)
  = Some [dmx_message 1 0 2 5 1 [255; 128; 0; 12] 25].
Proof.
  assert (H255 : is_byte 255) by (unfold is_byte; lia).
  assert (H128 : is_byte 128) by (unfold is_byte; lia).
  assert (H0 : is_byte 0) by (unfold is_byte; lia).
  assert (H12 : is_byte 12) by (unfold is_byte; lia).
  exact (proj1 (proj2
    (dmx_rgbw_on_truncates 254 libm_unreached send_delivers
       (kwargs_rgbw (255, 128, 0, 12))
       (ControlFreakLight 5 "wash" PROTOCOL_DMX_RGBW 1)
       (with_rgb_color (255, 128, 0)
          (with_rgbw_color (255, 128, 0, 12)
             (ControlFreakLight 5 "wash" PROTOCOL_DMX_RGBW 1)))
       0 255 128 0 12 eq_refl eq_refl eq_refl H255 H128 H0 H12 H255))
    eq_refl).
Defined.

(** X13: for a light with protocol DMX_WHITE, turning on hands the transport
    one DMX message whose single level is the brightness in force after
    the state update, as it is: no scaling, no conversion and no clamp,
    for every integer, also one outside 0..255. Neither the DALI maximum
    nor any double takes part. *)
Theorem dmx_white_on_sends_raw_brightness :
  forall MAX pow send kw l l1 c,
    _protocol l = PROTOCOL_DMX_WHITE ->
    apply_kwargs kw l = (l1, None) ->
    sent (async_turn_on MAX pow send kw l c)
    = Some [dmx_message (c + 1) 0 2 (_address l) 1 [_brightness l1] 25]
    /\ (forall v, kw_brightness kw = Some v -> _brightness l1 = v).
Proof.
  intros MAX pow send kw l l1 c Hp Hk.
  split; [apply (dmx_white_sent MAX pow send kw l l1 c Hp Hk)|].
  intros v Hv. revert Hk. unfold apply_kwargs. rewrite Hv.
  destruct (kw_rgb_color kw) as [c3|];
    (destruct (kw_rgbw_color kw) as [[[[r g] b] w]|]);
    (destruct (kw_color_temp_kelvin kw) as [k|];
     [destruct (color_temperature_kelvin_to_mired k)|]);
    intros H; inversion H; subst; reflexivity.
Qed.

Lemma dmx_white_on_sends_raw_brightness_witness :
  sent (async_turn_on 254 libm_unreached send_delivers (kwargs_brightness 300)
                      (ControlFreakLight 40 "bar" PROTOCOL_DMX_WHITE 1) 0)
  = Some [dmx_message 1 0 2 40 1 [300] 25].
Proof.
  exact (proj1 (dmx_white_on_sends_raw_brightness 254 libm_unreached send_delivers
                  (kwargs_brightness 300)
                  (ControlFreakLight 40 "bar" PROTOCOL_DMX_WHITE 1)
                  (with_brightness 300 (ControlFreakLight 40 "bar" PROTOCOL_DMX_WHITE 1))
                  0 eq_refl eq_refl)).
Defined.

(** ** Turning off after turning on *)

Lemma dali_rgb_sent MAX pow send kw l l1 c r g b :
  MAX = 254 ->
  _protocol l = PROTOCOL_DALI_RGB ->
  apply_kwargs kw l = (l1, None) ->
  _rgb_color l1 = (r, g, b) ->
  is_byte r -> is_byte g -> is_byte b -> is_byte (_brightness l1) ->
  sent (async_turn_on MAX pow send kw l c)
  = Some [dali_custom (c + 1) (_line l) (_address l) DALI_ARC_LEVEL
            [scaled_value r (_brightness l1) * MAX / 255];
          dali_custom (c + 2) (_line l) (_address l + 1) DALI_ARC_LEVEL
            [scaled_value g (_brightness l1) * MAX / 255];
          dali_custom (c + 3) (_line l) (_address l + 2) DALI_ARC_LEVEL
            [scaled_value b (_brightness l1) * MAX / 255]].
Proof.
  intros -> Hp Hk Hc Hr Hg Hb Hbr.
  destruct (apply_kwargs_frame kw l l1 None Hk) as (Hp1 & Ha1 & Hl1 & _).
  apply (async_turn_on_sent 254 pow send kw l l1 c _ (c + 3) Hk); [|discriminate].
  rewrite (turn_on_commands_dali_rgb 254 pow l1 r g b) by congruence.
  run_gen.
  rewrite (scaled_bytes r _ Hr Hbr), (scaled_bytes g _ Hg Hbr),
    (scaled_bytes b _ Hb Hbr).
  rewrite (to_dali_254 _ (scaled_value_byte r _ Hr Hbr)),
    (to_dali_254 _ (scaled_value_byte g _ Hg Hbr)),
    (to_dali_254 _ (scaled_value_byte b _ Hb Hbr)).
  rewrite Ha1, Hl1.
  replace (c + 1 + 1) with (c + 2) by lia.
  replace (c + 2 + 1) with (c + 3) by lia.
  reflexivity.
Qed.

Lemma async_turn_on_frame MAX pow send kw l c :
  _protocol (light_after (async_turn_on MAX pow send kw l c)) = _protocol l
  /\ _address (light_after (async_turn_on MAX pow send kw l c)) = _address l
  /\ _line (light_after (async_turn_on MAX pow send kw l c)) = _line l.
Proof.
  unfold async_turn_on.
  destruct (apply_kwargs kw l) as [l1 [e|]] eqn:Hk;
    destruct (apply_kwargs_frame kw l l1 _ Hk) as (Hp & Ha & Hl & _);
    [cbn [light_after]; auto|].
  unfold run_commands.
  destruct (turn_on_commands MAX pow l1 c) as [[[|m ms]|e] c'];
    [cbn [light_after]; auto| |].
  - destruct (send (m :: ms)) as [u|e]; cbn [light_after].
    + simpl. auto.
    + unfold on_exception. destruct (is_transport_error e); simpl; auto.
  - cbn [light_after]. unfold on_exception. destruct (is_transport_error e); simpl; auto.
Qed.

Lemma turn_off_commands_ext l l' :
  _protocol l = _protocol l' -> _address l = _address l' -> _line l = _line l' ->
  turn_off_commands l = turn_off_commands l'.
Proof.
  intros Hp Ha Hl. unfold turn_off_commands, arc_level, dmx.
  rewrite Hp, Ha, Hl. reflexivity.
Qed.

Lemma async_turn_off_sent_fst send l c cmds :
  fst (turn_off_commands l c) = Ok cmds -> cmds <> [] ->
  sent (async_turn_off send l c) = Some cmds.
Proof.
  intros H Hne. destruct (turn_off_commands l c) as [r c'] eqn:Hg.
  cbn [fst] in H. subst r. apply (async_turn_off_sent send l c cmds c' Hg Hne).
Qed.

Lemma turn_off_commands_dmx_rgb l :
  _protocol l = PROTOCOL_DMX_RGB ->
  turn_off_commands l = (m <- dmx l [0; 0; 0] ;; ret [m])%gen.
Proof. unfold turn_off_commands. intros ->. reflexivity. Qed.

Lemma turn_off_commands_dmx_rgbw l :
  _protocol l = PROTOCOL_DMX_RGBW ->
  turn_off_commands l = (m <- dmx l [0; 0; 0; 0] ;; ret [m])%gen.
Proof. unfold turn_off_commands. intros ->. reflexivity. Qed.

Lemma turn_off_commands_dmx_white l :
  _protocol l = PROTOCOL_DMX_WHITE ->
  turn_off_commands l = (m <- dmx l [0] ;; ret [m])%gen.
Proof. unfold turn_off_commands. intros ->. reflexivity. Qed.

Lemma turn_off_commands_dali_rgb l :
  _protocol l = PROTOCOL_DALI_RGB ->
  turn_off_commands l =
  for_each (fun i => arc_level l (_address l + i) (Ok 0)) [0; 1; 2].
Proof. unfold turn_off_commands. intros ->. reflexivity. Qed.

Ltac same_messages :=
  repeat match goal with
         | |- Ok _ = Ok _ => f_equal
         | |- _ :: _ = _ :: _ => f_equal
         | |- dmx_message _ _ _ _ _ _ _ = dmx_message _ _ _ _ _ _ _ => f_equal
         | |- dali_custom _ _ _ _ _ = dali_custom _ _ _ _ _ => f_equal
         end;
  try lia.

(** X14: turning a light off right after turning it on switches off exactly
    the channels the turn-on drove: for every protocol but the two DT8
    ones (an unknown protocol string included) and bytes for the
    brightness and the colours, the sequence [async_turn_off] hands to
    the transport is the sequence [async_turn_on] handed to it with every
    level replaced by 0: as many messages, of the same kind, to the same
    addresses, on the same line or channel, with the message ids that
    follow. This holds whether the turn-on send succeeded or failed. *)
Theorem turn_off_zeroes_what_turn_on_drove :
  forall MAX pow send_on send_off kw l l1 c,
    MAX = 254 ->
    _protocol l <> PROTOCOL_DALI_DT8_XY ->
    _protocol l <> PROTOCOL_DALI_DT8_CCT ->
    apply_kwargs kw l = (l1, None) ->
    byte_state l1 ->
    exists cmds,
      sent (async_turn_on MAX pow send_on kw l c) = Some cmds
      /\ sent (async_turn_off send_off
                 (light_after (async_turn_on MAX pow send_on kw l c))
                 (counter_after (async_turn_on MAX pow send_on kw l c)))
         = Some (List.map (fun m => later (List.length cmds) (zeroed m)) cmds).
Proof.
  intros MAX pow send_on send_off kw l l1 c HM Hxy Hcct Hk (Hbr & Hrgb & Hrgbw).
  destruct (_rgb_color l1) as [[r g] b] eqn:Hc3.
  destruct (_rgbw_color l1) as [[[r' g'] b'] w'] eqn:Hc4.
  destruct Hrgb as (Hr & Hg & Hb). destruct Hrgbw as (Hr' & Hg' & Hb' & Hw').
  destruct (async_turn_on_frame MAX pow send_on kw l c) as (Fp & Fa & Fl).
  pose proof (proj2 (run_call_ids MAX pow (call_turn_on send_on kw) l c)) as Hids.
  cbn [run_call] in Hids.
  set (o := async_turn_on MAX pow send_on kw l c) in *.
  assert (Hfin : forall cmds offs,
             sent o = Some cmds ->
             fst (turn_off_commands l (c + Z.of_nat (List.length cmds))) = Ok offs ->
             offs <> [] ->
             offs = List.map (fun m => later (List.length cmds) (zeroed m)) cmds ->
             exists cmds,
               sent o = Some cmds
               /\ sent (async_turn_off send_off (light_after o) (counter_after o))
                  = Some (List.map (fun m => later (List.length cmds) (zeroed m)) cmds)).
  { intros cmds offs Hs Hoff Hne Heq. exists cmds. split; [exact Hs|].
    rewrite <- Heq. apply async_turn_off_sent_fst; [|exact Hne].
    rewrite (turn_off_commands_ext (light_after o) l Fp Fa Fl).
    rewrite (proj2 (Hids cmds Hs)). exact Hoff. }
  destruct (in_dec string_dec (_protocol l) PROTOCOLS) as [Hin|Hn].
  - unfold PROTOCOLS in Hin. cbn [In] in Hin.
    destruct Hin as [Hp|[Hp|[Hp|[Hp|[Hp|[Hp|[Hp|[Hp|[]]]]]]]]]; symmetry in Hp;
      try contradiction.
    + (* DMX_WHITE *)
      eapply Hfin.
      * apply (dmx_white_sent MAX pow send_on kw l l1 c Hp Hk).
      * rewrite (turn_off_commands_dmx_white l Hp). reflexivity.
      * discriminate.
      * cbn [List.map later zeroed List.length Z.of_nat Pos.of_succ_nat Pos.succ]. same_messages.
    + (* DMX_RGB *)
      eapply Hfin.
      * apply (dmx_rgb_sent MAX pow send_on kw l l1 c r g b Hp Hk Hc3 Hr Hg Hb Hbr).
      * rewrite (turn_off_commands_dmx_rgb l Hp). reflexivity.
      * discriminate.
      * cbn [List.map later zeroed List.length Z.of_nat Pos.of_succ_nat Pos.succ]. same_messages.
    + (* DMX_RGBW *)
      eapply Hfin.
      * apply (dmx_rgbw_sent MAX pow send_on kw l l1 c r' g' b' w' Hp Hk Hc4
                 Hr' Hg' Hb' Hw' Hbr).
      * rewrite (turn_off_commands_dmx_rgbw l Hp). reflexivity.
      * discriminate.
      * cbn [List.map later zeroed List.length Z.of_nat Pos.of_succ_nat Pos.succ]. same_messages.
    + (* DALI_WHITE *)
      eapply Hfin.
      * apply (single_arc_level_sent MAX pow send_on kw l l1 c HM (or_introl Hp) Hk Hbr).
      * rewrite (turn_off_commands_single_arc_level l (or_intror (or_intror (or_introl Hp)))).
        reflexivity.
      * discriminate.
      * cbn [List.map later zeroed List.length Z.of_nat Pos.of_succ_nat Pos.succ]. same_messages.
    + (* DALI_RGB *)
      eapply Hfin.
      * apply (dali_rgb_sent MAX pow send_on kw l l1 c r g b HM Hp Hk Hc3 Hr Hg Hb Hbr).
      * rewrite (turn_off_commands_dali_rgb l Hp). reflexivity.
      * discriminate.
      * cbn [List.map later zeroed List.length Z.of_nat Pos.of_succ_nat Pos.succ]. same_messages.
    + (* DALI_RGBW *)
      eapply Hfin.
      * apply (dali_rgbw_sent MAX pow send_on kw l l1 c r' g' b' w' HM Hp Hk Hc4
                 Hr' Hg' Hb' Hw' Hbr).
      * rewrite (turn_off_commands_dali_rgbw l Hp). reflexivity.
      * discriminate.
      * cbn [List.map later zeroed List.length Z.of_nat Pos.of_succ_nat Pos.succ]. same_messages.
  - eapply Hfin.
    + apply (single_arc_level_sent MAX pow send_on kw l l1 c HM (or_intror Hn) Hk Hbr).
    + rewrite (turn_off_commands_single_arc_level l
                 (or_intror (or_intror (or_intror Hn)))).
      reflexivity.
    + discriminate.
    + cbn [List.map later zeroed List.length Z.of_nat Pos.of_succ_nat Pos.succ]. same_messages.
Qed.

Lemma turn_off_then_on_witness_bytes :
  byte_state (with_rgb_color (255, 0, 0)
                (with_brightness 128 (ControlFreakLight 10 "spot" PROTOCOL_DALI_RGB 1))).
Proof. unfold byte_state, byte_rgb, byte_rgbw, is_byte. simpl. lia. Qed.

Lemma turn_off_zeroes_what_turn_on_drove_witness :
  sent (async_turn_on 254 libm_unreached send_times_out (kwargs_rgb 128 (255, 0, 0))
                      (ControlFreakLight 10 "spot" PROTOCOL_DALI_RGB 1) 0)
  = Some [dali_custom 1 1 10 DALI_ARC_LEVEL [127];
          dali_custom 2 1 11 DALI_ARC_LEVEL [0];
          dali_custom 3 1 12 DALI_ARC_LEVEL [0]]
  /\ sent (async_turn_off send_delivers
             (light_after
                (async_turn_on 254 libm_unreached send_times_out
                   (kwargs_rgb 128 (255, 0, 0))
                   (ControlFreakLight 10 "spot" PROTOCOL_DALI_RGB 1) 0))
             (counter_after
                (async_turn_on 254 libm_unreached send_times_out
                   (kwargs_rgb 128 (255, 0, 0))
                   (ControlFreakLight 10 "spot" PROTOCOL_DALI_RGB 1) 0)))
     = Some [dali_custom 4 1 10 DALI_ARC_LEVEL [0];
             dali_custom 5 1 11 DALI_ARC_LEVEL [0];
             dali_custom 6 1 12 DALI_ARC_LEVEL [0]].
Proof.
  destruct (turn_off_zeroes_what_turn_on_drove 254 libm_unreached
              send_times_out send_delivers (kwargs_rgb 128 (255, 0, 0))
              (ControlFreakLight 10 "spot" PROTOCOL_DALI_RGB 1)
              (with_rgb_color (255, 0, 0)
                 (with_brightness 128 (ControlFreakLight 10 "spot" PROTOCOL_DALI_RGB 1)))
              0 eq_refl
              ltac:(discriminate) ltac:(discriminate) eq_refl
              turn_off_then_on_witness_bytes)
    as (cmds & Hon & Hoff).
  assert (E : Some cmds
              = Some [dali_custom 1 1 10 DALI_ARC_LEVEL [127];
                      dali_custom 2 1 11 DALI_ARC_LEVEL [0];
                      dali_custom 3 1 12 DALI_ARC_LEVEL [0]]).
  { rewrite <- Hon. reflexivity. }
  inversion E. subst cmds. split; [exact Hon | exact Hoff].
Defined.

(** ** The value ranges of what is sent *)

Lemma dali_scaled_range (b : Z) : is_byte b -> 0 <= b * 254 / 255 <= 254.
Proof.
  unfold is_byte. intros Hb. split.
  - apply Z.div_pos; lia.
  - apply Z.div_le_upper_bound; lia.
Qed.

Lemma apply_kwargs_bytes kw l l1 e :
  byte_kwargs kw -> byte_state l -> apply_kwargs kw l = (l1, e) -> byte_state l1.
Proof.
  intros (Kb & Kc & Kw) (Sb & Sc & Sw). unfold apply_kwargs.
  assert (H255 : is_byte 255) by (unfold is_byte; lia).
  destruct (kw_brightness kw) as [v|];
    [|destruct (negb (_is_on l) && (_brightness l =? 0))];
    (destruct (kw_rgb_color kw) as [c3|]);
    (destruct (kw_rgbw_color kw) as [[[[r g] b] w]|]);
    (destruct (kw_color_temp_kelvin kw) as [k|];
     [destruct (color_temperature_kelvin_to_mired k)|]);
    intros H; inversion H; subst;
    unfold byte_state, byte_option, byte_rgb, byte_rgbw in *;
    cbn [_brightness _rgb_color _rgbw_color with_brightness with_rgb_color
         with_rgbw_color with_color_temp] in *;
    tauto.
Qed.

Lemma turn_off_commands_zeros l c :
  exists cmds c',
    turn_off_commands l c = (Ok cmds, c') /\ cmds <> []
    /\ Forall (zero_message_for l) cmds.
Proof.
  destruct (turn_off_commands l c) as [r c'] eqn:Hg.
  revert Hg. unfold turn_off_commands, in_protocols. cbn [existsb]. intros H.
  run_gen_in H.
  split_gen H; try discriminate; inversion H; subst;
    do 2 eexists; (split; [reflexivity|]); (split; [discriminate|]);
    repeat constructor; lia.
Qed.

Lemma zero_message_in_range l m : zero_message_for l m -> in_range 254 m.
Proof.
  destruct m as [i z u ch rep level fade|i ln a [] arg|i ln a cmd dtr]; cbn.
  - intros (_ & _ & _ & _ & _ & H). induction H; constructor; auto.
    subst. unfold is_byte. lia.
  - intros (_ & _ & ->). apply Forall_cons; [lia|apply Forall_nil].
  - contradiction.
Qed.

Ltac range_goals :=
  repeat match goal with
         | |- Forall _ [] => apply Forall_nil
         | |- Forall _ (_ :: _) => apply Forall_cons
         | |- in_range _ _ => cbn [in_range]
         end;
  try assumption; try apply split_bytes; try (apply dali_scaled_range; assumption).

Lemma turn_on_commands_in_range pow l c cmds c' :
  byte_state l ->
  turn_on_commands 254 pow l c = (Ok cmds, c') ->
  Forall (in_range 254) cmds.
Proof.
  intros (Hbr & Hrgb & Hrgbw) H.
  destruct (_rgb_color l) as [[r g] b] eqn:Hc3.
  destruct (_rgbw_color l) as [[[r' g'] b'] w'] eqn:Hc4.
  destruct Hrgb as (Hr & Hg & Hb). destruct Hrgbw as (Hr' & Hg' & Hb' & Hw').
  pose proof (dali_scaled_range _ Hbr) as Rbr.
  pose proof (scaled_value_byte r _ Hr Hbr) as Sr.
  pose proof (scaled_value_byte g _ Hg Hbr) as Sg.
  pose proof (scaled_value_byte b _ Hb Hbr) as Sb.
  pose proof (scaled_value_byte r' _ Hr' Hbr) as Sr'.
  pose proof (scaled_value_byte g' _ Hg' Hbr) as Sg'.
  pose proof (scaled_value_byte b' _ Hb' Hbr) as Sb'.
  pose proof (scaled_value_byte w' _ Hw' Hbr) as Sw'.
  destruct (in_dec string_dec (_protocol l) PROTOCOLS) as [Hin|Hn].
  - unfold PROTOCOLS in Hin. cbn [In] in Hin.
    destruct Hin as [Hp|[Hp|[Hp|[Hp|[Hp|[Hp|[Hp|[Hp|[]]]]]]]]]; symmetry in Hp.
    + rewrite (turn_on_commands_dmx_white 254 pow l Hp) in H.
      run_gen_in H. inversion H; subst. range_goals.
    + rewrite (turn_on_commands_dmx_rgb 254 pow l r g b Hp Hc3) in H.
      run_gen_in H.
      rewrite (scaled_bytes r _ Hr Hbr), (scaled_bytes g _ Hg Hbr),
        (scaled_bytes b _ Hb Hbr) in H.
      inversion H; subst. range_goals.
    + rewrite (turn_on_commands_dmx_rgbw 254 pow l r' g' b' w' Hp Hc4) in H.
      run_gen_in H.
      rewrite (scaled_bytes r' _ Hr' Hbr), (scaled_bytes g' _ Hg' Hbr),
        (scaled_bytes b' _ Hb' Hbr), (scaled_bytes w' _ Hw' Hbr) in H.
      inversion H; subst. range_goals.
    + rewrite (turn_on_commands_dali_white 254 pow l Hp) in H.
      run_gen_in H. rewrite (dali_arc_level_254 _ Hbr) in H.
      inversion H; subst. range_goals.
    + rewrite (turn_on_commands_dali_rgb 254 pow l r g b Hp Hc3) in H.
      run_gen_in H.
      rewrite (scaled_bytes r _ Hr Hbr), (scaled_bytes g _ Hg Hbr),
        (scaled_bytes b _ Hb Hbr) in H.
      rewrite (to_dali_254 _ Sr), (to_dali_254 _ Sg), (to_dali_254 _ Sb) in H.
      inversion H; subst. range_goals.
    + rewrite (turn_on_commands_dali_rgbw 254 pow l r' g' b' w' Hp Hc4) in H.
      run_gen_in H.
      rewrite (scaled_bytes r' _ Hr' Hbr), (scaled_bytes g' _ Hg' Hbr),
        (scaled_bytes b' _ Hb' Hbr), (scaled_bytes w' _ Hw' Hbr) in H.
      rewrite (to_dali_254 _ Sr'), (to_dali_254 _ Sg'), (to_dali_254 _ Sb'),
        (to_dali_254 _ Sw') in H.
      inversion H; subst. range_goals.
    + rewrite (turn_on_commands_dali_dt8_xy 254 pow l r' g' b' w' Hp Hc4) in H.
      destruct (rgb_to_xy_16bit_bytes pow r' g' b' Hr' Hg' Hb') as (x & y & Hxy).
      run_gen_in H. rewrite Hxy, (dali_arc_level_254 _ Hbr) in H.
      inversion H; subst. range_goals.
    + destruct (_color_temp l) as [m|] eqn:Hct.
      * rewrite (turn_on_commands_dali_dt8_cct 254 pow l m Hp Hct) in H.
        run_gen_in H. rewrite (dali_arc_level_254 _ Hbr) in H.
        destruct (dali_dt8_cct_value l m) as [v|e]; [|discriminate].
        inversion H; subst. range_goals.
      * unfold turn_on_commands in H. rewrite Hp, Hct in H.
        inversion H; subst. range_goals.
  - rewrite (turn_on_commands_unknown 254 pow l Hn) in H.
    run_gen_in H. rewrite (dali_arc_level_254 _ Hbr) in H.
    inversion H; subst. range_goals.
Qed.

Lemma on_exception_bytes e l : byte_state l -> byte_state (on_exception e l).
Proof. unfold on_exception. destruct (is_transport_error e); auto. Qed.

Lemma run_call_bytes MAX pow k l c :
  byte_call k -> byte_state l -> byte_state (light_after (run_call MAX pow k l c)).
Proof.
  destruct k as [send kw|send|[b|e]|p|a]; cbn [run_call byte_call silent light_after];
    intros Hk Hl; try exact Hl.
  - unfold async_turn_on.
    destruct (apply_kwargs kw l) as [l1 [e|]] eqn:Ha;
      pose proof (apply_kwargs_bytes kw l l1 _ Hk Hl Ha) as Hl1;
      [exact Hl1|].
    unfold run_commands.
    destruct (turn_on_commands MAX pow l1 c) as [[[|m ms]|e] c'];
      [exact Hl1| |apply on_exception_bytes, Hl1].
    destruct (send (m :: ms)) as [u|e]; cbn [light_after];
      [exact Hl1|apply on_exception_bytes, Hl1].
  - unfold async_turn_off, run_commands.
    destruct (turn_off_commands l c) as [[[|m ms]|e] c'];
      [exact Hl| |apply on_exception_bytes, Hl].
    destruct (send (m :: ms)) as [u|e]; cbn [light_after];
      [|apply on_exception_bytes, Hl].
    destruct Hl as (_ & Hc & Hw). split; [|split; assumption].
    unfold is_byte. simpl. lia.
  - cbn [async_update]. apply on_exception_bytes, Hl.
Qed.

Lemma run_call_in_range pow k l c cmds :
  byte_call k -> byte_state l ->
  sent (run_call 254 pow k l c) = Some cmds ->
  Forall (in_range 254) cmds.
Proof.
  destruct k as [send kw|send|connected|p|a]; cbn [run_call byte_call silent sent];
    intros Hk Hl Hs; try discriminate.
  - destruct (async_turn_on_sent_inv 254 pow send kw l c cmds Hs) as (c' & Hg).
    destruct (apply_kwargs kw l) as [l1 e] eqn:Ha. cbn [fst] in Hg.
    apply (turn_on_commands_in_range pow l1 c cmds c'); [|exact Hg].
    apply (apply_kwargs_bytes kw l l1 e Hk Hl Ha).
  - unfold async_turn_off in Hs. apply run_commands_sent_inv in Hs.
    destruct Hs as (c' & Hg & _).
    destruct (turn_off_commands_zeros l c) as (cmds0 & c0 & Hg0 & _ & Hz).
    rewrite Hg in Hg0. inversion Hg0; subst.
    apply Forall_impl with (2 := Hz). apply zero_message_in_range.
Qed.

Lemma run_calls_in_range pow calls :
  forall l c,
    Forall byte_call calls -> byte_state l ->
    Forall (fun o => byte_state (light_after o)
                     /\ forall cmds, sent o = Some cmds -> Forall (in_range 254) cmds)
           (run_calls 254 pow calls l c).
Proof.
  induction calls as [|k calls IH]; intros l c Hk Hl; cbn [run_calls]; [constructor|].
  inversion Hk as [|k0 ks Hk0 Hks]; subst.
  pose proof (run_call_bytes 254 pow k l c Hk0 Hl) as Hl'.
  constructor.
  - split; [exact Hl'|]. intros cmds Hs. apply (run_call_in_range pow k l c cmds Hk0 Hl Hs).
  - apply IH; assumption.
Qed.

(** X15: along the whole life of a light, every value handed to the transport
    is within the range of the wire. Start from a light as [__init__]
    leaves it, with any address, name, line and protocol string, and make
    any series of calls of its methods (turning on with bytes for the
    brightness and the colours and any colour temperature, turning off,
    updating, changing the protocol or the address), with sends that
    succeed or fail in any pattern, and with the DALI maximum 254: after
    every call the stored brightness and colours are bytes, and in every
    sequence that is sent the DMX levels and the DTR bytes are within
    0..255 and the ARC levels within 0..254. *)
Theorem sent_values_stay_in_range :
  forall pow calls address name protocol line c,
    Forall byte_call calls ->
    Forall (fun o => byte_state (light_after o)
                     /\ forall cmds, sent o = Some cmds -> Forall (in_range 254) cmds)
           (run_calls 254 pow calls (ControlFreakLight address name protocol line) c).
Proof.
  intros pow calls address name protocol line c Hk.
  apply run_calls_in_range; [exact Hk|].
  unfold byte_state, byte_rgb, byte_rgbw, is_byte. simpl. lia.
Qed.

Lemma sent_values_stay_in_range_witness_calls :
  Forall byte_call
    [call_turn_on send_delivers (kwargs_rgb 128 (255, 0, 0));
     call_set_protocol PROTOCOL_DALI_DT8_CCT;
     call_turn_on send_times_out (kwargs_kelvin 3333);
     call_update (Ok true);
     call_turn_off send_delivers].
Proof.
  repeat constructor; unfold byte_option, byte_rgb, is_byte; simpl; lia.
Qed.

Lemma sent_values_stay_in_range_witness :
  Forall (fun o => byte_state (light_after o)
                   /\ forall cmds, sent o = Some cmds -> Forall (in_range 254) cmds)
         (run_calls 254 libm_unreached
            [call_turn_on send_delivers (kwargs_rgb 128 (255, 0, 0));
             call_set_protocol PROTOCOL_DALI_DT8_CCT;
             call_turn_on send_times_out (kwargs_kelvin 3333);
             call_update (Ok true);
             call_turn_off send_delivers]
            (ControlFreakLight 10 "spot" PROTOCOL_DALI_RGB 1) 0).
Proof.
  exact (sent_values_stay_in_range libm_unreached
           [call_turn_on send_delivers (kwargs_rgb 128 (255, 0, 0));
            call_set_protocol PROTOCOL_DALI_DT8_CCT;
            call_turn_on send_times_out (kwargs_kelvin 3333);
            call_update (Ok true);
            call_turn_off send_delivers]
           10 "spot" PROTOCOL_DALI_RGB 1 0
           sent_values_stay_in_range_witness_calls).
Defined.

(** ** The 16-bit coordinates of [rgb_to_xy_16bit] *)

Lemma shr_1_halves (r : shr_record) :
  0 <= shr_m r -> 2 * shr_m (shr_1 r) <= shr_m r.
Proof.
  destruct r as [m rb sb]. simpl. intros Hm.
  destruct m as [|[p|p|]|p]; simpl; lia.
Qed.

Lemma iter_shr_1_shifts (p : positive) :
  forall r, 0 <= shr_m r ->
            shr_m (SpecFloat.iter_pos shr_1 p r) * 2 ^ Zpos p <= shr_m r.
Proof.
  induction p as [p IH|p IH|]; intros r Hr; cbn [SpecFloat.iter_pos].
  - pose proof (shr_1_bounds r Hr) as B1. pose proof (shr_1_halves r Hr) as H1.
    pose proof (iter_shr_1_bounds p (shr_1 r) (proj1 B1)) as B2.
    pose proof (IH (shr_1 r) (proj1 B1)) as H2.
    pose proof (iter_shr_1_bounds p _ (proj1 B2)) as B3.
    pose proof (IH _ (proj1 B2)) as H3.
    assert (Hpow : 2 ^ Zpos p~1 = 2 ^ Zpos p * 2 ^ Zpos p * 2).
    { rewrite <- Z.pow_add_r by lia. rewrite Z.mul_comm, <- Z.pow_succ_r by lia.
      f_equal. lia. }
    rewrite Hpow.
    assert (0 < 2 ^ Zpos p) by (apply Z.pow_pos_nonneg; lia). nia.
  - pose proof (iter_shr_1_bounds p r Hr) as B2.
    pose proof (IH r Hr) as H2.
    pose proof (IH _ (proj1 B2)) as H3.
    pose proof (iter_shr_1_bounds p _ (proj1 B2)) as B3.
    assert (Hpow : 2 ^ Zpos p~0 = 2 ^ Zpos p * 2 ^ Zpos p).
    { rewrite <- Z.pow_add_r by lia. f_equal. lia. }
    rewrite Hpow.
    assert (0 < 2 ^ Zpos p) by (apply Z.pow_pos_nonneg; lia). nia.
  - pose proof (shr_1_halves r Hr). change (2 ^ 1) with 2. lia.
Qed.

Lemma shr_fexp_value (m e : Z) (l : location) :
  0 <= m ->
  e <= snd (shr_fexp prec emax m e l)
  /\ shr_m (fst (shr_fexp prec emax m e l)) * 2 ^ (snd (shr_fexp prec emax m e l) - e) <= m.
Proof.
  intros Hm. unfold shr_fexp, shr.
  assert (Hrec : shr_m (shr_record_of_loc m l) = m).
  { destruct l as [|[]]; reflexivity. }
  destruct (fexp prec emax (Zdigits2 m + e) - e) as [|p|p] eqn:En; cbn [fst snd].
  - rewrite Hrec, Z.sub_diag. change (2 ^ 0) with 1. lia.
  - split; [lia|].
    replace (e + Zpos p - e) with (Zpos p) by lia.
    pose proof (iter_shr_1_shifts p (shr_record_of_loc m l)) as H.
    rewrite Hrec in H. apply H, Hm.
  - rewrite Hrec, Z.sub_diag. change (2 ^ 0) with 1. lia.
Qed.

(** The rounded product of a mantissa pair stays below the next integer
    above its exact bound. *)
Lemma binary_round_aux_int_bound (f : float) (mx ex B : Z) :
  0 <= mx < 2 ^ 106 -> ex <= -89 -> 0 <= B -> mx < B * 2 ^ (- ex) ->
  Prim2SF f = binary_round_aux prec emax false mx ex loc_Exact ->
  exists z, py_int f = Ok z /\ 0 <= z <= B.
Proof.
  intros Hm He HB Hlt Hf. unfold py_int. rewrite Hf. unfold binary_round_aux.
  pose proof (shr_fexp_bounds mx ex 106 loc_Exact ltac:(lia) Hm) as [Hm1 He1].
  pose proof (shr_fexp_value mx ex loc_Exact (proj1 Hm)) as [Hge1 Hv1].
  destruct (shr_fexp prec emax mx ex loc_Exact) as [mrs' e'] eqn:E1.
  cbn [fst snd] in Hm1, He1, Hge1, Hv1.
  pose proof (round_nearest_even_bounds (shr_m mrs') (loc_of_shr_record mrs')
                                        (proj1 Hm1)) as Hr.
  set (m1 := round_nearest_even (shr_m mrs') (loc_of_shr_record mrs')) in *.
  assert (Hm1' : 0 <= m1 < 2 ^ 107).
  { change (2 ^ 107) with (2 * 2 ^ 106). lia. }
  pose proof (shr_fexp_bounds m1 e' 107 loc_Exact ltac:(lia) Hm1') as [Hm2 He2].
  pose proof (shr_fexp_value m1 e' loc_Exact (proj1 Hm1')) as [Hge2 Hv2].
  destruct (shr_fexp prec emax m1 e' loc_Exact) as [mrs'' e''] eqn:E2.
  cbn [fst snd] in Hm2, He2, Hge2, Hv2.
  assert (He'neg : e' <= -36) by lia.
  (* the value inequality, scaled by 2 ^ (- ex) *)
  set (a := e' - ex) in *. set (b := e'' - e') in *.
  assert (Ha : 0 <= a) by lia. assert (Hb : 0 <= b) by lia.
  assert (HA : 0 < 2 ^ a) by (apply Z.pow_pos_nonneg; lia).
  assert (HBp : 0 < 2 ^ b) by (apply Z.pow_pos_nonneg; lia).
  assert (Hsplit : 2 ^ (- ex) = 2 ^ a * 2 ^ (- e')).
  { rewrite <- Z.pow_add_r by lia. f_equal. lia. }
  assert (HE : 1 <= 2 ^ (- e')).
  { assert (0 < 2 ^ (- e')) by (apply Z.pow_pos_nonneg; lia). lia. }
  assert (Hkey : shr_m mrs'' * 2 ^ b * 2 ^ a < (B + 1) * 2 ^ (- ex)).
  { rewrite Hsplit. nia. }
  destruct (shr_m mrs'') as [|p|p] eqn:Ep; [exists 0; split; [reflexivity|lia]| |exfalso; lia].
  assert (Hle : (e'' <=? emax - prec) = true).
  { apply Z.leb_le. unfold emax, prec. lia. }
  rewrite Hle.
  assert (HX : 0 < 2 ^ (- ex)) by (apply Z.pow_pos_nonneg; lia).
  destruct e'' as [|k|k] eqn:Ee.
  - (* exponent 0 *)
    eexists. split; [reflexivity|]. rewrite Z.shiftl_0_r.
    assert (Hx : 2 ^ a * 2 ^ b = 2 ^ (- ex)).
    { rewrite <- Z.pow_add_r by lia. f_equal. lia. }
    rewrite <- Z.mul_assoc, (Z.mul_comm (2 ^ b)), Hx in Hkey.
    apply Z.mul_lt_mono_pos_r in Hkey; lia.
  - eexists. split; [reflexivity|]. rewrite Z.shiftl_mul_pow2 by lia.
    assert (Hx : 2 ^ a * 2 ^ b = 2 ^ Zpos k * 2 ^ (- ex)).
    { rewrite <- !Z.pow_add_r by lia. f_equal. lia. }
    rewrite <- Z.mul_assoc, (Z.mul_comm (2 ^ b)), Hx, Z.mul_assoc in Hkey.
    apply Z.mul_lt_mono_pos_r in Hkey; [|lia].
    assert (HK : 0 < 2 ^ Zpos k) by (apply Z.pow_pos_nonneg; lia).
    nia.
  - eexists. split; [reflexivity|].
    rewrite Z.shiftr_div_pow2 by lia.
    assert (Hx : 2 ^ (- ex) = 2 ^ Zpos k * (2 ^ a * 2 ^ b)).
    { rewrite <- !Z.pow_add_r by lia. f_equal. lia. }
    assert (HK : 0 < 2 ^ Zpos k) by (apply Z.pow_pos_nonneg; lia).
    assert (Hk' : Zpos p * (2 ^ a * 2 ^ b) < (B + 1) * 2 ^ Zpos k * (2 ^ a * 2 ^ b)).
    { rewrite Hx in Hkey. lia. }
    apply Z.mul_lt_mono_pos_r in Hk'; [|nia].
    split; [apply Z.div_pos; lia|].
    assert (Zpos p / 2 ^ Zpos k < B + 1).
    { apply Z.div_lt_upper_bound; lia. }
    lia.
Qed.

(** A double strictly between 0 and 1, as a mantissa and an exponent
    whose value is below 1. *)
Lemma unit_interval_SF_value (x : float) :
  (0 <? x)%float = true -> (x <? 1)%float = true ->
  exists m e, Prim2SF x = S754_finite false m e
              /\ Zpos m < 2 ^ 53 /\ e <= -52 /\ Zpos m < 2 ^ (- e).
Proof.
  intros H0 H1.
  destruct (unit_interval_SF x H0 H1) as (m & e & Hx & Hm & He).
  exists m, e. repeat split; try assumption.
  rewrite ltb_spec in H1. rewrite Hx in H1.
  change (Prim2SF 1) with (S754_finite false 4503599627370496 (-52)) in H1.
  unfold SFltb, SFcompare in H1.
  destruct (e ?= -52) eqn:Ec; try discriminate.
  - apply Z.compare_eq in Ec. subst e.
    destruct (Pos.compare_cont Eq m 4503599627370496) eqn:Em; try discriminate.
    assert (Hlt : (m < 4503599627370496)%positive) by exact Em.
    assert (E52 : 2 ^ (- -52) = 4503599627370496) by reflexivity.
    rewrite E52. apply Pos2Z.pos_lt_pos. exact Hlt.
  - rewrite Z.compare_lt_iff in Ec.
    apply Z.lt_le_trans with (1 := Hm). apply Z.pow_le_mono_r; lia.
Qed.

Lemma clamp_unit_scaled_16bit (x : float) :
  exists z, py_int (clamp_unit x * 65535)%float = Ok z /\ 0 <= z <= 65535.
Proof.
  unfold clamp_unit.
  destruct (x <? 1)%float eqn:H1.
  - destruct (0 <? x)%float eqn:H0.
    + destruct (unit_interval_SF_value x H0 H1) as (m & e & Hx & Hm & He & Hv).
      apply (binary_round_aux_int_bound _ (Zpos (m * 9007061815787520)) (e + -37) 65535).
      * rewrite Pos2Z.inj_mul. split; [lia|].
        change (2 ^ 106) with (2 ^ 53 * 2 ^ 53).
        apply Z.mul_lt_mono_nonneg; lia.
      * lia.
      * lia.
      * rewrite Pos2Z.inj_mul.
        replace (- (e + -37)) with (- e + 37) by lia.
        rewrite Z.pow_add_r by lia.
        change (Zpos 9007061815787520) with (65535 * 2 ^ 37).
        assert (0 < 2 ^ 37) by (apply Z.pow_pos_nonneg; lia).
        nia.
      * rewrite mul_spec, Hx.
        change (Prim2SF 65535) with (S754_finite false 9007061815787520 (-37)).
        reflexivity.
    + exists 0. split; [vm_compute; reflexivity|lia].
  - exists 65535. split; [vm_compute; reflexivity|lia].
Qed.

Lemma xy_of_linear_16bit (r g b : float) :
  exists x y, xy_of_linear r g b = Ok (x, y)
              /\ 0 <= x <= 65535 /\ 0 <= y <= 65535.
Proof.
  unfold xy_of_linear.
  match goal with |- context [py_int (clamp_unit ?a * 65535)%float] =>
    destruct (clamp_unit_scaled_16bit a) as (x & Hx & Bx); rewrite Hx end.
  cbn [rbind].
  match goal with |- context [py_int (clamp_unit ?a * 65535)%float] =>
    destruct (clamp_unit_scaled_16bit a) as (y & Hy & By); rewrite Hy end.
  cbn [rbind]. exists x, y. auto.
Qed.

Lemma two_bytes (v : Z) : 0 <= v <= 65535 -> lsb v + 256 * msb v = v.
Proof.
  intros Hv. rewrite (proj1 (split_bytes v)). apply Z.mod_small. lia.
Qed.

(** X16: for every RGB triple of bytes, [rgb_to_xy_16bit] returns a pair of
    integers from 0 to 65535, whatever the C library's power function
    returns: each coordinate fits the two DTR bytes the DALI_DT8_XY branch
    sends, and the low and the high byte put together give the coordinate
    back. *)
Theorem rgb_to_xy_16bit_within_16_bits :
  forall pow r g b,
    is_byte r -> is_byte g -> is_byte b ->
    exists x y,
      rgb_to_xy_16bit pow (Int r) (Int g) (Int b) = Ok (x, y)
      /\ 0 <= x <= 65535 /\ 0 <= y <= 65535
      /\ lsb x + 256 * msb x = x
      /\ lsb y + 256 * msb y = y.
Proof.
  intros pow r g b Hr Hg Hb. unfold rgb_to_xy_16bit.
  destruct (normalize_byte r Hr) as [fr ->].
  destruct (normalize_byte g Hg) as [fg ->].
  destruct (normalize_byte b Hb) as [fb ->].
  cbn [rbind].
  destruct (xy_of_linear_16bit (gamma pow fr) (gamma pow fg) (gamma pow fb))
    as (x & y & Hxy & Bx & By).
  exists x, y. repeat split; try assumption; try lia; apply two_bytes; assumption.
Qed.

Lemma rgb_to_xy_16bit_within_16_bits_witness :
  exists x y,
    rgb_to_xy_16bit libm_unreached (Int 255) (Int 0) (Int 5) = Ok (x, y)
    /\ 0 <= x <= 65535 /\ 0 <= y <= 65535
    /\ lsb x + 256 * msb x = x
    /\ lsb y + 256 * msb y = y.
Proof.
  assert (H255 : is_byte 255) by (unfold is_byte; lia).
  assert (H0 : is_byte 0) by (unfold is_byte; lia).
  assert (H5 : is_byte 5) by (unfold is_byte; lia).
  exact (rgb_to_xy_16bit_within_16_bits libm_unreached 255 0 5 H255 H0 H5).
Defined.


(** ** The colour mode and the colour that is sent *)

Lemma in_protocols_unknown p ps :
  ~ In p PROTOCOLS -> (forall q, In q ps -> In q PROTOCOLS) -> in_protocols p ps = false.
Proof.
  intros Hn Hs. unfold in_protocols.
  induction ps as [|q ps IH]; [reflexivity|].
  cbn [existsb]. rewrite (unknown_protocol_eqb p q Hn) by (apply Hs; left; reflexivity).
  apply IH. intros q' Hq'. apply Hs. right. exact Hq'.
Qed.

Lemma color_mode_unknown l : ~ In (_protocol l) PROTOCOLS -> color_mode l = ColorMode.BRIGHTNESS.
Proof.
  intros Hn. unfold color_mode.
  rewrite !(in_protocols_unknown _ _ Hn) by (intros q Hq; cbn [In] in Hq;
    unfold PROTOCOLS; cbn [In]; tauto).
  rewrite (unknown_protocol_eqb _ PROTOCOL_DALI_DT8_CCT Hn) by known_protocol.
  reflexivity.
Qed.

(** X17: the entity reports exactly one supported colour mode, the current
    one, and the colour of that mode is the only stored colour the
    command generation reads. The RGBW tuple is reported if and only if
    the mode is RGBW; outside the colour-temperature mode both mired
    bounds are [None]; a protocol string outside the enumeration gives
    the brightness mode. Changing the stored RGB triple of a light whose
    mode is not RGB, or the stored RGBW tuple of a light whose mode is
    not RGBW, changes no command of a turn-on. *)
Theorem color_mode_names_the_colour_that_is_sent :
  forall MAX pow l,
    supported_color_modes l = [color_mode l]
    /\ (rgbw_color l = Some (_rgbw_color l) <-> color_mode l = ColorMode.RGBW)
    /\ (rgbw_color l = None <-> color_mode l <> ColorMode.RGBW)
    /\ (color_mode l <> ColorMode.COLOR_TEMP ->
        min_mireds l = Ok None /\ max_mireds l = Ok None)
    /\ (~ In (_protocol l) PROTOCOLS -> color_mode l = ColorMode.BRIGHTNESS)
    /\ (color_mode l <> ColorMode.RGB ->
        forall v, turn_on_commands MAX pow (with_rgb_color v l)
                  = turn_on_commands MAX pow l)
    /\ (color_mode l <> ColorMode.RGBW ->
        forall v, turn_on_commands MAX pow (with_rgbw_color v l)
                  = turn_on_commands MAX pow l).
Proof.
  intros MAX pow l.
  destruct (in_dec string_dec (_protocol l) PROTOCOLS) as [Hin|Hn].
  - unfold PROTOCOLS in Hin. cbn [In] in Hin.
    unfold supported_color_modes, color_mode, rgbw_color, min_mireds, max_mireds,
      turn_on_commands, dali_dt8_cct_value, max_mireds, min_mireds,
      arc_level, dmx, type8_command.
    cbn [with_rgb_color with_rgbw_color _protocol _brightness _rgb_color _rgbw_color
         _color_temp _address _line _attr_min_color_temp_kelvin
         _attr_max_color_temp_kelvin].
    destruct Hin as [Hp|[Hp|[Hp|[Hp|[Hp|[Hp|[Hp|[Hp|[]]]]]]]]]; rewrite <- Hp;
      cbn [in_protocols existsb];
      repeat split;
      first [ reflexivity | discriminate | congruence
            | intros H; exfalso; apply H; known_protocol
            | intros _ v; reflexivity
            | intros _; split; reflexivity
            | exfalso; match goal with H : _ <> _ |- _ => apply H; reflexivity end ].
  - pose proof (color_mode_unknown l Hn) as Hm.
    assert (Hs : supported_color_modes l = [ColorMode.BRIGHTNESS]).
    { unfold supported_color_modes.
      rewrite !(in_protocols_unknown _ _ Hn) by (intros q Hq; cbn [In] in Hq;
        unfold PROTOCOLS; cbn [In]; tauto).
      rewrite (unknown_protocol_eqb _ PROTOCOL_DALI_DT8_CCT Hn) by known_protocol.
      reflexivity. }
    assert (Hw : rgbw_color l = None).
    { unfold rgbw_color.
      rewrite !(in_protocols_unknown _ _ Hn) by (intros q Hq; cbn [In] in Hq;
        unfold PROTOCOLS; cbn [In]; tauto).
      reflexivity. }
    rewrite Hm, Hs, Hw. unfold min_mireds, max_mireds.
    rewrite (unknown_protocol_eqb _ PROTOCOL_DALI_DT8_CCT Hn) by known_protocol.
    repeat split; try reflexivity; try discriminate; try congruence.
    + intros _ v. rewrite !turn_on_commands_unknown by exact Hn. reflexivity.
    + intros _ v. rewrite !turn_on_commands_unknown by exact Hn. reflexivity.
Qed.


(** ** The entities of the platform and their unique ids *)

Lemma unique_id_of_injective DOMAIN s t :
  unique_id_of DOMAIN s = unique_id_of DOMAIN t -> s = t.
Proof.
  unfold unique_id_of. induction DOMAIN as [|a p IH]; cbn [String.append].
  - intros H. inversion H. reflexivity.
  - intros H. inversion H. auto.
Qed.

Lemma NoDup_map_injective {A B : Type} (f : A -> B) (l : list A) :
  (forall x y, f x = f y -> x = y) -> NoDup l -> NoDup (List.map f l).
Proof.
  intros Hinj Hnd. induction Hnd as [|x l Hx Hnd IH]; cbn [List.map]; constructor.
  - intros Hin. apply in_map_iff in Hin. destruct Hin as (y & Hy & Hyin).
    apply Hinj in Hy. subst. contradiction.
  - exact IH.
Qed.

Lemma entities_to_add_skip DOMAIN uuid4 d rest n :
  complete d = false ->
  entities_to_add DOMAIN uuid4 (d :: rest) n = entities_to_add DOMAIN uuid4 rest n.
Proof.
  destruct d as [[i|] [nm|] [ad|] [pr|] ln]; cbn; intros H;
    reflexivity || discriminate.
Qed.

Lemma entities_to_add_keep DOMAIN uuid4 d rest n :
  complete d = true -> stored_id d <> EmptyString ->
  entities_to_add DOMAIN uuid4 (d :: rest) n
  = ({| entity_state := configured_light d;
        _attr_unique_id := unique_id_of DOMAIN (stored_id d);
        _stable_id_value := stored_id d |}
       :: fst (entities_to_add DOMAIN uuid4 rest n),
     snd (entities_to_add DOMAIN uuid4 rest n)).
Proof.
  destruct d as [[[|a s]|] [nm|] [ad|] [pr|] ln]; cbn; intros H Hs;
    try discriminate; try (exfalso; apply Hs; reflexivity);
    destruct (entities_to_add DOMAIN uuid4 rest n); reflexivity.
Qed.

Lemma entities_to_add_stored DOMAIN uuid4 lights_config :
  forall n,
    Forall (fun d => complete d = true -> stored_id d <> EmptyString) lights_config ->
    entities_to_add DOMAIN uuid4 lights_config n
    = (List.map (fun d => {| entity_state := configured_light d;
                             _attr_unique_id := unique_id_of DOMAIN (stored_id d);
                             _stable_id_value := stored_id d |})
                (filter complete lights_config), n).
Proof.
  induction lights_config as [|d rest IH]; intros n Hids; [reflexivity|].
  inversion Hids as [|d0 r0 Hd Hrest]; subst.
  cbn [filter]. destruct (complete d) eqn:Hc.
  - rewrite (entities_to_add_keep DOMAIN uuid4 d rest n Hc (Hd eq_refl)).
    rewrite (IH n Hrest). reflexivity.
  - rewrite (entities_to_add_skip DOMAIN uuid4 d rest n Hc). apply IH, Hrest.
Qed.

(** X18: the light platform creates one entity for every entry of the
    configuration that has an id, an address, a name and a protocol, in
    the order of the configuration, and skips the others without
    touching their neighbours; the line defaults to 1. When the stored
    ids are not empty, no UUID is drawn and each unique id is the domain,
    an underscore and the stored id: the unique ids are the same on every
    setup of the same configuration, whatever the UUID source would
    return, and entries with different stored ids get different unique
    ids. [async_add_entities] is called exactly when some entry is
    complete, and the id closure starts at 0 on every setup. *)
Theorem unique_ids_follow_the_stored_ids :
  forall DOMAIN uuid4 lights_config n,
    Forall (fun d => complete d = true -> stored_id d <> EmptyString) lights_config ->
    List.map entity_state (entities (async_setup_entry DOMAIN uuid4 lights_config n))
    = List.map configured_light (filter complete lights_config)
    /\ List.map _attr_unique_id (entities (async_setup_entry DOMAIN uuid4 lights_config n))
       = List.map (fun d => unique_id_of DOMAIN (stored_id d))
                  (filter complete lights_config)
    /\ uuids_drawn (async_setup_entry DOMAIN uuid4 lights_config n) = n
    /\ current_id (async_setup_entry DOMAIN uuid4 lights_config n) = 0
    /\ (async_add_entities (async_setup_entry DOMAIN uuid4 lights_config n) = None
        <-> filter complete lights_config = [])
    /\ (NoDup (List.map stored_id (filter complete lights_config)) ->
        NoDup (List.map _attr_unique_id
                 (entities (async_setup_entry DOMAIN uuid4 lights_config n)))).
Proof.
  intros DOMAIN uuid4 lights_config n Hids.
  unfold async_setup_entry, entities.
  rewrite (entities_to_add_stored DOMAIN uuid4 lights_config n Hids).
  set (kept := filter complete lights_config).
  cbn [async_add_entities current_id uuids_drawn].
  assert (Hes : match
                  match List.map (fun d => {| entity_state := configured_light d;
                                              _attr_unique_id := unique_id_of DOMAIN (stored_id d);
                                              _stable_id_value := stored_id d |}) kept with
                  | [] => None
                  | _ :: _ => Some (List.map (fun d => {| entity_state := configured_light d;
                                              _attr_unique_id := unique_id_of DOMAIN (stored_id d);
                                              _stable_id_value := stored_id d |}) kept)
                  end
                with
                | Some es => es
                | None => []
                end
                = List.map (fun d => {| entity_state := configured_light d;
                                        _attr_unique_id := unique_id_of DOMAIN (stored_id d);
                                        _stable_id_value := stored_id d |}) kept).
  { destruct kept; reflexivity. }
  rewrite Hes. rewrite !map_map. cbn [entity_state _attr_unique_id].
  repeat split; try reflexivity.
  - destruct kept; [reflexivity|discriminate].
  - destruct kept; [reflexivity|discriminate].
  - intros Hnd. rewrite <- (map_map stored_id (unique_id_of DOMAIN)).
    apply NoDup_map_injective; [|exact Hnd].
    intros s t. apply unique_id_of_injective.
Qed.

Lemma unique_ids_follow_the_stored_ids_witness :
  List.map _attr_unique_id
    (entities
       (async_setup_entry "control_freak" (fun _ => "fresh"%string)
          [ {| CONF_LIGHT_ID := Some "a1"%string; CONF_LIGHT_NAME := Some "hall"%string;
               CONF_LIGHT_ADDRESS := Some 7; CONF_LIGHT_PROTOCOL := Some PROTOCOL_DALI_WHITE;
               CONF_LIGHT_LINE := None |};
            {| CONF_LIGHT_ID := Some "b2"%string; CONF_LIGHT_NAME := None;
               CONF_LIGHT_ADDRESS := Some 8; CONF_LIGHT_PROTOCOL := Some PROTOCOL_DMX_RGB;
               CONF_LIGHT_LINE := Some 2 |};
            {| CONF_LIGHT_ID := Some "c3"%string; CONF_LIGHT_NAME := Some "wash"%string;
               CONF_LIGHT_ADDRESS := Some 5; CONF_LIGHT_PROTOCOL := Some PROTOCOL_DMX_RGB;
               CONF_LIGHT_LINE := Some 2 |} ] 0))
  = ["control_freak_a1"; "control_freak_c3"]%string.
Proof.
  refine (proj1 (proj2
    (unique_ids_follow_the_stored_ids "control_freak" (fun _ => "fresh"%string)
       [ {| CONF_LIGHT_ID := Some "a1"%string; CONF_LIGHT_NAME := Some "hall"%string;
            CONF_LIGHT_ADDRESS := Some 7; CONF_LIGHT_PROTOCOL := Some PROTOCOL_DALI_WHITE;
            CONF_LIGHT_LINE := None |};
         {| CONF_LIGHT_ID := Some "b2"%string; CONF_LIGHT_NAME := None;
            CONF_LIGHT_ADDRESS := Some 8; CONF_LIGHT_PROTOCOL := Some PROTOCOL_DMX_RGB;
            CONF_LIGHT_LINE := Some 2 |};
         {| CONF_LIGHT_ID := Some "c3"%string; CONF_LIGHT_NAME := Some "wash"%string;
            CONF_LIGHT_ADDRESS := Some 5; CONF_LIGHT_PROTOCOL := Some PROTOCOL_DMX_RGB;
            CONF_LIGHT_LINE := Some 2 |} ] 0 _))).
  repeat constructor; intros _; discriminate.
Defined.

(** X19: an entry whose stored id is the empty string still counts as having
    an id, but [__init__] takes the empty string for a missing one: the
    entity gets a newly drawn UUID, so its unique id follows the UUID
    source and differs from one setup to the next whenever that source
    does. *)
Theorem empty_stored_id_is_replaced_by_a_uuid :
  forall DOMAIN uuid4 d rest n,
    complete d = true ->
    CONF_LIGHT_ID d = Some EmptyString ->
    exists e es,
      entities (async_setup_entry DOMAIN uuid4 (d :: rest) n) = e :: es
      /\ entity_state e = configured_light d
      /\ _stable_id_value e = uuid4 n
      /\ _attr_unique_id e = unique_id_of DOMAIN (uuid4 n)
      /\ uuids_drawn (async_setup_entry DOMAIN uuid4 (d :: rest) n)
         = uuids_drawn (async_setup_entry DOMAIN uuid4 rest (S n)).
Proof.
  intros DOMAIN uuid4 d rest n Hc Hid.
  unfold async_setup_entry, entities, complete, configured_light in *.
  cbn [entities_to_add]. rewrite Hid in *.
  destruct (CONF_LIGHT_ADDRESS d) as [address|]; [|discriminate].
  destruct (CONF_LIGHT_NAME d) as [name|]; [|discriminate].
  destruct (CONF_LIGHT_PROTOCOL d) as [protocol|]; [|discriminate].
  cbn [new_entity].
  destruct (entities_to_add DOMAIN uuid4 rest (S n)) as [es n2].
  cbn [async_add_entities uuids_drawn].
  eexists _, es. repeat split.
Qed.

Lemma empty_stored_id_is_replaced_by_a_uuid_witness :
  exists e es,
    entities
      (async_setup_entry "control_freak" (fun _ => "fresh"%string)
         [ {| CONF_LIGHT_ID := Some EmptyString; CONF_LIGHT_NAME := Some "hall"%string;
              CONF_LIGHT_ADDRESS := Some 7; CONF_LIGHT_PROTOCOL := Some PROTOCOL_DALI_WHITE;
              CONF_LIGHT_LINE := None |} ] 0) = e :: es
    /\ _attr_unique_id e = "control_freak_fresh"%string.
Proof.
  destruct (empty_stored_id_is_replaced_by_a_uuid "control_freak" (fun _ => "fresh"%string)
              {| CONF_LIGHT_ID := Some EmptyString; CONF_LIGHT_NAME := Some "hall"%string;
                 CONF_LIGHT_ADDRESS := Some 7; CONF_LIGHT_PROTOCOL := Some PROTOCOL_DALI_WHITE;
                 CONF_LIGHT_LINE := None |} [] 0 eq_refl eq_refl)
    as (e & es & He & _ & _ & Hu & _).
  exists e, es. split; [exact He | exact Hu].
Defined.
